(** * SolarGraph AI: the agent orchestration core

    A shallow embedding of [llm_agent.py], [react_agent.py] and
    [provenance.py]: the single-shot grounding agent with its two cache
    tiers, the ReAct reasoning loop with its session cache, and the
    provenance recorder.

    Modelling conventions.
    - Text is [string]; the Python text methods used by the code
      ([lower], [strip], [in], slicing) are given for ASCII text.
    - [time.time()] readings are integers (seconds); only their order and
      differences matter to the code.
    - Python dictionaries are [gmap]s.  The dictionaries held by the agent
      objects and the two JSON files live in one store, [World], because
      the code mutates them in place and passes them by reference.
    - Everything outside the core (clock, hash, generation service, fact
      base, JSON codec, file system) is a field of [Env].  The n-th call of
      an effectful collaborator is answered by the n-th value of its
      oracle, so a run is a function of the environment.
    - A Python exception is [Raise msg], with [msg] the text of [str(exc)]. *)

From stdpp Require Import gmap strings list sorting.
From Stdlib Require Import ZArith Lia DecimalString.

Set Warnings "-register-all".
Open Scope string_scope.
Open Scope Z_scope.

(** ** Python built-ins on text *)

Module Py.

(** [str.lower()] on one ASCII character: 'A'..'Z' move down by 32. *)
Definition lower_char (c : Ascii.ascii) : Ascii.ascii :=
  let n := Ascii.nat_of_ascii c in
  if ((65 <=? n) && (n <=? 90))%nat then Ascii.ascii_of_nat (n + 32) else c.

Fixpoint lower (s : string) : string :=
  match s with
  | EmptyString => EmptyString
  | String c s' => String (lower_char c) (lower s')
  end.

(** [str.isspace()] on one ASCII character: tab, line feed, vertical tab,
    form feed, carriage return, the four separators 28..31, and space. *)
Definition isspace (c : Ascii.ascii) : bool :=
  let n := Ascii.nat_of_ascii c in
  (((9 <=? n) && (n <=? 13)) || ((28 <=? n) && (n <=? 32)))%nat.

Fixpoint lstrip (s : string) : string :=
  match s with
  | EmptyString => EmptyString
  | String c s' => if isspace c then lstrip s' else s
  end.

Fixpoint rstrip (s : string) : string :=
  match s with
  | EmptyString => EmptyString
  | String c s' =>
      match rstrip s' with
      | EmptyString => if isspace c then EmptyString else String c EmptyString
      | r => String c r
      end
  end.

Definition strip (s : string) : string := rstrip (lstrip s).

(** [needle in haystack] for two strings. *)
Fixpoint contains (needle haystack : string) : bool :=
  String.prefix needle haystack ||
  match haystack with
  | EmptyString => false
  | String _ h' => contains needle h'
  end.

(** The slice [s[:n]]. *)
Fixpoint take_str (n : nat) (s : string) : string :=
  match n, s with
  | O, _ => EmptyString
  | _, EmptyString => EmptyString
  | S n', String c s' => String c (take_str n' s')
  end.

(** Truth value of a string: [bool(s)]. *)
Definition truthy (s : string) : bool :=
  match s with EmptyString => false | _ => true end.

(** [a or b] on strings. *)
Definition str_or (a b : string) : string := if truthy a then a else b.

Definition nl : string := String (Ascii.ascii_of_nat 10) EmptyString.
Definition dq : string := String (Ascii.ascii_of_nat 34) EmptyString.

(** [list(dict.fromkeys(l))]: the first occurrence of every element, in
    encounter order.  [seen] holds the keys already in the dictionary. *)
Fixpoint fromkeys_from (seen l : list string) : list string :=
  match l with
  | [] => []
  | x :: l' =>
      if bool_decide (x ∈ seen) then fromkeys_from seen l'
      else x :: fromkeys_from (x :: seen) l'
  end.

Definition fromkeys (l : list string) : list string := fromkeys_from [] l.

End Py.

(** ** Values exchanged with the outside *)

(** Parsed JSON, as [json.loads] returns it. *)
Inductive json :=
| JNull
| JBool (b : bool)
| JNum (z : Z)
| JStr (s : string)
| JList (l : list json)
| JDict (d : gmap string json).

(** [bool(v)] for a JSON value. *)
Definition json_truthy (v : json) : bool :=
  match v with
  | JNull => false
  | JBool b => b
  | JNum z => negb (z =? 0)
  | JStr s => Py.truthy s
  | JList l => match l with [] => false | _ => true end
  | JDict d => negb (bool_decide (d = ∅))
  end.

(** One result row of the fact base: [dict[str, str]]. *)
Abbreviation row := (gmap string string).

Definition json_of_row (r : row) : json := JDict (JStr <$> r).
Definition json_of_rows (rs : list row) : json := JList (json_of_row <$> rs).

(** The outcome of a Python call: a value, or a raised exception. *)
Inductive Result (A : Type) :=
| Ok (a : A)
| Raise (exc : string).
Arguments Ok {A} a.
Arguments Raise {A} exc.

(** A tool invocation requested by the generation service. *)
Record ToolCall := {
  tc_id : string;
  tc_name : string;        (* tc.function.name *)
  tc_arguments : string    (* tc.function.arguments, JSON text *)
}.

(** One entry of the transcript sent to the generation service. *)
Record Message := {
  role : string;
  content : string;
  tool_calls : list ToolCall;      (* assistant entries only *)
  tool_call_id : option string     (* tool entries only *)
}.

(** [resp.choices[0].message]: [msg_content] may be [None]; an absent
    [tool_calls] is the empty list (both are false in a condition). *)
Record ChatMessage := {
  msg_content : option string;
  msg_tool_calls : list ToolCall
}.

(** A ToolInvocationRecord of the reasoning trace. *)
Record Step := {
  iteration : nat;
  tool : string;
  args : json;
  result_preview : string
}.

(** The result bundle of the reasoning agent. *)
Record ReactResult := {
  answer_text : string;      (* "answer" *)
  steps : list Step;
  iterations : nat;
  cached : bool
}.

(** An entry of cache.json: [{"answer": ..., "ts": ...}]. *)
Record CacheEntry := {
  ce_answer : string;
  ce_ts : Z
}.

(** An entry of react_cache.json: [{"data": ..., "ts": ...}]. *)
Record ReactEntry := {
  re_data : ReactResult;
  re_ts : Z
}.

(** The in-process cache kept by [functools.lru_cache]: the entries with
    the most recently used first, and the two counters of [cache_info()]. *)
Record LruCache := {
  lru_entries : list (string * string);
  lru_hits : nat;
  lru_misses : nat
}.

(** ** The environment of a run *)

Record Env := {
  (* hashlib.sha256(bytes).hexdigest() *)
  sha256_hexdigest : string -> string;
  (* the n-th reading of time.time() / datetime.now() *)
  time_time : nat -> Z;
  (* datetime.isoformat() of a reading *)
  isoformat : Z -> string;
  (* os.getenv("CACHE_TTL_SECONDS", 86400) and os.getenv("LRU_MAXSIZE", 256) *)
  CACHE_TTL_SECONDS : Z;
  LRU_MAXSIZE : nat;
  (* the n-th call of client.chat.completions.create on a transcript *)
  chat_completions_create : nat -> list Message -> Result ChatMessage;
  (* whether the n-th Path.write_text succeeds *)
  write_text_ok : nat -> bool;
  (* json.dumps and json.loads (None: JSONDecodeError) *)
  json_dumps : json -> string;
  json_loads : string -> option json;
  (* the Fact Query Interface: read-only, a function of its arguments *)
  qe_build_context_for_query : string -> Result string;
  qe_sparql : json -> Result (list row);
  qe_get_entity_details : json -> Result (list row);
  qe_search_by_keyword : json -> Result (list row);
  qe_get_absorbers : Result (list row);
  qe_get_cell_architectures : Result (list row);
  qe_get_defects_and_impacts : Result (list row);
  qe_get_relationships : Result (list row);
  qe_get_all_entities : Result (list row)
}.

(** ** The store *)

Record World := {
  w_ticks : nat;     (* clock readings taken so far *)
  w_calls : nat;     (* generation-service calls made so far *)
  w_writes : nat;    (* file writes attempted so far *)
  cache_json : gmap string CacheEntry;        (* llm_agent.CACHE_PATH *)
  react_cache_json : gmap string ReactEntry;  (* react_agent.CACHE_PATH *)
  file_cache : gmap string CacheEntry;        (* LLMAgent._file_cache *)
  build_ctx : LruCache;                       (* LLMAgent._build_ctx *)
  react_cache : gmap string ReactEntry        (* ReActAgent._cache *)
}.

Definition set_ticks (n : nat) (w : World) : World :=
  {| w_ticks := n; w_calls := w_calls w; w_writes := w_writes w;
     cache_json := cache_json w; react_cache_json := react_cache_json w;
     file_cache := file_cache w; build_ctx := build_ctx w;
     react_cache := react_cache w |}.

Definition set_calls (n : nat) (w : World) : World :=
  {| w_ticks := w_ticks w; w_calls := n; w_writes := w_writes w;
     cache_json := cache_json w; react_cache_json := react_cache_json w;
     file_cache := file_cache w; build_ctx := build_ctx w;
     react_cache := react_cache w |}.

Definition set_writes (n : nat) (w : World) : World :=
  {| w_ticks := w_ticks w; w_calls := w_calls w; w_writes := n;
     cache_json := cache_json w; react_cache_json := react_cache_json w;
     file_cache := file_cache w; build_ctx := build_ctx w;
     react_cache := react_cache w |}.

Definition set_cache_json (m : gmap string CacheEntry) (w : World) : World :=
  {| w_ticks := w_ticks w; w_calls := w_calls w; w_writes := w_writes w;
     cache_json := m; react_cache_json := react_cache_json w;
     file_cache := file_cache w; build_ctx := build_ctx w;
     react_cache := react_cache w |}.

Definition set_react_cache_json (m : gmap string ReactEntry) (w : World) : World :=
  {| w_ticks := w_ticks w; w_calls := w_calls w; w_writes := w_writes w;
     cache_json := cache_json w; react_cache_json := m;
     file_cache := file_cache w; build_ctx := build_ctx w;
     react_cache := react_cache w |}.

Definition set_file_cache (m : gmap string CacheEntry) (w : World) : World :=
  {| w_ticks := w_ticks w; w_calls := w_calls w; w_writes := w_writes w;
     cache_json := cache_json w; react_cache_json := react_cache_json w;
     file_cache := m; build_ctx := build_ctx w;
     react_cache := react_cache w |}.

Definition set_build_ctx (c : LruCache) (w : World) : World :=
  {| w_ticks := w_ticks w; w_calls := w_calls w; w_writes := w_writes w;
     cache_json := cache_json w; react_cache_json := react_cache_json w;
     file_cache := file_cache w; build_ctx := c;
     react_cache := react_cache w |}.

Definition set_react_cache (m : gmap string ReactEntry) (w : World) : World :=
  {| w_ticks := w_ticks w; w_calls := w_calls w; w_writes := w_writes w;
     cache_json := cache_json w; react_cache_json := react_cache_json w;
     file_cache := file_cache w; build_ctx := build_ctx w;
     react_cache := m |}.

(** ** Effects: state and exceptions *)

Definition M (A : Type) : Type := World -> Result A * World.

Definition ret {A} (a : A) : M A := fun w => (Ok a, w).

Definition raise {A} (exc : string) : M A := fun w => (Raise exc, w).

Definition bind {A B} (m : M A) (k : A -> M B) : M B :=
  fun w =>
    match m w with
    | (Ok a, w') => k a w'
    | (Raise exc, w') => (Raise exc, w')
    end.

(** [try: m  except Exception as exc: h exc] *)
Definition try_except {A} (m : M A) (h : string -> M A) : M A :=
  fun w =>
    match m w with
    | (Ok a, w') => (Ok a, w')
    | (Raise exc, w') => h exc w'
    end.

(** A call of a pure collaborator that may raise. *)
Definition lift {A} (r : Result A) : M A := fun w => (r, w).

Declare Scope py_scope.
Delimit Scope py_scope with py.
Notation "x <- m ;; k" := (bind m (fun x => k))
  (at level 100, m at next level, right associativity) : py_scope.
Notation "m ;;; k" := (bind m (fun _ => k))
  (at level 100, right associativity) : py_scope.
Open Scope py_scope.

(** A pure call sequence that may raise, outside the store. *)
Definition rbind {A B} (r : Result A) (k : A -> Result B) : Result B :=
  match r with
  | Ok a => k a
  | Raise exc => Raise exc
  end.

(** [time.time()]: the next clock reading. *)
Definition time_now (E : Env) : M Z :=
  fun w => (Ok (time_time E (w_ticks w)), set_ticks (S (w_ticks w)) w).

(** [client.chat.completions.create(messages=...)]: the next reply of the
    generation service, or the exception the transport raises. *)
Definition chat_create (E : Env) (messages : list Message) : M ChatMessage :=
  fun w => (chat_completions_create E (w_calls w) messages,
            set_calls (S (w_calls w)) w).

Definition system_message (text : string) : Message :=
  {| role := "system"; content := text; tool_calls := []; tool_call_id := None |}.

Definition user_message (text : string) : Message :=
  {| role := "user"; content := text; tool_calls := []; tool_call_id := None |}.

(** ** llm_agent.py: the single-shot grounding agent *)

Module LlmAgent.
Section WithEnv.
Context (E : Env).

Definition SYSTEM_PROMPT : string :=
  "You are SolarGraph AI, a specialist Knowledge Graph Assistant for
Photovoltaic (PV) Solar Energy and Materials Science Engineering.

Your ONLY source of truth is the context block provided inside
<KNOWLEDGE_GRAPH_CONTEXT> … </KNOWLEDGE_GRAPH_CONTEXT> tags.

Rules you must always follow:
1. Answer STRICTLY and ONLY using facts present in the knowledge graph context.
2. If the information is not in the context, respond exactly:
   " +:+ Py.dq +:+ "I could not find that information in the PV Solar knowledge graph." +:+ Py.dq +:+ "
3. Format answers in clear, plain English — use bullet points and section headers
   where helpful. Never output raw URIs, SPARQL syntax, or RDF notation.
4. For numeric values (efficiencies, bandgaps, temperatures), always include units.
5. When listing materials, group them by type (absorber, transport layer, electrode, …).
6. Be precise and scientifically accurate. Do not speculate beyond the graph data.
7. Keep answers concise but complete — avoid padding or repetition.
".

(** [_load_cache]: the parsed content of cache.json.  A missing or
    unreadable file reads as the empty dictionary, which is how the store
    represents it. *)
Definition _load_cache : M (gmap string CacheEntry) :=
  fun w => (Ok (cache_json w), w).

(** [_save_cache]: rewrite cache.json with the whole dictionary.  A failed
    write is logged and swallowed; the file then keeps its content. *)
Definition _save_cache (cache : gmap string CacheEntry) : M unit :=
  fun w =>
    let w' := set_writes (S (w_writes w)) w in
    if write_text_ok E (w_writes w)
    then (Ok tt, set_cache_json cache w')
    else (Ok tt, w').

Definition _make_key (query : string) : string :=
  sha256_hexdigest E (Py.lower (Py.strip query)).

(** [_get_cached(key, cache)].  The dictionary argument is always the
    agent's [_file_cache], mutated in place: the [file_cache] of the store.
    The clock is read only when an entry is present. *)
Definition _get_cached (key : string) : M (option string) :=
  fun w =>
    match file_cache w !! key with
    | None => (Ok None, w)
    | Some entry =>
        (now <- time_now E;;
         if CACHE_TTL_SECONDS E <? now - ce_ts entry
         then (fun w1 => (Ok None, set_file_cache (delete key (file_cache w1)) w1))
         else ret (Some (ce_answer entry))) w
    end.

(** [_set_cached(key, answer, cache)] on the agent's [_file_cache]. *)
Definition _set_cached (key answer : string) : M unit :=
  now <- time_now E;;
  (fun w =>
     let cache := <[key := {| ce_answer := answer; ce_ts := now |}]> (file_cache w) in
     _save_cache cache (set_file_cache cache w)).

(** The function returned by [make_cached_context_builder]:
    [qe.build_context_for_query] behind [functools.lru_cache], keyed by
    the raw query text.  A hit moves the entry to the front; a miss counts,
    calls the fact base, and stores the result unless the call raised or
    the capacity is zero; the least recently used entry is evicted when the
    capacity is exceeded. *)
Definition lru_find (query : string) (entries : list (string * string)) : option string :=
  snd <$> List.find (fun kv => String.eqb (fst kv) query) entries.

Definition lru_drop (query : string) (entries : list (string * string)) : list (string * string) :=
  List.filter (fun kv => negb (String.eqb (fst kv) query)) entries.

Definition _build_ctx (query : string) : M string :=
  fun w =>
    let c := build_ctx w in
    match lru_find query (lru_entries c) with
    | Some v =>
        (Ok v,
         set_build_ctx
           {| lru_entries := (query, v) :: lru_drop query (lru_entries c);
              lru_hits := S (lru_hits c); lru_misses := lru_misses c |} w)
    | None =>
        match qe_build_context_for_query E query with
        | Raise exc =>
            (Raise exc,
             set_build_ctx
               {| lru_entries := lru_entries c;
                  lru_hits := lru_hits c; lru_misses := S (lru_misses c) |} w)
        | Ok v =>
            (Ok v,
             set_build_ctx
               {| lru_entries := take (LRU_MAXSIZE E) ((query, v) :: lru_entries c);
                  lru_hits := lru_hits c; lru_misses := S (lru_misses c) |} w)
        end
    end.

(** [self._build_ctx.cache_clear()] *)
Definition cache_clear : M unit :=
  fun w => (Ok tt, set_build_ctx {| lru_entries := []; lru_hits := 0; lru_misses := 0 |} w).

Definition NOT_FOUND : string :=
  "I could not find relevant information in the PV Solar knowledge graph for that query.".

Definition prompt_for (context user_query : string) : string :=
  "<KNOWLEDGE_GRAPH_CONTEXT>" +:+ Py.nl +:+ context +:+ Py.nl +:+
  "</KNOWLEDGE_GRAPH_CONTEXT>" +:+ Py.nl +:+ Py.nl +:+
  "Question: " +:+ user_query.

(** [LLMAgent.__init__], after the credential check: load the file cache
    and start with an empty LRU cache. *)
Definition init : M unit :=
  cache <- _load_cache;;
  (fun w => (Ok tt, set_file_cache cache w));;;
  cache_clear.

(** [LLMAgent.answer], from the "Cache MISS" log line on: layers 2 and 3. *)
Definition answer_on_miss (key user_query : string) : M string :=
  context <- _build_ctx user_query;;
  if negb (Py.truthy (Py.strip context)) then ret NOT_FOUND
  else
    try_except
      (response <- chat_create E [system_message SYSTEM_PROMPT;
                                  user_message (prompt_for context user_query)];;
       match msg_content response with
       | None => raise "'NoneType' object has no attribute 'strip'"
       | Some text =>
           let answer := Py.strip text in
           _set_cached key answer;;;
           ret answer
       end)
      (fun exc => ret ("Error communicating with the LLM: " +:+ exc)).

(** [LLMAgent.answer].  The hit test is [if cached_answer:], the truth
    value of what [_get_cached] returned. *)
Definition answer (user_query : string) : M string :=
  let key := _make_key user_query in
  cached_answer <- _get_cached key;;
  match cached_answer with
  | Some a => if Py.truthy a then ret a else answer_on_miss key user_query
  | None => answer_on_miss key user_query
  end.

(** [LLMAgent.clear_cache] *)
Definition clear_cache : M nat :=
  fun w =>
    let n := size (file_cache w) in
    (_save_cache ∅;;;
     cache_clear;;;
     ret n) (set_file_cache ∅ w).

Record CacheStats := {
  file_cache_entries : nat;
  stat_lru_hits : nat;
  stat_lru_misses : nat;
  lru_maxsize : nat;
  lru_currsize : nat;
  cache_ttl_seconds : Z
}.

(** [LLMAgent.cache_stats] *)
Definition cache_stats : M CacheStats :=
  fun w =>
    (Ok {| file_cache_entries := size (file_cache w);
           stat_lru_hits := lru_hits (build_ctx w);
           stat_lru_misses := lru_misses (build_ctx w);
           lru_maxsize := LRU_MAXSIZE E;
           lru_currsize := length (lru_entries (build_ctx w));
           cache_ttl_seconds := CACHE_TTL_SECONDS E |}, w).

End WithEnv.
End LlmAgent.

(** ** react_agent.py: the multi-step reasoning agent *)

Module ReactAgent.

Definition MAX_ITERATIONS : nat := 6.

Definition SYSTEM_PROMPT : string :=
  "You are SolarGraph AI — a scientific assistant for Photovoltaic (PV)
Solar Energy and Materials Science Engineering.

You have tools to query a formal RDF/OWL knowledge graph. ALWAYS use at least one
tool before giving a final answer. Never rely on training knowledge alone.

Rules:
1. Use tools to retrieve facts, then reason over the results.
2. If a first query is insufficient, run a follow-up query.
3. Cite specific entity names and relationships from your tool results.
4. Include units for all numeric data (%, eV, mA/cm², V …).
5. Structure your final answer with clear headings and bullet points.
6. End your answer with a brief " +:+ Py.dq +:+ "## Sources" +:+ Py.dq +:+ " section listing the tools you used.
".

(** Which [return] of [ReActAgent.answer] produced the result: the cache
    hit, the final model message, or the end of the iteration budget.  The
    Python dictionary carries no such tag; it is kept beside the result. *)
Inductive Exit := HitExit | DoneExit | ExhaustedExit.

Section WithEnv.
Context (E : Env).

Definition _load_cache : M (gmap string ReactEntry) :=
  fun w => (Ok (react_cache_json w), w).

Definition _save_cache (cache : gmap string ReactEntry) : M unit :=
  fun w =>
    let w' := set_writes (S (w_writes w)) w in
    if write_text_ok E (w_writes w)
    then (Ok tt, set_react_cache_json cache w')
    else (Ok tt, w').

Definition _cache_key (q : string) : string :=
  sha256_hexdigest E (Py.lower (Py.strip q)).

(** [args[k]] on the parsed tool arguments: [KeyError] when the key is
    missing, [TypeError] when the arguments are no dictionary. *)
Definition args_item (args : json) (k : string) : Result json :=
  match args with
  | JDict d =>
      match d !! k with
      | Some v => Ok v
      | None => Raise ("'" +:+ k +:+ "'")
      end
  | JList _ => Raise "list indices must be integers or slices, not str"
  | JStr _ => Raise "string indices must be integers, not 'str'"
  | JNum _ => Raise "'int' object is not subscriptable"
  | JBool _ => Raise "'bool' object is not subscriptable"
  | JNull => Raise "'NoneType' object is not subscriptable"
  end.

Definition dumps_error (text : string) : string :=
  json_dumps E (JDict {[ "error"%string := JStr text ]}).

Definition dumps_rows (rows : list row) : string :=
  json_dumps E (json_of_rows rows).

(** [_execute_tool]: the dispatch table.  Every exception of a tool is
    caught and becomes an error observation. *)
Definition _execute_tool (name : string) (args : json) : string :=
  let outcome : Result string :=
    if String.eqb name "sparql_query" then
      rbind (args_item args "query") (fun q =>
      rbind (qe_sparql E q) (fun rows => Ok (dumps_rows (take 40 rows))))
    else if String.eqb name "get_entity_details" then
      rbind (args_item args "entity_name") (fun n =>
      rbind (qe_get_entity_details E n) (fun rows => Ok (dumps_rows rows)))
    else if String.eqb name "keyword_search" then
      rbind (args_item args "keyword") (fun k =>
      rbind (qe_search_by_keyword E k) (fun rows => Ok (dumps_rows (take 20 rows))))
    else if String.eqb name "get_absorbers" then
      rbind (qe_get_absorbers E) (fun rows => Ok (dumps_rows rows))
    else if String.eqb name "get_architectures" then
      rbind (qe_get_cell_architectures E) (fun rows => Ok (dumps_rows rows))
    else if String.eqb name "get_defects" then
      rbind (qe_get_defects_and_impacts E) (fun rows => Ok (dumps_rows rows))
    else if String.eqb name "get_relationships" then
      rbind (qe_get_relationships E) (fun rows => Ok (dumps_rows (take 60 rows)))
    else Ok (dumps_error ("Unknown tool: " +:+ name)) in
  match outcome with
  | Ok text => text
  | Raise exc => dumps_error exc
  end.

(** The assistant entry appended before the tools run. *)
Definition assistant_message (msg : ChatMessage) : Message :=
  {| role := "assistant";
     content := Py.str_or (default "" (msg_content msg)) "";
     tool_calls := msg_tool_calls msg;
     tool_call_id := None |}.

(** One pass of [for tc in msg.tool_calls]: run the tool, append its
    record to [steps] and its observation to [messages]. *)
Definition run_tool_call (iterations : nat)
    (acc : list Step * list Message) (tc : ToolCall) : list Step * list Message :=
  let tool_name := tc_name tc in
  let tool_args := default (JDict ∅) (json_loads E (tc_arguments tc)) in
  let result_str := _execute_tool tool_name tool_args in
  ((fst acc ++ [ {| iteration := iterations; tool := tool_name;
                    args := tool_args;
                    result_preview := Py.take_str 300 result_str |} ])%list,
   (snd acc ++ [ {| role := "tool"; content := result_str; tool_calls := [];
                    tool_call_id := Some (tc_id tc) |} ])%list).

Definition exhausted_result (steps : list Step) (iterations : nat) : ReactResult :=
  {| answer_text := "Reached maximum reasoning steps."; steps := steps;
     iterations := iterations; cached := false |}.

(** [while iterations < MAX_ITERATIONS: ...] and the [return] after it.
    [remaining] is [MAX_ITERATIONS - iterations], so the loop test is
    [remaining <> 0]. *)
Fixpoint loop (remaining : nat) (key : string) (messages : list Message)
    (steps : list Step) (iterations : nat) : M (Exit * ReactResult) :=
  match remaining with
  | O => ret (ExhaustedExit, exhausted_result steps iterations)
  | S remaining' =>
      let iterations := S iterations in
      msg <- chat_create E messages;;
      match msg_tool_calls msg with
      | [] =>
          let result :=
            {| answer_text := Py.str_or (default "" (msg_content msg)) "No answer generated.";
               steps := steps; iterations := iterations; cached := false |} in
          now <- time_now E;;
          (fun w =>
             let cache := <[key := {| re_data := result; re_ts := now |}]> (react_cache w) in
             _save_cache cache (set_react_cache cache w));;;
          ret (DoneExit, result)
      | tcs =>
          let acc := fold_left (run_tool_call iterations) tcs
                       (steps, (messages ++ [assistant_message msg])%list) in
          loop remaining' key (snd acc) (fst acc) iterations
      end
  end.

(** [ReActAgent.answer], from the "agent loop starting" log line on. *)
Definition answer_loop (key user_query : string) : M (Exit * ReactResult) :=
  loop MAX_ITERATIONS key
    [system_message SYSTEM_PROMPT; user_message user_query] [] 0.

(** [{**entry["data"], "cached": True}] *)
Definition served_from_cache (r : ReactResult) : ReactResult :=
  {| answer_text := answer_text r; steps := steps r;
     iterations := iterations r; cached := true |}.

(** [ReActAgent.answer].  The clock is read only when an entry exists
    ([entry and ...] short-circuits). *)
Definition answer (user_query : string) : M (Exit * ReactResult) :=
  let key := _cache_key user_query in
  fun w =>
    match react_cache w !! key with
    | None => answer_loop key user_query w
    | Some entry =>
        (now <- time_now E;;
         if now - re_ts entry <? CACHE_TTL_SECONDS E
         then ret (HitExit, served_from_cache (re_data entry))
         else answer_loop key user_query) w
    end.

(** [ReActAgent.__init__], after the credential check. *)
Definition init : M unit :=
  cache <- _load_cache;;
  (fun w => (Ok tt, set_react_cache cache w)).

(** [ReActAgent.clear_cache] *)
Definition clear_cache : M nat :=
  fun w =>
    let n := size (react_cache w) in
    (_save_cache ∅;;; ret n) (set_react_cache ∅ w).

End WithEnv.
End ReactAgent.

(** ** provenance.py: the provenance recorder *)

Module Provenance.

Record Triple := {
  subject : string;
  predicate : string;
  object : string
}.

Record ProvenanceRecord := {
  query_id : string;
  query_text : string;
  timestamp_utc : string;
  cited_entities : list string;
  supporting_triples : list Triple;
  sparql_queries_used : list json;
  agent_iterations : nat;
  prov_cached : bool
}.

(** The longest run of characters other than a closing parenthesis at the
    head of [s], and what follows it. *)
Fixpoint span_not_close (s : string) : string * string :=
  match s with
  | EmptyString => (EmptyString, EmptyString)
  | String c s' =>
      if Ascii.eqb c (Ascii.ascii_of_nat 41) then (EmptyString, s)
      else
        match span_not_close s' with
        | (run, rest) => (String c run, rest)
        end
  end.

(** [re.search(r'\(([^)]{2,20})\)', name)]: the group of the leftmost
    match.  At an opening parenthesis the pattern matches exactly when the
    run of non-closing characters after it has 2 to 20 characters and is
    followed by a closing parenthesis (the run stops only there or at the
    end of the text). *)
Fixpoint search_paren_group (s : string) : option string :=
  match s with
  | EmptyString => None
  | String c s' =>
      if Ascii.eqb c (Ascii.ascii_of_nat 40) then
        match span_not_close s' with
        | (grp, rest) =>
            let n := String.length grp in
            if ((2 <=? n) && (n <=? 20))%nat && Py.truthy rest
            then Some grp
            else search_paren_group s'
        end
      else search_paren_group s'
  end.

(** [_abbrev] *)
Definition _abbrev (name : string) : string :=
  match search_paren_group name with
  | Some grp => Py.lower grp
  | None => EmptyString
  end.

(** [d.get(k, "")] on a result row. *)
Definition row_get (k : string) (r : row) : string := default EmptyString (r !! k).

(** [[e.get("name", "") for e in all_entities if e.get("name")]] *)
Definition entity_names (all_entities : list row) : list string :=
  row_get "name" <$> List.filter (fun e => Py.truthy (row_get "name" e)) all_entities.

(** The test of the citation loop. *)
Definition mentioned (answer_lower name : string) : bool :=
  let abbrev := _abbrev name in
  Py.contains (Py.lower name) answer_lower
  || (Py.truthy abbrev && Py.contains abbrev answer_lower).

(** Step 1: the names found in the answer, deduplicated, at most 15. *)
Definition cited_in (answer : string) (all_entities : list row) : list string :=
  let answer_lower := Py.lower answer in
  take 15 (Py.fromkeys (List.filter (mentioned answer_lower) (entity_names all_entities))).

(** The body of [for d in qe.get_entity_details(ename)]. *)
Definition add_detail (ename : string)
    (acc : list Triple * gset (string * string * string)) (d : row)
    : list Triple * gset (string * string * string) :=
  let pred := row_get "predLabel" d in
  let obj := Py.str_or (row_get "objectName" d) (row_get "dataValue" d) in
  if Py.truthy pred && Py.truthy obj
     && negb (String.eqb pred "name" || String.eqb pred "description")
  then
    let key := (ename, pred, obj) in
    if bool_decide (key ∈ snd acc) then acc
    else ((fst acc ++ [ {| subject := ename; predicate := pred; object := obj |} ])%list,
          {[ key ]} ∪ snd acc)
  else acc.

Section WithEnv.
Context (E : Env).

(** Step 2: [for ename in cited[:8]].  A failing lookup ends the loop with
    its exception. *)
Fixpoint collect_triples (enames : list string)
    (acc : list Triple * gset (string * string * string)) : Result (list Triple) :=
  match enames with
  | [] => Ok (fst acc)
  | ename :: rest =>
      match qe_get_entity_details E (JStr ename) with
      | Raise exc => Raise exc
      | Ok details => collect_triples rest (fold_left (add_detail ename) details acc)
      end
  end.

(** [v.get(k)] on the recorded tool arguments: [AttributeError] when they
    are no dictionary. *)
Definition args_get (args : json) (k : string) : Result (option json) :=
  match args with
  | JDict d => Ok (d !! k)
  | JList _ => Raise "'list' object has no attribute 'get'"
  | JStr _ => Raise "'str' object has no attribute 'get'"
  | JNum _ => Raise "'int' object has no attribute 'get'"
  | JBool _ => Raise "'bool' object has no attribute 'get'"
  | JNull => Raise "'NoneType' object has no attribute 'get'"
  end.

(** Step 3: the list comprehension over the trace.  The condition reads
    the arguments only for a [sparql_query] step. *)
Fixpoint sparql_used (agent_steps : list Step) : Result (list json) :=
  match agent_steps with
  | [] => Ok []
  | s :: rest =>
      if String.eqb (tool s) "sparql_query" then
        rbind (args_get (args s) "query") (fun q =>
          match q with
          | Some v =>
              if json_truthy v
              then rbind (sparql_used rest) (fun qs => Ok (v :: qs))
              else sparql_used rest
          | None => sparql_used rest
          end)
      else sparql_used rest
  end.

(** [build_provenance] *)
Definition build_provenance (query answer : string) (agent_steps : list Step)
    (agent_iterations : nat) (cached : bool) : M ProvenanceRecord :=
  all_entities <- lift (qe_get_all_entities E);;
  let cited := cited_in answer all_entities in
  triples <- lift (collect_triples (take 8 cited) ([], ∅));;
  used <- lift (sparql_used agent_steps);;
  now <- time_now E;;
  ret {| query_id := sha256_hexdigest E query;
         query_text := query;
         timestamp_utc := isoformat E now;
         cited_entities := cited;
         supporting_triples := take 25 triples;
         sparql_queries_used := used;
         agent_iterations := agent_iterations;
         prov_cached := cached |}.

End WithEnv.
End Provenance.

(** ** Properties of runs used in the statements *)


(** The session cache holds no fresh entry for [q] at the next clock
    reading: the test of [ReActAgent.answer] fails and the loop is entered. *)
Definition no_fresh_session_entry (E : Env) (w : World) (q : string) : Prop :=
  match react_cache w !! ReactAgent._cache_key E q with
  | None => True
  | Some entry => CACHE_TTL_SECONDS E <= time_time E (w_ticks w) - re_ts entry
  end.

(** The clock never runs backwards. *)
Definition monotone_clock (E : Env) : Prop :=
  forall i j, (i <= j)%nat -> time_time E i <= time_time E j.

(** [_get_cached] gave [LLMAgent.answer] nothing to serve: no value, or a
    value that is false in [if cached_answer:]. *)
Definition nothing_to_serve (c : option string) : Prop :=
  c = None \/ c = Some EmptyString.

(** The store fields that a write would change: the two files, the three
    in-process caches, and the count of file writes. *)
Definition same_stores (w w' : World) : Prop :=
  cache_json w' = cache_json w /\
  react_cache_json w' = react_cache_json w /\
  file_cache w' = file_cache w /\
  build_ctx w' = build_ctx w /\
  react_cache w' = react_cache w /\
  w_writes w' = w_writes w.

(** The reply to the one generation call that [LLMAgent.answer] makes for a
    context and a query, on a given store. *)
Definition generation_reply (E : Env) (ctx q : string) (w : World) : Result ChatMessage :=
  chat_completions_create E (w_calls w)
    [system_message LlmAgent.SYSTEM_PROMPT; user_message (LlmAgent.prompt_for ctx q)].

(** ** Concrete environments and stores *)

Module Demo.

Definition no_lru : LruCache :=
  {| lru_entries := []; lru_hits := 0; lru_misses := 0 |}.

(** A freshly started process with empty cache files. *)
Definition world0 : World :=
  {| w_ticks := 0; w_calls := 0; w_writes := 0;
     cache_json := ∅; react_cache_json := ∅;
     file_cache := ∅; build_ctx := no_lru; react_cache := ∅ |}.

Definition absorbers_call : ToolCall :=
  {| tc_id := "call_1"; tc_name := "get_absorbers"; tc_arguments := "{}" |}.

(** A generation service that asks for [get_absorbers] on every turn. *)
Definition chat_tools (n : nat) (messages : list Message) : Result ChatMessage :=
  Ok {| msg_content := None; msg_tool_calls := [absorbers_call] |}.

(** A generation service that answers with empty text on its first call
    and with a sentence afterwards. *)
Definition chat_blank_then_text (n : nat) (messages : list Message) : Result ChatMessage :=
  match n with
  | O => Ok {| msg_content := Some " "; msg_tool_calls := [] |}
  | S _ => Ok {| msg_content := Some "MAPbI3 has a bandgap of 1.55 eV."; msg_tool_calls := [] |}
  end.

(** A generation service that answers with the same sentence every time. *)
Definition chat_text (n : nat) (messages : list Message) : Result ChatMessage :=
  Ok {| msg_content := Some "MAPbI3 has a bandgap of 1.55 eV."; msg_tool_calls := [] |}.

(** A generation service that cannot be reached. *)
Definition chat_down (n : nat) (messages : list Message) : Result ChatMessage :=
  Raise "Connection error.".

Definition cigs_name : string := "Copper Indium Gallium Selenide (CIGS)".

Definition entities : list row :=
  [ {[ "name" := cigs_name; "type" := "http://example.org/pvsolar#Absorber" ]};
    {[ "name" := "MAPbI3"; "type" := "http://example.org/pvsolar#Absorber" ]} ].

Definition details (name : json) : Result (list row) :=
  Ok [ {[ "predLabel" := "has bandgap"; "dataValue" := "1.55" ]} ].

Definition details_down (name : json) : Result (list row) :=
  Raise "fact base unavailable".

(** An environment built from a generation service, a context builder and
    an entity-detail lookup.  The digest is a stand-in that keeps the text;
    the clock advances one second per reading from 1000. *)
Definition env (chat : nat -> list Message -> Result ChatMessage)
    (context : string -> Result string)
    (entity_details : json -> Result (list row)) : Env :=
  {| sha256_hexdigest := fun s => "sha256:" +:+ s;
     time_time := fun n => 1000 + Z.of_nat n;
     isoformat := fun _ => "1970-01-01T00:16:40+00:00";
     CACHE_TTL_SECONDS := 86400;
     LRU_MAXSIZE := 256;
     chat_completions_create := chat;
     write_text_ok := fun _ => true;
     json_dumps := fun _ => "[]";
     json_loads := fun _ => Some (JDict ∅);
     qe_build_context_for_query := context;
     qe_sparql := fun _ => Ok [];
     qe_get_entity_details := entity_details;
     qe_search_by_keyword := fun _ => Ok [];
     qe_get_absorbers := Ok [];
     qe_get_cell_architectures := Ok [];
     qe_get_defects_and_impacts := Ok [];
     qe_get_relationships := Ok [];
     qe_get_all_entities := Ok entities |}.

Definition context_some (q : string) : Result string :=
  Ok "## Absorber Materials - **MAPbI3** (bandgap 1.55 eV)".

Definition context_blank (q : string) : Result string := Ok " ".

Definition context_down (q : string) : Result string :=
  Raise "fact base unavailable".

Definition env_tools : Env := env chat_tools context_some details.
Definition env_text : Env := env chat_text context_some details.
Definition env_blank_then_text : Env := env chat_blank_then_text context_some details.
Definition env_llm_down : Env := env chat_down context_some details.
Definition env_no_context : Env := env chat_text context_blank details.
Definition env_context_down : Env := env chat_text context_down details.
Definition env_details_down : Env := env chat_text context_some details_down.

Definition query : string := "What is the bandgap of MAPbI3?".

(** A session-cache entry written two days before the clock starts. *)
Definition stale_entry : ReactEntry :=
  {| re_data := {| answer_text := "old answer"; steps := []; iterations := 1; cached := false |};
     re_ts := 1000 - 2 * 86400 |}.

Definition world_stale_session : World :=
  set_react_cache_json {[ ReactAgent._cache_key env_tools query := stale_entry ]}
    (set_react_cache {[ ReactAgent._cache_key env_tools query := stale_entry ]} world0).

(** A file-cache entry written two days before the clock starts. *)
Definition stale_answer : CacheEntry :=
  {| ce_answer := "old answer"; ce_ts := 1000 - 2 * 86400 |}.

Definition world_stale_answer : World :=
  set_cache_json {[ LlmAgent._make_key env_text query := stale_answer ]}
    (set_file_cache {[ LlmAgent._make_key env_text query := stale_answer ]} world0).

(** A fresh file-cache entry whose stored answer is the empty string. *)
Definition blank_answer : CacheEntry := {| ce_answer := ""; ce_ts := 999 |}.

Definition world_blank_answer : World :=
  set_file_cache {[ LlmAgent._make_key env_text query := blank_answer ]} world0.

(** No stored answer, one context kept by the LRU cache. *)
Definition world_lru_only : World :=
  set_build_ctx
    {| lru_entries := [(query, "## Absorber Materials - **MAPbI3** (bandgap 1.55 eV)")];
       lru_hits := 0; lru_misses := 1 |} world0.

(** The store after a query whose generation call failed: the context is
    in the LRU cache, no answer is in the file cache. *)
Definition world_after_failed_call : World :=
  snd (LlmAgent.answer env_llm_down query world0).

(** The same query, typed with other capitals and blanks around it. *)
Definition query_variant : string := "  what is the BANDGAP of mapbi3?  ".

Definition text_answer : string := "MAPbI3 has a bandgap of 1.55 eV.".


End Demo.

(** ** provenance.py: the rendered view *)

(** [str(n)] for a non-negative integer, as an f-string prints it. *)
Definition decimal (n : nat) : string := NilZero.string_of_uint (Nat.to_uint n).

Module ProvenanceView.
Section WithFormat.

(** What [f"{q[:300]}"] gives for a listed query [q] that is not a string:
    the text Python prints for the slice, or the exception the slice
    raises.  For a string the slice is its first 300 characters. *)
Context (format_slice : json -> Result string).

Definition header_lines (r : Provenance.ProvenanceRecord) : list string :=
  [ "### Provenance Record";
    "- **Query ID:** `" +:+ Py.take_str 16 (Provenance.query_id r) +:+ "…`";
    "- **Timestamp:** " +:+ Provenance.timestamp_utc r;
    "- **Agent iterations:** " +:+ decimal (Provenance.agent_iterations r);
    "- **Served from cache:** " +:+ (if Provenance.prov_cached r then "Yes ⚡" else "No 🔍") ].

Definition cited_lines (r : Provenance.ProvenanceRecord) : list string :=
  match Provenance.cited_entities r with
  | [] => []
  | es => [ ""; "**Cited Entities:**" ] ++ ((fun e => "- `" +:+ e +:+ "`") <$> es)
  end%list.

Definition triple_line (t : Provenance.Triple) : string :=
  "| " +:+ Provenance.subject t +:+ " | *" +:+ Provenance.predicate t +:+ "* | "
  +:+ Provenance.object t +:+ " |".

Definition triple_lines (r : Provenance.ProvenanceRecord) : list string :=
  match Provenance.supporting_triples r with
  | [] => []
  | ts => [ ""; "**Supporting Knowledge Graph Triples:**";
            "| Subject | Predicate | Object |"; "|---|---|---|" ]
          ++ (triple_line <$> take 25 ts)
  end%list.

Definition query_block (q : json) : Result string :=
  rbind (match q with
         | JStr text => Ok (Py.take_str 300 text)
         | _ => format_slice q
         end)
    (fun text => Ok ("```sparql" +:+ Py.nl +:+ text +:+ Py.nl +:+ "```")).

(** [for q in self.sparql_queries_used[:5]], in order; the first slice
    that raises ends the loop. *)
Fixpoint query_blocks (qs : list json) : Result (list string) :=
  match qs with
  | [] => Ok []
  | q :: rest =>
      rbind (query_block q) (fun block =>
      rbind (query_blocks rest) (fun blocks => Ok (block :: blocks)))
  end.

Definition query_lines (r : Provenance.ProvenanceRecord) : Result (list string) :=
  match Provenance.sparql_queries_used r with
  | [] => Ok []
  | qs => rbind (query_blocks (take 5 qs))
            (fun blocks => Ok ([ ""; "**SPARQL Queries Executed:**" ] ++ blocks)%list)
  end.

(** The list [lines] of [to_markdown] before it is joined. *)
Definition to_markdown_lines (r : Provenance.ProvenanceRecord) : Result (list string) :=
  rbind (query_lines r)
    (fun queries => Ok (header_lines r ++ cited_lines r ++ triple_lines r ++ queries)%list).

(** [ProvenanceRecord.to_markdown] *)
Definition to_markdown (r : Provenance.ProvenanceRecord) : Result string :=
  rbind (to_markdown_lines r) (fun lines => Ok (String.concat Py.nl lines)).

End WithFormat.
End ProvenanceView.

(** ** app.py and hf_app.py: the request handlers *)

Module App.

(** [ReActAgent.cache_stats] *)
Record ReactStats := {
  react_cache_entries : nat;
  react_cache_ttl_seconds : Z;
  max_iterations : nat
}.

(** What a handler of app.py hands to [jsonify], with the status. *)
Inductive Response :=
| ErrorResponse (status : nat) (error : string)
| FastResponse (answer : string) (cache : LlmAgent.CacheStats)
| ReactResponse (result : ReactResult) (provenance : Provenance.ProvenanceRecord)
    (provenance_md : string)
| StatsResponse (fast_agent : LlmAgent.CacheStats) (react_agent : ReactStats)
| ClearResponse (message : string).

(** [type(v).__name__] for a parsed JSON value. *)
Definition type_name (v : json) : string :=
  match v with
  | JNull => "NoneType"
  | JBool _ => "bool"
  | JNum _ => "int"
  | JStr _ => "str"
  | JList _ => "list"
  | JDict _ => "dict"
  end.

(** [(data.get("query") or "").strip()] on the parsed request body. *)
Definition request_query (data : json) : Result string :=
  match data with
  | JDict d =>
      match d !! "query" with
      | Some v =>
          if json_truthy v then
            match v with
            | JStr text => Ok (Py.strip text)
            | _ => Raise ("'" +:+ type_name v +:+ "' object has no attribute 'strip'")
            end
          else Ok EmptyString
      | None => Ok EmptyString
      end
  | _ => Raise ("'" +:+ type_name data +:+ "' object has no attribute 'get'")
  end.

Section WithEnv.
Context (E : Env) (format_slice : json -> Result string).

Definition react_cache_stats : M ReactStats :=
  fun w =>
    (Ok {| react_cache_entries := size (react_cache w);
           react_cache_ttl_seconds := CACHE_TTL_SECONDS E;
           max_iterations := ReactAgent.MAX_ITERATIONS |}, w).

(** [ask], the handler of POST /ask. *)
Definition ask (data : json) : M Response :=
  query <- lift (request_query data);;
  if negb (Py.truthy query) then ret (ErrorResponse 400 "Empty query")
  else
    answer <- LlmAgent.answer E query;;
    cache <- LlmAgent.cache_stats E;;
    ret (FastResponse answer cache).

(** [ask_react], the handler of POST /ask/react. *)
Definition ask_react (data : json) : M Response :=
  query <- lift (request_query data);;
  if negb (Py.truthy query) then ret (ErrorResponse 400 "Empty query")
  else
    result <- ReactAgent.answer E query;;
    prov <- Provenance.build_provenance E query (answer_text (snd result))
              (steps (snd result)) (iterations (snd result)) (cached (snd result));;
    markdown <- lift (ProvenanceView.to_markdown format_slice prov);;
    ret (ReactResponse (snd result) prov markdown).

(** [api_cache_stats], the handler of GET /api/cache/stats. *)
Definition api_cache_stats : M Response :=
  fast <- LlmAgent.cache_stats E;;
  react <- react_cache_stats;;
  ret (StatsResponse fast react).

(** [api_cache_clear], the handler of POST /api/cache/clear. *)
Definition api_cache_clear : M Response :=
  n1 <- LlmAgent.clear_cache E;;
  n2 <- ReactAgent.clear_cache E;;
  ret (ClearResponse ("Cleared " +:+ decimal (n1 + n2) +:+ " total cache entries.")).

(** [chat_fast] of hf_app.py: the chat history after a message. *)
Definition chat_fast (message : string) (history : list (string * string))
    : M (list (string * string)) :=
  if negb (Py.truthy (Py.strip message)) then ret history
  else
    answer <- LlmAgent.answer E message;;
    ret (history ++ [(message, answer)])%list.

(** [chat_react] of hf_app.py: the chat history and the provenance view.
    The Python list is extended in place before the view is rendered; the
    model returns the extended list and does not follow the caller's list
    object through a failing call. *)
Definition chat_react (message : string) (history : list (string * string))
    : M (list (string * string) * string) :=
  if negb (Py.truthy (Py.strip message)) then ret (history, EmptyString)
  else
    result <- ReactAgent.answer E message;;
    prov <- Provenance.build_provenance E message (answer_text (snd result))
              (steps (snd result)) (iterations (snd result)) (cached (snd result));;
    let answer_with_meta :=
      answer_text (snd result)
      +:+ Py.nl +:+ Py.nl +:+ "---" +:+ Py.nl
      +:+ "*Agent steps: " +:+ decimal (iterations (snd result)) +:+ " | "
      +:+ (if cached (snd result) then "⚡ cached" else "🔍 live query") +:+ "*" in
    markdown <- lift (ProvenanceView.to_markdown format_slice prov);;
    ret ((history ++ [(message, answer_with_meta)])%list, markdown).

End WithEnv.
End App.

(** ** query_engine.py: the data of the graph view *)

Module GraphViz.

Record Node := {
  node_id : string;
  label : string;
  color : string;
  node_type : string;
  title : string
}.

Record Edge := {
  edge_from : string;
  edge_to : string;
  edge_label : string
}.

Definition type_colors : list (string * string) :=
  [ ("Absorber", "#f97316");
    ("TransportLayer", "#34d399");
    ("Electrode", "#94a3b8");
    ("Encapsulant", "#a78bfa");
    ("CellArchitecture", "#60a5fa");
    ("FabricationProcess", "#fbbf24");
    ("CharacterisationTechnique", "#2dd4bf");
    ("Defect", "#fb7185");
    ("PerformanceMetric", "#c084fc");
    ("DegradationMechanism", "#f43f5e");
    ("Institution", "#38bdf8");
    ("Researcher", "#86efac");
    ("StandardTest", "#e2e8f0") ].

(** [type_colors.get(etype, "#64748b")] *)
Definition color_of (etype : string) : string :=
  default "#64748b"
    (snd <$> List.find (fun kv => String.eqb (fst kv) etype) type_colors).

(** [s.split("#")[-1]]: what follows the last '#', or all of [s].
    [acc] is the segment read so far. *)
Fixpoint last_segment (acc s : string) : string :=
  match s with
  | EmptyString => acc
  | String c s' =>
      if Ascii.eqb c (Ascii.ascii_of_nat 35) then last_segment EmptyString s'
      else last_segment (acc +:+ String c EmptyString) s'
  end.

(** The body of [for e in entities]: [nodes] in insertion order. *)
Definition add_node (nodes : list Node) (e : row) : list Node :=
  let name := Provenance.row_get "name" e in
  let etype := last_segment EmptyString (Provenance.row_get "type" e) in
  if Py.truthy name && negb (bool_decide (name ∈ node_id <$> nodes))
  then (nodes ++ [ {| node_id := name; label := name; color := color_of etype;
                      node_type := etype;
                      title := default name (e !! "description") |} ])%list
  else nodes.

(** The body of [for r in rels]. *)
Definition add_edge (acc : list Edge * gset (string * string * string)) (r : row)
    : list Edge * gset (string * string * string) :=
  let s := Provenance.row_get "subjectName" r in
  let p := Provenance.row_get "predLabel" r in
  let o := Provenance.row_get "objectName" r in
  if Py.truthy s && Py.truthy p && Py.truthy o then
    if bool_decide ((s, p, o) ∈ snd acc) then acc
    else ((fst acc ++ [ {| edge_from := s; edge_to := o; edge_label := p |} ])%list,
          {[ (s, p, o) ]} ∪ snd acc)
  else acc.

(** [QueryEngine.get_graph_data_for_viz] *)
Definition get_graph_data_for_viz (E : Env) : Result (list Node * list Edge) :=
  rbind (qe_get_all_entities E) (fun entities =>
  rbind (qe_get_relationships E) (fun rels =>
    Ok (fold_left add_node entities [],
        fst (fold_left add_edge rels ([], ∅))))).

End GraphViz.

(** ** Vocabulary of the further properties *)

(** The record and the observation that one pass of
    [for tc in msg.tool_calls] adds for the requested call [tc]. *)
Definition step_record (E : Env) (iterations : nat) (tc : ToolCall) : Step :=
  let tool_args := default (JDict ∅) (json_loads E (tc_arguments tc)) in
  {| iteration := iterations; tool := tc_name tc; args := tool_args;
     result_preview := Py.take_str 300 (ReactAgent._execute_tool E (tc_name tc) tool_args) |}.

Definition tool_observation (E : Env) (tc : ToolCall) : Message :=
  let tool_args := default (JDict ∅) (json_loads E (tc_arguments tc)) in
  {| role := "tool";
     content := ReactAgent._execute_tool E (tc_name tc) tool_args;
     tool_calls := []; tool_call_id := Some (tc_id tc) |}.

(** The names of the dispatch table of [_execute_tool]. *)
Definition tool_names : list string :=
  ["sparql_query"; "get_entity_details"; "keyword_search"; "get_absorbers";
   "get_architectures"; "get_defects"; "get_relationships"].

(** A record of the trace as the loop writes it in a run of [budget]
    iterations: numbered from 1, preview of at most 300 characters. *)
Definition well_formed_step (budget : nat) (s : Step) : Prop :=
  (1 <= iteration s <= budget)%nat /\ (String.length (result_preview s) <= 300)%nat.

(** The order of the trace: by iteration number. *)
Definition iteration_le (s t : Step) : Prop := (iteration s <= iteration t)%nat.


(** Further concrete inputs. *)
Module Cases.



(** A trace with one [sparql_query] record whose arguments parsed to a
    JSON list, as the loop records it when the model sends such text. *)
Definition list_arguments_trace : list Step :=
  [ {| iteration := 1; tool := "sparql_query"; args := JList [];
       result_preview := "[]" |} ].

(** A trace with a query, a record of another tool, and a record of
    [sparql_query] that carries no query. *)
Definition mixed_trace : list Step :=
  [ {| iteration := 1; tool := "sparql_query";
       args := JDict {[ "query" := JStr "SELECT ?n WHERE { ?e pv:name ?n }" ]};
       result_preview := "[]" |};
    {| iteration := 1; tool := "get_absorbers"; args := JList [];
       result_preview := "[]" |};
    {| iteration := 2; tool := "sparql_query"; args := JDict ∅;
       result_preview := "[]" |} ].

(** The parsed body of a request that carries the query text [q]. *)
Definition body (q : string) : json := JDict {[ "query" := JStr q ]}.

(** A record with 30 triples, 7 queries and no cited entity. *)
Definition crowded_record : Provenance.ProvenanceRecord :=
  {| Provenance.query_id := "0123456789abcdef0123456789abcdef";
     Provenance.query_text := Demo.query;
     Provenance.timestamp_utc := "1970-01-01T00:16:40+00:00";
     Provenance.cited_entities := [];
     Provenance.supporting_triples :=
       replicate 30 {| Provenance.subject := "MAPbI3";
                       Provenance.predicate := "has bandgap";
                       Provenance.object := "1.55" |};
     Provenance.sparql_queries_used := replicate 7 (JStr "SELECT ?n WHERE { ?e pv:name ?n }");
     Provenance.agent_iterations := 3;
     Provenance.prov_cached := false |}.

(** A fact base that lists MAPbI3 twice, under two types, and returns one
    relationship twice and one without an object. *)
Definition used_in : row :=
  {[ "subjectName" := "MAPbI3"; "predLabel" := "used in";
     "objectName" := "Perovskite solar cell" ]}.

Definition graph_entities : list row :=
  (Demo.entities
   ++ [ {[ "name" := "MAPbI3"; "type" := "http://example.org/pvsolar#Material" ]} ])%list.

Definition graph_relationships : list row :=
  [ used_in; used_in; {[ "subjectName" := "MAPbI3"; "predLabel" := "used in" ]} ].

Definition env_graph : Env :=
  {| sha256_hexdigest := sha256_hexdigest Demo.env_text;
     time_time := time_time Demo.env_text;
     isoformat := isoformat Demo.env_text;
     CACHE_TTL_SECONDS := CACHE_TTL_SECONDS Demo.env_text;
     LRU_MAXSIZE := LRU_MAXSIZE Demo.env_text;
     chat_completions_create := chat_completions_create Demo.env_text;
     write_text_ok := write_text_ok Demo.env_text;
     json_dumps := json_dumps Demo.env_text;
     json_loads := json_loads Demo.env_text;
     qe_build_context_for_query := qe_build_context_for_query Demo.env_text;
     qe_sparql := qe_sparql Demo.env_text;
     qe_get_entity_details := qe_get_entity_details Demo.env_text;
     qe_search_by_keyword := qe_search_by_keyword Demo.env_text;
     qe_get_absorbers := qe_get_absorbers Demo.env_text;
     qe_get_cell_architectures := qe_get_cell_architectures Demo.env_text;
     qe_get_defects_and_impacts := qe_get_defects_and_impacts Demo.env_text;
     qe_get_relationships := Ok graph_relationships;
     qe_get_all_entities := Ok graph_entities |}.

End Cases.

(** The key under which [build_provenance] remembers a triple it has
    collected. *)
Definition triple_key (t : Provenance.Triple) : string * string * string :=
  (Provenance.subject t, Provenance.predicate t, Provenance.object t).

(** A supporting triple as the recorder may emit it for the names
    [names]: its subject is one of them, its predicate is a non-empty label
    other than "name" and "description", its object is non-empty, and it is
    read off a row that the fact base returned for the subject. *)
Definition supported_triple (E : Env) (names : list string) (t : Provenance.Triple) : Prop :=
  Provenance.subject t ∈ names
  /\ Provenance.predicate t <> EmptyString
  /\ Provenance.predicate t <> "name"
  /\ Provenance.predicate t <> "description"
  /\ Provenance.object t <> EmptyString
  /\ exists rows d,
       qe_get_entity_details E (JStr (Provenance.subject t)) = Ok rows
       /\ d ∈ rows
       /\ Provenance.predicate t = Provenance.row_get "predLabel" d
       /\ Provenance.object t
          = Py.str_or (Provenance.row_get "objectName" d) (Provenance.row_get "dataValue" d).

(** The number of lines a section of the rendered view takes: none for
    an empty list, else its heading lines and one line per shown item. *)
Definition section_lines (heading shown : nat) (items : nat) : nat :=
  match items with
  | O => O
  | S _ => (heading + Nat.min shown items)%nat
  end.

(** A request body whose query the handlers of app.py take for empty: the
    key is missing, or its value is falsy (null, false, 0, an empty string,
    list or object), or it is a string of white space only. *)
Definition blank_request (d : gmap string json) : Prop :=
  match d !! "query" with
  | None => True
  | Some v =>
      json_truthy v = false
      \/ exists text, v = JStr text /\ Py.strip text = EmptyString
  end.

(** A slice formatter for the examples: every value that is not a string
    is taken to raise. *)
Definition no_slice (q : json) : Result string :=
  Raise "value is not subscriptable".

(** * Properties *)

(** Closed statements about concrete runs are settled by evaluating both
    sides of each conjunct. *)
Ltac by_evaluation :=
  repeat match goal with |- _ /\ _ => split end;
  vm_compute; first [reflexivity | discriminate | exact I].

(** ** The store setters *)

Lemma same_stores_refl (w : World) : same_stores w w.
Proof. repeat split. Qed.

Lemma same_stores_trans (w1 w2 w3 : World) :
  same_stores w1 w2 -> same_stores w2 w3 -> same_stores w1 w3.
Proof.
  unfold same_stores. intros (a1 & a2 & a3 & a4 & a5 & a6) (b1 & b2 & b3 & b4 & b5 & b6).
  repeat split; congruence.
Qed.

Lemma same_stores_ticks (n : nat) (w : World) : same_stores w (set_ticks n w).
Proof. repeat split. Qed.

Lemma same_stores_calls (n : nat) (w : World) : same_stores w (set_calls n w).
Proof. repeat split. Qed.

(** ** The reasoning loop *)

Section ReactLoop.
Context (E : Env).



(** The store after a run of the loop that did not end with a final
    message is the store before it, whatever the replies were. *)
Lemma loop_frame :
  forall remaining key messages steps0 its w res w',
    ReactAgent.loop E remaining key messages steps0 its w = (res, w') ->
    (forall r, res <> Ok (ReactAgent.DoneExit, r)) ->
    same_stores w w'.
Proof.
  induction remaining as [|remaining IH]; intros key messages steps0 its w res w' Hrun Hnot.
  - simpl in Hrun. unfold ret in Hrun. injection Hrun as <- <-. apply same_stores_refl.
  - simpl in Hrun. unfold bind at 1 in Hrun. unfold chat_create in Hrun.
    destruct (chat_completions_create E (w_calls w) messages) as [msg|exc].
    + destruct (msg_tool_calls msg) as [|tc tcs].
      * exfalso. unfold bind, time_now, ret in Hrun.
        unfold ReactAgent._save_cache in Hrun. simpl in Hrun.
        destruct (write_text_ok E (w_writes w)); injection Hrun as <- <-;
          eapply Hnot; reflexivity.
      * apply IH in Hrun; [|exact Hnot].
        exact (same_stores_trans _ _ _ (same_stores_calls _ w) Hrun).
    + injection Hrun as <- <-. apply same_stores_calls.
Qed.

(** What the cache test of [ReActAgent.answer] does with a missing or
    stale entry: the loop starts, after one clock reading if an entry was
    there, on a store whose caches are untouched. *)
Lemma answer_enters_loop (w : World) (q : string) :
  no_fresh_session_entry E w q ->
  exists w1,
    ReactAgent.answer E q w
    = ReactAgent.answer_loop E (ReactAgent._cache_key E q) q w1
    /\ same_stores w w1
    /\ w_calls w1 = w_calls w
    /\ (w_ticks w <= w_ticks w1)%nat.
Proof.
  unfold no_fresh_session_entry, ReactAgent.answer. intros Hmiss.
  destruct (react_cache w !! ReactAgent._cache_key E q) as [entry|].
  - exists (set_ticks (S (w_ticks w)) w).
    unfold bind, time_now.
    destruct (Z.ltb_spec (time_time E (w_ticks w) - re_ts entry) (CACHE_TTL_SECONDS E)).
    + lia.
    + repeat split. simpl. lia.
  - exists w. repeat split. lia.
Qed.

End ReactLoop.

Section ReactAnswer.
Context (E : Env).

(** The clock only advances during the loop, and a run that ends with a
    final message leaves its bundle in the session cache under the key. *)
Lemma loop_ticks_and_done :
  forall remaining key messages steps0 its w res w',
    ReactAgent.loop E remaining key messages steps0 its w = (res, w') ->
    (w_ticks w <= w_ticks w')%nat /\
    (forall r, res = Ok (ReactAgent.DoneExit, r) ->
       exists ts, react_cache w' !! key = Some {| re_data := r; re_ts := ts |}).
Proof.
  induction remaining as [|remaining IH]; intros key messages steps0 its w res w' Hrun.
  - simpl in Hrun. unfold ret in Hrun. injection Hrun as <- <-.
    split; [lia|]. intros r Hr. discriminate.
  - simpl in Hrun. unfold bind at 1 in Hrun. unfold chat_create in Hrun.
    destruct (chat_completions_create E (w_calls w) messages) as [msg|exc].
    + destruct (msg_tool_calls msg) as [|tc tcs].
      * unfold bind, time_now, ret in Hrun.
        unfold ReactAgent._save_cache in Hrun. simpl in Hrun.
        destruct (write_text_ok E (w_writes w)); injection Hrun as <- <-; simpl;
          (split; [lia|]); intros r Hr; injection Hr as <-;
          eexists; apply lookup_insert_eq.
      * apply IH in Hrun. simpl in Hrun. exact Hrun.
    + injection Hrun as <- <-. simpl. split; [lia|]. intros r Hr. discriminate.
Qed.

(** A run of [answer] that did not return the cached bundle went through
    the loop, from a store with the same caches. *)
Lemma answer_not_hit (w : World) (q : string) (res : Result (ReactAgent.Exit * ReactResult))
    (w' : World) :
  ReactAgent.answer E q w = (res, w') ->
  (forall r, res <> Ok (ReactAgent.HitExit, r)) ->
  no_fresh_session_entry E w q.
Proof.
  unfold ReactAgent.answer, no_fresh_session_entry. intros Hrun Hnot.
  destruct (react_cache w !! ReactAgent._cache_key E q) as [entry|]; [|exact I].
  unfold bind, time_now in Hrun.
  destruct (Z.ltb_spec (time_time E (w_ticks w) - re_ts entry) (CACHE_TTL_SECONDS E)).
  - unfold ret in Hrun. injection Hrun as <- <-. exfalso. eapply Hnot. reflexivity.
  - lia.
Qed.

Lemma answer_frame (w : World) (q : string) (res : Result (ReactAgent.Exit * ReactResult))
    (w' : World) :
  ReactAgent.answer E q w = (res, w') ->
  (forall r, res <> Ok (ReactAgent.DoneExit, r)) ->
  same_stores w w' /\ (w_ticks w <= w_ticks w')%nat.
Proof.
  unfold ReactAgent.answer. intros Hrun Hnot.
  destruct (react_cache w !! ReactAgent._cache_key E q) as [entry|].
  - unfold bind, time_now in Hrun.
    destruct (time_time E (w_ticks w) - re_ts entry <? CACHE_TTL_SECONDS E).
    + unfold ret in Hrun. injection Hrun as <- <-.
      split; [apply same_stores_ticks | simpl; lia].
    + unfold ReactAgent.answer_loop in Hrun.
      pose proof (loop_frame E _ _ _ _ _ _ _ _ Hrun Hnot) as Hs.
      pose proof (loop_ticks_and_done _ _ _ _ _ _ _ _ Hrun) as [Ht _].
      split; [exact (same_stores_trans _ _ _ (same_stores_ticks _ w) Hs)|].
      simpl in Ht. lia.
  - unfold ReactAgent.answer_loop in Hrun.
    split; [exact (loop_frame E _ _ _ _ _ _ _ _ Hrun Hnot)|].
    exact (proj1 (loop_ticks_and_done _ _ _ _ _ _ _ _ Hrun)).
Qed.

(** A missing or stale entry stays so on a later store with the same
    session cache, as long as the clock does not run backwards. *)
Lemma no_fresh_entry_later (w w' : World) (q q' : string) :
  monotone_clock E ->
  ReactAgent._cache_key E q' = ReactAgent._cache_key E q ->
  react_cache w' = react_cache w ->
  (w_ticks w <= w_ticks w')%nat ->
  no_fresh_session_entry E w q ->
  no_fresh_session_entry E w' q'.
Proof.
  unfold no_fresh_session_entry. intros Hmono Hkey Hcache Hticks Hmiss.
  rewrite Hkey, Hcache.
  destruct (react_cache w !! ReactAgent._cache_key E q) as [entry|]; [|exact I].
  pose proof (Hmono _ _ Hticks). lia.
Qed.


(** C9. A run of [ReActAgent.answer] that does not end with a final
    model message leaves both the in-process session cache and its file
    as they were, while a run that ends with one stores its bundle under
    the query's key.  After a run that exhausted the budget the key holds
    what it held before, and (the clock not running backwards) the next
    query with the same key enters the loop again instead of being served
    from the cache. *)
Theorem react_exhaustion_writes_no_entry (w : World) (q : string)
    (res : Result (ReactAgent.Exit * ReactResult)) (w' : World) :
  ReactAgent.answer E q w = (res, w') ->
  ((forall r, res <> Ok (ReactAgent.DoneExit, r)) ->
     react_cache w' = react_cache w /\ react_cache_json w' = react_cache_json w /\
     w_writes w' = w_writes w) /\
  (forall r, res = Ok (ReactAgent.DoneExit, r) ->
     exists ts, react_cache w' !! ReactAgent._cache_key E q
                = Some {| re_data := r; re_ts := ts |}) /\
  (forall r, res = Ok (ReactAgent.ExhaustedExit, r) ->
     react_cache w' !! ReactAgent._cache_key E q
     = react_cache w !! ReactAgent._cache_key E q /\
     (monotone_clock E ->
      forall q', ReactAgent._cache_key E q' = ReactAgent._cache_key E q ->
      exists w1,
        ReactAgent.answer E q' w'
        = ReactAgent.answer_loop E (ReactAgent._cache_key E q') q' w1
        /\ react_cache w1 = react_cache w /\ w_calls w1 = w_calls w')).
Proof.
  intros Hrun. split; [|split].
  - intros Hnot. destruct (answer_frame w q res w' Hrun Hnot) as [Hs _].
    destruct Hs as (_ & Hjson & _ & _ & Hcache & Hwrites). auto.
  - intros r ->. unfold ReactAgent.answer in Hrun.
    destruct (react_cache w !! ReactAgent._cache_key E q) as [entry|].
    + unfold bind, time_now in Hrun.
      destruct (time_time E (w_ticks w) - re_ts entry <? CACHE_TTL_SECONDS E).
      * unfold ret in Hrun. discriminate.
      * unfold ReactAgent.answer_loop in Hrun.
        exact (proj2 (loop_ticks_and_done _ _ _ _ _ _ _ _ Hrun) r eq_refl).
    + unfold ReactAgent.answer_loop in Hrun.
      exact (proj2 (loop_ticks_and_done _ _ _ _ _ _ _ _ Hrun) r eq_refl).
  - intros r ->.
    assert (Hnot : forall r0, Ok (ReactAgent.ExhaustedExit, r) <> Ok (ReactAgent.DoneExit, r0))
      by (intros r0; discriminate).
    destruct (answer_frame w q _ w' Hrun Hnot) as [Hs Hticks].
    destruct Hs as (_ & _ & _ & _ & Hcache & _).
    split; [rewrite Hcache; reflexivity|].
    intros Hmono q' Hkey.
    assert (Hmiss : no_fresh_session_entry E w q).
    { eapply answer_not_hit; [exact Hrun|]. intros r0. discriminate. }
    pose proof (no_fresh_entry_later w w' q q' Hmono Hkey Hcache Hticks Hmiss) as Hmiss'.
    destruct (answer_enters_loop E w' q' Hmiss') as (w1 & Hanswer & Hs1 & Hcalls & _).
    exists w1. split; [exact Hanswer|]. split; [|exact Hcalls].
    destruct Hs1 as (_ & _ & _ & _ & Hc1 & _). congruence.
Qed.

End ReactAnswer.

(** ** The single-shot agent *)

Section LlmAnswer.
Context (E : Env).

(** The three outcomes of [_get_cached]. *)
Lemma get_cached_cases (key : string) (w : World) :
  match file_cache w !! key with
  | None => LlmAgent._get_cached E key w = (Ok None, w)
  | Some entry =>
      if CACHE_TTL_SECONDS E <? time_time E (w_ticks w) - ce_ts entry
      then LlmAgent._get_cached E key w
           = (Ok None,
              set_file_cache (delete key (file_cache w)) (set_ticks (S (w_ticks w)) w))
      else LlmAgent._get_cached E key w
           = (Ok (Some (ce_answer entry)), set_ticks (S (w_ticks w)) w)
  end.
Proof.
  unfold LlmAgent._get_cached.
  destruct (file_cache w !! key) as [entry|]; [|reflexivity].
  unfold bind, time_now.
  destruct (CACHE_TTL_SECONDS E <? time_time E (w_ticks w) - ce_ts entry); reflexivity.
Qed.

(** [_get_cached] makes no generation call and no file write; it never
    raises; the file cache it leaves is the old one, or the old one
    without [key]. *)
Lemma get_cached_effects (key : string) (w : World) :
  exists c w1,
    LlmAgent._get_cached E key w = (Ok c, w1)
    /\ w_calls w1 = w_calls w /\ w_writes w1 = w_writes w
    /\ cache_json w1 = cache_json w /\ build_ctx w1 = build_ctx w
    /\ (w_ticks w <= w_ticks w1)%nat
    /\ (file_cache w1 = file_cache w \/
        (c = None /\ file_cache w1 = delete key (file_cache w))).
Proof.
  pose proof (get_cached_cases key w) as H.
  destruct (file_cache w !! key) as [entry|].
  - destruct (CACHE_TTL_SECONDS E <? time_time E (w_ticks w) - ce_ts entry);
      rewrite H; do 2 eexists; (split; [reflexivity|]); simpl;
      repeat split; auto; lia.
  - rewrite H. do 2 eexists. split; [reflexivity|]. repeat split; auto.
Qed.

(** [_set_cached] never raises: it stamps the answer with the next clock
    reading, stores it under the key and attempts one file write. *)
Lemma set_cached_effects (key answer : string) (w : World) :
  exists w',
    LlmAgent._set_cached E key answer w = (Ok tt, w')
    /\ file_cache w'
       = <[key := {| ce_answer := answer; ce_ts := time_time E (w_ticks w) |}]> (file_cache w)
    /\ w_calls w' = w_calls w
    /\ w_ticks w' = S (w_ticks w)
    /\ build_ctx w' = build_ctx w.
Proof.
  unfold LlmAgent._set_cached, bind, time_now, LlmAgent._save_cache. simpl.
  destruct (write_text_ok E (w_writes w)); eexists; (split; [reflexivity|]);
    simpl; repeat split.
Qed.

(** The context builder touches the LRU cache only, and what it raises is
    what the fact base raised for that query. *)
Lemma build_ctx_effects (q : string) (w : World) :
  exists res w2,
    LlmAgent._build_ctx E q w = (res, w2)
    /\ w_calls w2 = w_calls w /\ w_ticks w2 = w_ticks w
    /\ w_writes w2 = w_writes w
    /\ file_cache w2 = file_cache w /\ cache_json w2 = cache_json w
    /\ (forall exc, res = Raise exc -> qe_build_context_for_query E q = Raise exc).
Proof.
  unfold LlmAgent._build_ctx.
  destruct (LlmAgent.lru_find q (lru_entries (build_ctx w))) as [v|].
  - do 2 eexists. split; [reflexivity|]. simpl. repeat split. intros exc Hexc. discriminate.
  - destruct (qe_build_context_for_query E q) as [v|exc'].
    + do 2 eexists. split; [reflexivity|]. simpl. repeat split. intros exc Hexc. discriminate.
    + do 2 eexists. split; [reflexivity|]. simpl. repeat split. intros exc Hexc. exact Hexc.
Qed.

(** The paths of [answer] after the file-cache test, in terms of what the
    context builder and the generation service return. *)
Lemma answer_on_miss_cases (key q : string) (w : World) :
  LlmAgent.answer_on_miss E key q w =
  match LlmAgent._build_ctx E q w with
  | (Raise exc, w2) => (Raise exc, w2)
  | (Ok ctx, w2) =>
      if Py.truthy (Py.strip ctx) then
        match generation_reply E ctx q w2 with
        | Raise exc =>
            (Ok ("Error communicating with the LLM: " +:+ exc),
             set_calls (S (w_calls w2)) w2)
        | Ok msg =>
            match msg_content msg with
            | None =>
                (Ok ("Error communicating with the LLM: "
                     +:+ "'NoneType' object has no attribute 'strip'"),
                 set_calls (S (w_calls w2)) w2)
            | Some text =>
                (Ok (Py.strip text),
                 snd (LlmAgent._set_cached E key (Py.strip text)
                        (set_calls (S (w_calls w2)) w2)))
            end
        end
      else (Ok LlmAgent.NOT_FOUND, w2)
  end.
Proof.
  unfold LlmAgent.answer_on_miss, generation_reply. unfold bind at 1.
  destruct (LlmAgent._build_ctx E q w) as [[ctx|exc] w2]; [|reflexivity].
  destruct (Py.truthy (Py.strip ctx)); [|reflexivity]. simpl.
  unfold try_except. unfold bind at 1. unfold chat_create.
  destruct (chat_completions_create E (w_calls w2) _) as [msg|exc]; [|reflexivity].
  destruct (msg_content msg) as [text|]; [|reflexivity].
  unfold bind.
  destruct (set_cached_effects key (Py.strip text) (set_calls (S (w_calls w2)) w2))
    as (w' & Hset & _).
  rewrite Hset. reflexivity.
Qed.

Lemma truthy_false (s : string) : Py.truthy s = false <-> s = EmptyString.
Proof. destruct s; simpl; split; congruence. Qed.

(** [answer] in terms of [_get_cached] and the miss path. *)
Lemma answer_cases (q : string) (w : World) :
  LlmAgent.answer E q w =
  match LlmAgent._get_cached E (LlmAgent._make_key E q) w with
  | (Ok (Some a), w1) =>
      if Py.truthy a then (Ok a, w1)
      else LlmAgent.answer_on_miss E (LlmAgent._make_key E q) q w1
  | (Ok None, w1) => LlmAgent.answer_on_miss E (LlmAgent._make_key E q) q w1
  | (Raise exc, w1) => (Raise exc, w1)
  end.
Proof.
  unfold LlmAgent.answer. unfold bind at 1.
  destruct (LlmAgent._get_cached E (LlmAgent._make_key E q) w) as [[[a|]|exc] w1];
    try reflexivity.
  destruct (Py.truthy a); reflexivity.
Qed.

(** When nothing is served from the file cache, [answer] is its miss path. *)
Lemma answer_when_nothing_served (q : string) (w : World) (c : option string) (w1 : World) :
  LlmAgent._get_cached E (LlmAgent._make_key E q) w = (Ok c, w1) ->
  nothing_to_serve c ->
  LlmAgent.answer E q w = LlmAgent.answer_on_miss E (LlmAgent._make_key E q) q w1.
Proof.
  intros Hget [-> | ->]; rewrite answer_cases, Hget; reflexivity.
Qed.

(** What the miss path does to the store: at most one generation call, and
    the file cache either untouched or extended by the returned answer. *)
Lemma answer_on_miss_effects (key q : string) (w : World) (res : Result string) (w1 : World) :
  LlmAgent.answer_on_miss E key q w = (res, w1) ->
  (w_calls w1 = w_calls w \/
   (w_calls w1 = S (w_calls w) /\
    exists ctx w2, LlmAgent._build_ctx E q w = (Ok ctx, w2)
                   /\ Py.truthy (Py.strip ctx) = true))
  /\ (file_cache w1 = file_cache w \/
      exists a ts, res = Ok a
                   /\ file_cache w1 = <[key := {| ce_answer := a; ce_ts := ts |}]> (file_cache w))
  /\ (forall exc, res = Raise exc -> qe_build_context_for_query E q = Raise exc).
Proof.
  rewrite answer_on_miss_cases.
  destruct (build_ctx_effects q w) as (r & w2 & Hb & Hc & _ & _ & Hf & _ & Hraise).
  rewrite Hb. destruct r as [ctx|exc].
  - destruct (Py.truthy (Py.strip ctx)) eqn:Hctx.
    + destruct (generation_reply E ctx q w2) as [msg|exc].
      * destruct (msg_content msg) as [text|].
        -- destruct (set_cached_effects key (Py.strip text) (set_calls (S (w_calls w2)) w2))
             as (w' & Hset & Hfile & Hcalls & _).
           rewrite Hset. simpl. intros H. injection H as <- <-.
           split; [right; split; [simpl in Hcalls; lia | eauto]|].
           split; [right; do 2 eexists; split; [reflexivity|];
                   rewrite Hfile; simpl; rewrite Hf; reflexivity|].
           intros exc Hexc. discriminate.
        -- intros H. injection H as <- <-. simpl.
           split; [right; split; [lia | eauto]|].
           split; [left; exact Hf|]. intros exc Hexc. discriminate.
      * intros H. injection H as <- <-. simpl.
        split; [right; split; [lia | eauto]|].
        split; [left; exact Hf|]. intros exc' Hexc. discriminate.
    + intros H. injection H as <- <-.
      split; [left; exact Hc|]. split; [left; exact Hf|].
      intros exc Hexc. discriminate.
  - intros H. injection H as <- <-.
    split; [left; exact Hc|]. split; [left; exact Hf|].
    intros exc' Hexc. apply Hraise. exact Hexc.
Qed.

(** C5. In a run of [LLMAgent.answer] that builds a retrieval context
    (the file cache served nothing) and finds it empty or whitespace-only,
    the generation service is not invoked and the fixed "not found"
    message is returned.  Put the other way round: a run that invokes the
    generation service does so once, with a context that is not blank. *)
Theorem llm_answer_blank_context (q : string) (w : World)
    (res : Result string) (w' : World) :
  LlmAgent.answer E q w = (res, w') ->
  (forall c w1 ctx w2,
     LlmAgent._get_cached E (LlmAgent._make_key E q) w = (Ok c, w1) ->
     nothing_to_serve c ->
     LlmAgent._build_ctx E q w1 = (Ok ctx, w2) ->
     Py.strip ctx = EmptyString ->
     res = Ok LlmAgent.NOT_FOUND /\ w_calls w' = w_calls w)
  /\ (w_calls w' <> w_calls w ->
      w_calls w' = S (w_calls w) /\
      exists c w1 ctx w2,
        LlmAgent._get_cached E (LlmAgent._make_key E q) w = (Ok c, w1)
        /\ nothing_to_serve c
        /\ LlmAgent._build_ctx E q w1 = (Ok ctx, w2)
        /\ Py.strip ctx <> EmptyString).
Proof.
  intros Hrun. split.
  - intros c w1 ctx w2 Hget Hnone Hb Hblank.
    rewrite (answer_when_nothing_served q w c w1 Hget Hnone) in Hrun.
    rewrite answer_on_miss_cases, Hb in Hrun.
    apply truthy_false in Hblank. rewrite Hblank in Hrun.
    injection Hrun as <- <-. split; [reflexivity|].
    destruct (get_cached_effects (LlmAgent._make_key E q) w) as (c' & w1' & Hget' & Hc & _).
    destruct (build_ctx_effects q w1) as (r & w2' & Hb' & Hc2 & _).
    congruence.
  - intros Hcalls.
    destruct (get_cached_effects (LlmAgent._make_key E q) w)
      as (c & w1 & Hget & Hc & _).
    rewrite answer_cases, Hget in Hrun.
    assert (Hmiss : nothing_to_serve c ->
                    LlmAgent.answer_on_miss E (LlmAgent._make_key E q) q w1 = (res, w') ->
                    w_calls w' = S (w_calls w) /\
                    exists c0 w10 ctx w2,
                      LlmAgent._get_cached E (LlmAgent._make_key E q) w = (Ok c0, w10)
                      /\ nothing_to_serve c0
                      /\ LlmAgent._build_ctx E q w10 = (Ok ctx, w2)
                      /\ Py.strip ctx <> EmptyString).
    { intros Hnone Hmiss.
      destruct (answer_on_miss_effects _ _ _ _ _ Hmiss) as ([Hsame | (Hone & ctx & w2 & Hb & Hctx)] & _).
      - congruence.
      - split; [congruence|]. exists c, w1, ctx, w2.
        repeat split; auto. intros Hblank. apply truthy_false in Hblank. congruence. }
    destruct c as [a|].
    + destruct (Py.truthy a) eqn:Ha.
      * injection Hrun as <- <-. congruence.
      * apply truthy_false in Ha. subst a. apply Hmiss; [right; reflexivity | exact Hrun].
    + apply Hmiss; [left; reflexivity | exact Hrun].
Qed.


(** C10. A fresh file-cache entry whose stored answer is the empty string
    is returned by [_get_cached] and stays in the cache, yet [answer]
    treats it as a miss: it continues with the context build, and when the
    context is not blank the generation service is invoked once more. *)
Theorem llm_blank_cached_answer_is_miss (q : string) (w : World) (entry : CacheEntry) :
  file_cache w !! LlmAgent._make_key E q = Some entry ->
  ce_answer entry = EmptyString ->
  time_time E (w_ticks w) - ce_ts entry <= CACHE_TTL_SECONDS E ->
  let w1 := set_ticks (S (w_ticks w)) w in
  LlmAgent._get_cached E (LlmAgent._make_key E q) w = (Ok (Some EmptyString), w1)
  /\ file_cache w1 !! LlmAgent._make_key E q = Some entry
  /\ LlmAgent.answer E q w = LlmAgent.answer_on_miss E (LlmAgent._make_key E q) q w1
  /\ (forall ctx w2,
        LlmAgent._build_ctx E q w1 = (Ok ctx, w2) ->
        Py.strip ctx <> EmptyString ->
        w_calls (snd (LlmAgent.answer E q w)) = S (w_calls w)).
Proof.
  intros Hentry Hblank Hfresh w1.
  pose proof (get_cached_cases (LlmAgent._make_key E q) w) as Hget.
  rewrite Hentry in Hget.
  destruct (Z.ltb_spec (CACHE_TTL_SECONDS E) (time_time E (w_ticks w) - ce_ts entry));
    [lia|].
  rewrite Hblank in Hget. fold w1 in Hget.
  assert (Hanswer : LlmAgent.answer E q w
                    = LlmAgent.answer_on_miss E (LlmAgent._make_key E q) q w1).
  { apply (answer_when_nothing_served q w (Some EmptyString) w1 Hget). right. reflexivity. }
  split; [exact Hget|]. split; [exact Hentry|]. split; [exact Hanswer|].
  intros ctx w2 Hb Hctx. rewrite Hanswer, answer_on_miss_cases, Hb.
  destruct (build_ctx_effects q w1) as (r & w2' & Hb' & Hc & _).
  assert (Hcalls : w_calls w2 = w_calls w) by (rewrite Hb in Hb'; injection Hb' as _ <-; exact Hc).
  destruct (Py.truthy (Py.strip ctx)) eqn:Ht;
    [|apply truthy_false in Ht; contradiction].
  destruct (generation_reply E ctx q w2) as [msg|exc]; [|simpl; lia].
  destruct (msg_content msg) as [text|]; [|simpl; lia].
  destruct (set_cached_effects (LlmAgent._make_key E q) (Py.strip text)
              (set_calls (S (w_calls w2)) w2)) as (w3 & Hset & _ & Hc3 & _).
  rewrite Hset. simpl. simpl in Hc3. lia.
Qed.

(** After the miss path returned an answer, the entry found under the key
    is the one that was there before, or holds the answer just returned. *)
Lemma entry_after_miss (key q : string) (w0 : World) (a1 : string) (w1 : World)
    (entry : CacheEntry) :
  LlmAgent.answer_on_miss E key q w0 = (Ok a1, w1) ->
  file_cache w1 !! key = Some entry ->
  file_cache w0 !! key = Some entry \/ ce_answer entry = a1.
Proof.
  intros Hmiss Hentry.
  destruct (answer_on_miss_effects _ _ _ _ _ Hmiss) as (_ & [Hsame | (a & ts & Ha & Hins)] & _).
  - left. rewrite <- Hsame. exact Hentry.
  - right. injection Ha as <-. rewrite Hins, lookup_insert_eq in Hentry.
    injection Hentry as <-. reflexivity.
Qed.

(** C3, as the code has it. After a call of [LLMAgent.answer] returned
    an answer, a second call with the same normalized query, made while the
    entry cached under its key is unexpired and holds a non-empty answer,
    returns the identical string, makes no generation call and leaves the
    file cache, hence its entry count, as it was. *)
Theorem llm_answer_idempotent (q1 q2 : string) (w : World) (a1 : string) (w1 : World)
    (entry : CacheEntry) :
  Py.lower (Py.strip q1) = Py.lower (Py.strip q2) ->
  LlmAgent.answer E q1 w = (Ok a1, w1) ->
  file_cache w1 !! LlmAgent._make_key E q2 = Some entry ->
  ce_answer entry <> EmptyString ->
  time_time E (w_ticks w1) - ce_ts entry <= CACHE_TTL_SECONDS E ->
  exists w2,
    LlmAgent.answer E q2 w1 = (Ok a1, w2)
    /\ file_cache w2 = file_cache w1
    /\ size (file_cache w2) = size (file_cache w1)
    /\ w_calls w2 = w_calls w1.
Proof.
  intros Hnorm Hfirst Hentry Hne Hfresh.
  assert (Hkey : LlmAgent._make_key E q1 = LlmAgent._make_key E q2)
    by (unfold LlmAgent._make_key; rewrite Hnorm; reflexivity).
  assert (Hanswer : ce_answer entry = a1).
  { rewrite answer_cases, Hkey in Hfirst.
    pose proof (get_cached_cases (LlmAgent._make_key E q2) w) as Hget.
    destruct (file_cache w !! LlmAgent._make_key E q2) as [e0|] eqn:He0.
    - destruct (CACHE_TTL_SECONDS E <? time_time E (w_ticks w) - ce_ts e0).
      + rewrite Hget in Hfirst.
        destruct (entry_after_miss _ _ _ _ _ _ Hfirst Hentry) as [Hold | Hnew]; [|exact Hnew].
        simpl in Hold. rewrite lookup_delete_eq in Hold. discriminate.
      + rewrite Hget in Hfirst.
        destruct (Py.truthy (ce_answer e0)) eqn:Ht.
        * injection Hfirst as <- <-. simpl in Hentry. congruence.
        * destruct (entry_after_miss _ _ _ _ _ _ Hfirst Hentry) as [Hold | Hnew]; [|exact Hnew].
          simpl in Hold. apply truthy_false in Ht. congruence.
    - rewrite Hget in Hfirst.
      destruct (entry_after_miss _ _ _ _ _ _ Hfirst Hentry) as [Hold | Hnew]; [|exact Hnew].
      congruence. }
  exists (set_ticks (S (w_ticks w1)) w1).
  pose proof (get_cached_cases (LlmAgent._make_key E q2) w1) as Hget.
  rewrite Hentry in Hget.
  destruct (Z.ltb_spec (CACHE_TTL_SECONDS E) (time_time E (w_ticks w1) - ce_ts entry));
    [lia|].
  rewrite answer_cases, Hget.
  destruct (Py.truthy (ce_answer entry)) eqn:Ht.
  - rewrite Hanswer. repeat split.
  - apply truthy_false in Ht. contradiction.
Qed.

End LlmAnswer.

(** ** Expiry in the two caches *)

Section Expiry.
Context (E : Env).

(** C4, as the code has it. An entry older than the configured TTL is
    treated as absent by the next lookup of its key in both agents.  The
    single-shot agent's [_get_cached] returns a miss and deletes the entry
    from the agent's loaded file cache, without rewriting cache.json.  The
    reasoning agent goes on to its loop and leaves the stale entry in its
    session cache and in react_cache.json. *)
Theorem stale_entry_is_a_miss (w : World) (key : string) (entry : CacheEntry)
    (q : string) (session : ReactEntry) :
  (file_cache w !! key = Some entry ->
   CACHE_TTL_SECONDS E < time_time E (w_ticks w) - ce_ts entry ->
   exists w1,
     LlmAgent._get_cached E key w = (Ok None, w1)
     /\ file_cache w1 = delete key (file_cache w)
     /\ file_cache w1 !! key = None
     /\ cache_json w1 = cache_json w
     /\ w_writes w1 = w_writes w)
  /\
  (react_cache w !! ReactAgent._cache_key E q = Some session ->
   CACHE_TTL_SECONDS E < time_time E (w_ticks w) - re_ts session ->
   exists w1,
     ReactAgent.answer E q w
     = ReactAgent.answer_loop E (ReactAgent._cache_key E q) q w1
     /\ react_cache w1 !! ReactAgent._cache_key E q = Some session
     /\ react_cache_json w1 = react_cache_json w).
Proof.
  split.
  - intros Hentry Hold.
    pose proof (get_cached_cases E key w) as Hget. rewrite Hentry in Hget.
    destruct (Z.ltb_spec (CACHE_TTL_SECONDS E) (time_time E (w_ticks w) - ce_ts entry));
      [|lia].
    eexists. split; [exact Hget|]. simpl.
    split; [reflexivity|]. split; [apply lookup_delete_eq|]. split; reflexivity.
  - intros Hentry Hold.
    exists (set_ticks (S (w_ticks w)) w).
    unfold ReactAgent.answer. rewrite Hentry. unfold bind, time_now.
    destruct (Z.ltb_spec (time_time E (w_ticks w) - re_ts session) (CACHE_TTL_SECONDS E));
      [lia|].
    split; [reflexivity|]. split; [exact Hentry | reflexivity].
Qed.

(** What [LLMAgent.clear_cache] returns and leaves behind, on every store. *)
Lemma clear_cache_result (w : World) :
  exists w',
    LlmAgent.clear_cache E w = (Ok (size (file_cache w)), w')
    /\ file_cache w' = ∅
    /\ lru_entries (build_ctx w') = [].
Proof.
  unfold LlmAgent.clear_cache, bind, LlmAgent._save_cache, LlmAgent.cache_clear, ret.
  simpl. destruct (write_text_ok E (w_writes w)); eexists; repeat split.
Qed.

End Expiry.

(** ** The provenance recorder *)

Section ProvenanceFacts.
Context (E : Env).

Lemma fromkeys_from_elem (seen l : list string) (x : string) :
  x ∈ Py.fromkeys_from seen l <-> x ∈ l /\ x ∉ seen.
Proof.
  revert seen. induction l as [|y l IH]; intros seen; simpl.
  - split; [intros H; inversion H | intros [H _]; inversion H].
  - destruct (bool_decide (y ∈ seen)) eqn:Hy.
    + apply bool_decide_eq_true in Hy. rewrite IH. split.
      * intros [Hx Hs]. split; [right; exact Hx | exact Hs].
      * intros [Hx Hs]. split; [|exact Hs].
        apply elem_of_cons in Hx as [-> | Hx]; [contradiction | exact Hx].
    + apply bool_decide_eq_false in Hy. rewrite elem_of_cons, IH. split.
      * intros [-> | [Hx Hs]].
        -- split; [left | exact Hy].
        -- split; [right; exact Hx|]. intros Hin. apply Hs. right. exact Hin.
      * intros [Hx Hs]. apply elem_of_cons in Hx as [-> | Hx]; [left; reflexivity|].
        destruct (decide (x = y)) as [-> | Hne]; [left; reflexivity|].
        right. split; [exact Hx|]. intros Hin.
        apply elem_of_cons in Hin as [-> | Hin]; [congruence | contradiction].
Qed.





(** A record is produced exactly when every lookup of the run succeeded,
    and then it holds the cited names of [cited_in]. *)
Lemma collect_triples_ok (enames : list string)
    (acc : list Provenance.Triple * gset (string * string * string))
    (triples : list Provenance.Triple) :
  Provenance.collect_triples E enames acc = Ok triples ->
  forall name, name ∈ enames -> exists rows, qe_get_entity_details E (JStr name) = Ok rows.
Proof.
  revert acc. induction enames as [|ename rest IH]; intros acc Hok name Hin.
  - inversion Hin.
  - simpl in Hok.
    destruct (qe_get_entity_details E (JStr ename)) as [details|exc] eqn:Hd; [|discriminate].
    apply elem_of_cons in Hin as [-> | Hin]; [eauto|].
    exact (IH _ Hok name Hin).
Qed.

Lemma build_provenance_cases (query answer : string) (agent_steps : list Step)
    (its : nat) (cached : bool) (w : World) :
  Provenance.build_provenance E query answer agent_steps its cached w =
  match qe_get_all_entities E with
  | Raise exc => (Raise exc, w)
  | Ok ents =>
      match Provenance.collect_triples E (take 8 (Provenance.cited_in answer ents)) ([], ∅) with
      | Raise exc => (Raise exc, w)
      | Ok triples =>
          match Provenance.sparql_used agent_steps with
          | Raise exc => (Raise exc, w)
          | Ok used =>
              (Ok {| Provenance.query_id := sha256_hexdigest E query;
                     Provenance.query_text := query;
                     Provenance.timestamp_utc := isoformat E (time_time E (w_ticks w));
                     Provenance.cited_entities := Provenance.cited_in answer ents;
                     Provenance.supporting_triples := take 25 triples;
                     Provenance.sparql_queries_used := used;
                     Provenance.agent_iterations := its;
                     Provenance.prov_cached := cached |},
               set_ticks (S (w_ticks w)) w)
          end
      end
  end.
Proof.
  unfold Provenance.build_provenance, bind, lift.
  destruct (qe_get_all_entities E) as [ents|exc]; [|reflexivity].
  destruct (Provenance.collect_triples E _ _) as [triples|exc]; [|reflexivity].
  destruct (Provenance.sparql_used agent_steps) as [used|exc]; reflexivity.
Qed.

End ProvenanceFacts.

Section ProvenanceClaims.
Context (E : Env).


(** C7, as the code has it. Building a provenance record writes
    nothing: the two cache files, the agents' caches and the count of file
    writes and of generation calls are as before.  A failing Fact Query
    Interface call is not caught: when the entity listing fails, or the
    detail lookup of one of the first eight cited names fails, the
    exception leaves [build_provenance] and no record is produced; a
    record is produced only when all of these calls succeeded. *)
Theorem provenance_reads_only_and_propagates (query answer : string)
    (agent_steps : list Step) (its : nat) (cached : bool) (w : World)
    (res : Result Provenance.ProvenanceRecord) (w' : World) :
  Provenance.build_provenance E query answer agent_steps its cached w = (res, w') ->
  same_stores w w' /\ w_calls w' = w_calls w
  /\ (forall exc, qe_get_all_entities E = Raise exc -> res = Raise exc)
  /\ (forall ents name exc,
        qe_get_all_entities E = Ok ents ->
        name ∈ take 8 (Provenance.cited_in answer ents) ->
        qe_get_entity_details E (JStr name) = Raise exc ->
        exists exc', res = Raise exc')
  /\ (forall rec, res = Ok rec ->
        exists ents,
          qe_get_all_entities E = Ok ents
          /\ Provenance.cited_entities rec = Provenance.cited_in answer ents
          /\ forall name, name ∈ take 8 (Provenance.cited_in answer ents) ->
               exists rows, qe_get_entity_details E (JStr name) = Ok rows).
Proof.
  rewrite build_provenance_cases. intros Hrun.
  destruct (qe_get_all_entities E) as [ents|exc0].
  - destruct (Provenance.collect_triples E (take 8 (Provenance.cited_in answer ents)) ([], ∅))
      as [triples|exc1] eqn:Hcollect.
    + pose proof (collect_triples_ok E _ _ _ Hcollect) as Hall.
      destruct (Provenance.sparql_used agent_steps) as [used|exc2];
        injection Hrun as <- <-.
      * split; [apply same_stores_ticks|]. split; [reflexivity|].
        split; [intros exc Hexc; discriminate|]. split.
        -- intros ents' name exc Hents Hin Hfail. injection Hents as <-.
           destruct (Hall name Hin) as [rows Hrows]. congruence.
        -- intros rec Hrec. injection Hrec as <-. exists ents. simpl. auto.
      * split; [apply same_stores_refl|]. split; [reflexivity|].
        split; [intros exc Hexc; discriminate|]. split; [eauto|].
        intros rec Hrec. discriminate.
    + injection Hrun as <- <-.
      split; [apply same_stores_refl|]. split; [reflexivity|].
      split; [intros exc Hexc; discriminate|]. split; [eauto|].
      intros rec Hrec. discriminate.
  - injection Hrun as <- <-.
    split; [apply same_stores_refl|]. split; [reflexivity|].
    split; [intros exc Hexc; congruence|]. split.
    + intros ents name exc Hents. discriminate.
    + intros rec Hrec. discriminate.
Qed.

End ProvenanceClaims.

(** ** The claims at concrete inputs *)


Lemma react_exhaustion_writes_no_entry_witness :
  exists res w',
    ReactAgent.answer Demo.env_tools Demo.query Demo.world_stale_session = (res, w')
    /\ (exists r, res = Ok (ReactAgent.ExhaustedExit, r))
    /\ react_cache w' = react_cache Demo.world_stale_session
    /\ react_cache_json w' = react_cache_json Demo.world_stale_session
    /\ w_writes w' = w_writes Demo.world_stale_session.
Proof.
  eexists. eexists.
  assert (Hrun : ReactAgent.answer Demo.env_tools Demo.query Demo.world_stale_session
                 = (fst (ReactAgent.answer Demo.env_tools Demo.query Demo.world_stale_session),
                    snd (ReactAgent.answer Demo.env_tools Demo.query Demo.world_stale_session)))
    by apply surjective_pairing.
  split; [exact Hrun|].
  split; [eexists; vm_compute; reflexivity|].
  apply (proj1 (react_exhaustion_writes_no_entry Demo.env_tools
                  Demo.world_stale_session Demo.query _ _ Hrun)).
  intros r. vm_compute. discriminate.
Defined.

Lemma llm_answer_blank_context_witness :
  exists w2,
    LlmAgent._get_cached Demo.env_no_context
      (LlmAgent._make_key Demo.env_no_context Demo.query) Demo.world0
    = (Ok None, Demo.world0)
    /\ nothing_to_serve None
    /\ LlmAgent._build_ctx Demo.env_no_context Demo.query Demo.world0 = (Ok " ", w2)
    /\ Py.strip " " = EmptyString
    /\ LlmAgent.answer Demo.env_no_context Demo.query Demo.world0
       = (Ok LlmAgent.NOT_FOUND, w2)
    /\ w_calls w2 = w_calls Demo.world0.
Proof.
  eexists.
  assert (Hget : LlmAgent._get_cached Demo.env_no_context
                   (LlmAgent._make_key Demo.env_no_context Demo.query) Demo.world0
                 = (Ok None, Demo.world0)) by reflexivity.
  assert (Hnone : nothing_to_serve None) by (left; reflexivity).
  assert (Hctx : LlmAgent._build_ctx Demo.env_no_context Demo.query Demo.world0
                 = (Ok " ", snd (LlmAgent._build_ctx Demo.env_no_context Demo.query Demo.world0)))
    by reflexivity.
  assert (Hblank : Py.strip " " = EmptyString) by reflexivity.
  assert (Hrun : LlmAgent.answer Demo.env_no_context Demo.query Demo.world0
                 = (fst (LlmAgent.answer Demo.env_no_context Demo.query Demo.world0),
                    snd (LlmAgent.answer Demo.env_no_context Demo.query Demo.world0)))
    by apply surjective_pairing.
  destruct (proj1 (llm_answer_blank_context Demo.env_no_context Demo.query Demo.world0
                     _ _ Hrun) None Demo.world0 " " _ Hget Hnone Hctx Hblank)
    as [Hres Hcalls].
  split; [exact Hget|]. split; [exact Hnone|]. split; [exact Hctx|].
  split; [exact Hblank|]. split; [reflexivity|]. reflexivity.
Defined.


Lemma llm_blank_cached_answer_is_miss_witness :
  file_cache Demo.world_blank_answer !! LlmAgent._make_key Demo.env_text Demo.query
  = Some Demo.blank_answer
  /\ ce_answer Demo.blank_answer = EmptyString
  /\ time_time Demo.env_text (w_ticks Demo.world_blank_answer) - ce_ts Demo.blank_answer
     <= CACHE_TTL_SECONDS Demo.env_text
  /\ fst (LlmAgent.answer Demo.env_text Demo.query Demo.world_blank_answer)
     = Ok Demo.text_answer
  /\ w_calls (snd (LlmAgent.answer Demo.env_text Demo.query Demo.world_blank_answer)) = 1%nat.
Proof.
  assert (H1 : file_cache Demo.world_blank_answer
               !! LlmAgent._make_key Demo.env_text Demo.query = Some Demo.blank_answer)
    by (vm_compute; reflexivity).
  assert (H2 : ce_answer Demo.blank_answer = EmptyString) by reflexivity.
  assert (H3 : time_time Demo.env_text (w_ticks Demo.world_blank_answer)
               - ce_ts Demo.blank_answer <= CACHE_TTL_SECONDS Demo.env_text)
    by (vm_compute; discriminate).
  destruct (llm_blank_cached_answer_is_miss Demo.env_text Demo.query
              Demo.world_blank_answer Demo.blank_answer H1 H2 H3)
    as (_ & _ & _ & Hcalls).
  split; [exact H1|]. split; [exact H2|]. split; [exact H3|].
  split; [vm_compute; reflexivity|].
  apply (Hcalls "## Absorber Materials - **MAPbI3** (bandgap 1.55 eV)"
           (snd (LlmAgent._build_ctx Demo.env_text Demo.query
                   (set_ticks 1 Demo.world_blank_answer)))).
  - vm_compute. reflexivity.
  - vm_compute. discriminate.
Defined.

Lemma llm_answer_idempotent_witness :
  exists w1 w2,
    Py.lower (Py.strip Demo.query_variant) = Py.lower (Py.strip Demo.query)
    /\ LlmAgent.answer Demo.env_text Demo.query_variant Demo.world0
       = (Ok Demo.text_answer, w1)
    /\ file_cache w1 !! LlmAgent._make_key Demo.env_text Demo.query
       = Some {| ce_answer := Demo.text_answer; ce_ts := 1000 |}
    /\ 1001 - 1000 <= CACHE_TTL_SECONDS Demo.env_text
    /\ LlmAgent.answer Demo.env_text Demo.query w1 = (Ok Demo.text_answer, w2)
    /\ size (file_cache w2) = size (file_cache w1)
    /\ w_calls w2 = w_calls w1.
Proof.
  exists (snd (LlmAgent.answer Demo.env_text Demo.query_variant Demo.world0)).
  assert (H1 : Py.lower (Py.strip Demo.query_variant) = Py.lower (Py.strip Demo.query))
    by (vm_compute; reflexivity).
  assert (H2 : LlmAgent.answer Demo.env_text Demo.query_variant Demo.world0
               = (Ok Demo.text_answer,
                  snd (LlmAgent.answer Demo.env_text Demo.query_variant Demo.world0)))
    by (vm_compute; reflexivity).
  assert (H3 : file_cache (snd (LlmAgent.answer Demo.env_text Demo.query_variant Demo.world0))
               !! LlmAgent._make_key Demo.env_text Demo.query
               = Some {| ce_answer := Demo.text_answer; ce_ts := 1000 |})
    by (vm_compute; reflexivity).
  assert (H4 : ce_answer {| ce_answer := Demo.text_answer; ce_ts := 1000 |} <> EmptyString)
    by discriminate.
  assert (H5 : time_time Demo.env_text
                 (w_ticks (snd (LlmAgent.answer Demo.env_text Demo.query_variant Demo.world0)))
               - ce_ts {| ce_answer := Demo.text_answer; ce_ts := 1000 |}
               <= CACHE_TTL_SECONDS Demo.env_text)
    by (vm_compute; discriminate).
  destruct (llm_answer_idempotent Demo.env_text Demo.query_variant Demo.query Demo.world0
              Demo.text_answer _ _ H1 H2 H3 H4 H5) as (w2 & Hsecond & _ & Hsize & Hcalls).
  exists w2. split; [exact H1|]. split; [exact H2|]. split; [exact H3|].
  split; [vm_compute; discriminate|]. split; [exact Hsecond|].
  split; [exact Hsize | exact Hcalls].
Defined.

Lemma stale_entry_is_a_miss_witness :
  (file_cache Demo.world_stale_answer !! LlmAgent._make_key Demo.env_text Demo.query
   = Some Demo.stale_answer
   /\ CACHE_TTL_SECONDS Demo.env_text
      < time_time Demo.env_text (w_ticks Demo.world_stale_answer) - ce_ts Demo.stale_answer
   /\ exists w1,
        LlmAgent._get_cached Demo.env_text
          (LlmAgent._make_key Demo.env_text Demo.query) Demo.world_stale_answer
        = (Ok None, w1)
        /\ file_cache w1 !! LlmAgent._make_key Demo.env_text Demo.query = None
        /\ cache_json w1 = cache_json Demo.world_stale_answer)
  /\
  (react_cache Demo.world_stale_session !! ReactAgent._cache_key Demo.env_tools Demo.query
   = Some Demo.stale_entry
   /\ CACHE_TTL_SECONDS Demo.env_tools
      < time_time Demo.env_tools (w_ticks Demo.world_stale_session) - re_ts Demo.stale_entry
   /\ exists w1,
        ReactAgent.answer Demo.env_tools Demo.query Demo.world_stale_session
        = ReactAgent.answer_loop Demo.env_tools
            (ReactAgent._cache_key Demo.env_tools Demo.query) Demo.query w1
        /\ react_cache w1 !! ReactAgent._cache_key Demo.env_tools Demo.query
           = Some Demo.stale_entry).
Proof.
  assert (H1 : file_cache Demo.world_stale_answer
               !! LlmAgent._make_key Demo.env_text Demo.query = Some Demo.stale_answer)
    by (vm_compute; reflexivity).
  assert (H2 : CACHE_TTL_SECONDS Demo.env_text
               < time_time Demo.env_text (w_ticks Demo.world_stale_answer)
                 - ce_ts Demo.stale_answer)
    by (vm_compute; reflexivity).
  assert (H3 : react_cache Demo.world_stale_session
               !! ReactAgent._cache_key Demo.env_tools Demo.query = Some Demo.stale_entry)
    by (vm_compute; reflexivity).
  assert (H4 : CACHE_TTL_SECONDS Demo.env_tools
               < time_time Demo.env_tools (w_ticks Demo.world_stale_session)
                 - re_ts Demo.stale_entry)
    by (vm_compute; reflexivity).
  split.
  - split; [exact H1|]. split; [exact H2|].
    destruct (proj1 (stale_entry_is_a_miss Demo.env_text Demo.world_stale_answer
                       (LlmAgent._make_key Demo.env_text Demo.query) Demo.stale_answer
                       Demo.query Demo.stale_entry) H1 H2)
      as (w1 & Hget & _ & Hgone & Hfile & _).
    exists w1. auto.
  - split; [exact H3|]. split; [exact H4|].
    destruct (proj2 (stale_entry_is_a_miss Demo.env_tools Demo.world_stale_session
                       (LlmAgent._make_key Demo.env_text Demo.query) Demo.stale_answer
                       Demo.query Demo.stale_entry) H3 H4)
      as (w1 & Hloop & Hkept & _).
    exists w1. auto.
Defined.

(** C4 as stated fails in the reasoning agent: the entry under the key is
    two days old, the run looks the key up, and the entry is still in the
    session cache and in its file afterwards. *)
Lemma stale_session_entry_survives_lookup :
  react_cache Demo.world_stale_session !! ReactAgent._cache_key Demo.env_tools Demo.query
  = Some Demo.stale_entry
  /\ CACHE_TTL_SECONDS Demo.env_tools
     < time_time Demo.env_tools (w_ticks Demo.world_stale_session) - re_ts Demo.stale_entry
  /\ react_cache
       (snd (ReactAgent.answer Demo.env_tools Demo.query Demo.world_stale_session))
     !! ReactAgent._cache_key Demo.env_tools Demo.query
     = Some Demo.stale_entry
  /\ react_cache_json
       (snd (ReactAgent.answer Demo.env_tools Demo.query Demo.world_stale_session))
     !! ReactAgent._cache_key Demo.env_tools Demo.query
     = Some Demo.stale_entry.
Proof. by_evaluation. Qed.

(** C3 as stated fails when the first reply is blank: the entry stored by
    the first call is fresh, yet the second call asks the generation
    service again and returns another string. *)
Lemma blank_first_answer_is_regenerated :
  exists w1 w2,
    LlmAgent.answer Demo.env_blank_then_text Demo.query Demo.world0 = (Ok "", w1)
    /\ file_cache w1 !! LlmAgent._make_key Demo.env_blank_then_text Demo.query
       = Some {| ce_answer := ""; ce_ts := 1000 |}
    /\ time_time Demo.env_blank_then_text (w_ticks w1) - 1000
       <= CACHE_TTL_SECONDS Demo.env_blank_then_text
    /\ LlmAgent.answer Demo.env_blank_then_text Demo.query w1 = (Ok Demo.text_answer, w2)
    /\ Demo.text_answer <> ""
    /\ w_calls w1 = 1%nat /\ w_calls w2 = 2%nat.
Proof.
  exists (snd (LlmAgent.answer Demo.env_blank_then_text Demo.query Demo.world0)).
  exists (snd (LlmAgent.answer Demo.env_blank_then_text Demo.query
                 (snd (LlmAgent.answer Demo.env_blank_then_text Demo.query Demo.world0)))).
  by_evaluation.
Qed.


(** C8. [clear_cache] removes one LRU entry and no file-cache entry from
    the store left by a query whose generation call failed, and returns 0:
    the LRU entries it clears are not counted. *)
Theorem clear_cache_omits_lru_entries :
  size (file_cache Demo.world_after_failed_call) = 0%nat
  /\ length (lru_entries (build_ctx Demo.world_after_failed_call)) = 1%nat
  /\ fst (LlmAgent.clear_cache Demo.env_llm_down Demo.world_after_failed_call) = Ok 0%nat
  /\ lru_entries
       (build_ctx (snd (LlmAgent.clear_cache Demo.env_llm_down Demo.world_after_failed_call)))
     = [].
Proof. by_evaluation. Qed.



Lemma provenance_reads_only_and_propagates_witness :
  exists res w',
    Provenance.build_provenance Demo.env_text Demo.query Demo.text_answer [] 1 false
      Demo.world_stale_answer = (res, w')
    /\ (exists rec, res = Ok rec)
    /\ same_stores Demo.world_stale_answer w'
    /\ w_calls w' = w_calls Demo.world_stale_answer.
Proof.
  pose (run := Provenance.build_provenance Demo.env_text Demo.query Demo.text_answer [] 1
                 false Demo.world_stale_answer).
  assert (Hrun : run = (fst run, snd run)) by apply surjective_pairing.
  exists (fst run), (snd run). split; [exact Hrun|].
  split; [eexists; vm_compute; reflexivity|].
  destruct (provenance_reads_only_and_propagates Demo.env_text Demo.query Demo.text_answer
              [] 1%nat false Demo.world_stale_answer _ _ Hrun) as (Hs & Hc & _).
  split; [exact Hs | exact Hc].
Defined.

(** C7 as stated fails when a lookup fails partway through: the listing
    succeeded and the answer cites an entity, the detail lookup raises,
    and the run ends with that exception instead of a record. *)
Lemma detail_failure_leaves_no_record :
  qe_get_all_entities Demo.env_details_down = Ok Demo.entities
  /\ Provenance.cited_in Demo.text_answer Demo.entities = ["MAPbI3"]
  /\ qe_get_entity_details Demo.env_details_down (JStr "MAPbI3")
     = Raise "fact base unavailable"
  /\ fst (Provenance.build_provenance Demo.env_details_down Demo.query Demo.text_answer
            [] 1 false Demo.world0)
     = Raise "fact base unavailable".
Proof. by_evaluation. Qed.

(** * Further properties of the code *)

(** ** The reasoning loop, turn by turn *)

Section ReactTurns.
Context (E : Env).

Lemma run_tool_calls_appends (it : nat) (tcs : list ToolCall)
    (acc : list Step * list Message) :
  fold_left (ReactAgent.run_tool_call E it) tcs acc
  = ((fst acc ++ (step_record E it <$> tcs))%list,
     (snd acc ++ (tool_observation E <$> tcs))%list).
Proof.
  revert acc. induction tcs as [|tc tcs IH]; intros [steps0 messages]; simpl.
  - rewrite !app_nil_r. reflexivity.
  - rewrite IH. simpl. rewrite <- !app_assoc. reflexivity.
Qed.


End ReactTurns.


(** ** The result bundle of a run of the loop *)

Section ReactBundle.
Context (E : Env).

Lemma take_str_length (n : nat) (s : string) : (String.length (Py.take_str n s) <= n)%nat.
Proof.
  revert s. induction n as [|n IH]; intros [|c s]; simpl; try lia.
  specialize (IH s). lia.
Qed.

Lemma str_or_not_empty (a b : string) : b <> EmptyString -> Py.str_or a b <> EmptyString.
Proof. unfold Py.str_or. destruct a; simpl; [auto | discriminate]. Qed.

(** What a run of the loop returns, whichever way it ends. *)
Lemma loop_result_shape :
  forall remaining key messages steps0 its w x r w',
    ReactAgent.loop E remaining key messages steps0 its w = (Ok (x, r), w') ->
    exists new,
      steps r = (steps0 ++ new)%list
      /\ Forall (fun s => (its < iteration s <= iterations r)%nat
                          /\ (String.length (result_preview s) <= 300)%nat) new
      /\ StronglySorted iteration_le new
      /\ (its <= iterations r <= its + remaining)%nat
      /\ w_calls w' = (w_calls w + (iterations r - its))%nat
      /\ cached r = false
      /\ answer_text r <> EmptyString
      /\ match x with
         | ReactAgent.HitExit => False
         | ReactAgent.DoneExit => (its < iterations r)%nat
         | ReactAgent.ExhaustedExit =>
             iterations r = (its + remaining)%nat
             /\ answer_text r = "Reached maximum reasoning steps."
         end.
Proof.
  induction remaining as [|remaining IH]; intros key messages steps0 its w x r w' Hrun.
  - simpl in Hrun. unfold ret in Hrun. injection Hrun as <- <- <-.
    exists []. simpl. rewrite app_nil_r.
    repeat split; try constructor; try lia; discriminate.
  - simpl in Hrun. unfold bind at 1 in Hrun. unfold chat_create in Hrun.
    destruct (chat_completions_create E (w_calls w) messages) as [msg|exc]; [|discriminate].
    destruct (msg_tool_calls msg) as [|tc tcs] eqn:Htcs.
    + unfold bind, time_now, ret in Hrun.
      unfold ReactAgent._save_cache in Hrun. simpl in Hrun.
      destruct (write_text_ok E (w_writes w)); injection Hrun as <- <- <-;
        exists []; simpl; rewrite app_nil_r;
        (repeat split; try constructor; try lia);
        apply str_or_not_empty; discriminate.
    + change (fold_left (ReactAgent.run_tool_call E (S its)) tcs
                (ReactAgent.run_tool_call E (S its)
                   (steps0, (messages ++ [ReactAgent.assistant_message msg])%list) tc))
        with (fold_left (ReactAgent.run_tool_call E (S its)) (tc :: tcs)
                (steps0, (messages ++ [ReactAgent.assistant_message msg])%list)) in Hrun.
      rewrite run_tool_calls_appends in Hrun. simpl fst in Hrun. simpl snd in Hrun.
      apply IH in Hrun as (new & Hsteps & Hall & Hsorted & Hits & Hcalls & Hcached & Htext & Hexit).
      exists ((step_record E (S its) <$> tc :: tcs) ++ new)%list.
      split; [rewrite Hsteps, <- app_assoc; reflexivity|].
      split.
      { apply Forall_app. split.
        - apply Forall_forall. intros s Hs.
          apply list_elem_of_fmap in Hs as (tc' & -> & _).
          unfold step_record. cbn [iteration result_preview].
          split; [lia | apply take_str_length].
        - eapply Forall_impl; [exact Hall|]. simpl. intros s [Hs Hp]. split; [lia | exact Hp]. }
      split.
      { apply StronglySorted_app_2.
        - intros s t Hs Ht. apply list_elem_of_fmap in Hs as (tc' & -> & _).
          rewrite Forall_forall in Hall. destruct (Hall t Ht) as [Hlt _].
          unfold iteration_le, step_record. cbn [iteration]. lia.
        - generalize (tc :: tcs). intros l. induction l as [|a l IHl].
          + constructor.
          + rewrite fmap_cons. constructor; [exact IHl|].
            apply Forall_forall. intros s Hs.
            apply list_elem_of_fmap in Hs as (tc' & -> & _).
            unfold iteration_le, step_record. cbn [iteration]. lia.
        - exact Hsorted. }
      split; [lia|]. split; [simpl in Hcalls; lia|]. split; [exact Hcached|].
      split; [exact Htext|].
      destruct x; [exact Hexit | lia |].
      destruct Hexit as [Hn Ht]. split; [lia | exact Ht].
Qed.

(** A run of [answer] that did not return the cached bundle is a run of
    the loop from iteration 0 with an empty trace, on a store with the same
    count of generation calls. *)
Lemma answer_runs_loop (w : World) (q : string) (x : ReactAgent.Exit) (r : ReactResult)
    (w' : World) :
  ReactAgent.answer E q w = (Ok (x, r), w') ->
  x <> ReactAgent.HitExit ->
  exists w1,
    ReactAgent.loop E ReactAgent.MAX_ITERATIONS (ReactAgent._cache_key E q)
      [system_message ReactAgent.SYSTEM_PROMPT; user_message q] [] 0 w1 = (Ok (x, r), w')
    /\ w_calls w1 = w_calls w.
Proof.
  intros Hrun Hx.
  assert (Hmiss : no_fresh_session_entry E w q).
  { eapply answer_not_hit; [exact Hrun|]. intros r0 Heq. injection Heq as -> _. congruence. }
  destruct (answer_enters_loop E w q Hmiss) as (w1 & Hanswer & _ & Hcalls & _).
  exists w1. rewrite Hanswer in Hrun. split; [exact Hrun | exact Hcalls].
Qed.

(** X2. In the result of a run of [ReActAgent.answer] that went through
    the loop, every record of the trace carries an iteration number
    between 1 and [MAX_ITERATIONS], never above the reported iteration
    count, and a result preview of at most 300 characters; the records
    are in non-decreasing iteration order. *)
Theorem react_trace_is_well_formed (w : World) (q : string) (x : ReactAgent.Exit)
    (r : ReactResult) (w' : World) :
  ReactAgent.answer E q w = (Ok (x, r), w') ->
  x <> ReactAgent.HitExit ->
  Forall (well_formed_step ReactAgent.MAX_ITERATIONS) (steps r)
  /\ Forall (fun s => (iteration s <= iterations r)%nat) (steps r)
  /\ StronglySorted iteration_le (steps r).
Proof.
  intros Hrun Hx.
  destruct (answer_runs_loop w q x r w' Hrun Hx) as (w1 & Hloop & _).
  apply loop_result_shape in Hloop
    as (new & Hsteps & Hall & Hsorted & Hits & _).
  rewrite Hsteps. simpl. split; [|split; [|exact Hsorted]].
  - eapply Forall_impl; [exact Hall|]. simpl. intros s [Hs Hp].
    split; [lia | exact Hp].
  - eapply Forall_impl; [exact Hall|]. simpl. intros s [Hs _]. lia.
Qed.

(** X3. In the result of a run of [ReActAgent.answer] that went through
    the loop, [iterations] is the number of generation-service calls the
    run made, between 1 and [MAX_ITERATIONS] = 6 (it is 6 exactly when the
    budget ran out), [cached] is false, and the answer is never the empty
    string: an absent or empty final message becomes the text
    "No answer generated.". *)
Theorem react_iterations_count_generation_calls (w : World) (q : string)
    (x : ReactAgent.Exit) (r : ReactResult) (w' : World) :
  ReactAgent.answer E q w = (Ok (x, r), w') ->
  x <> ReactAgent.HitExit ->
  w_calls w' = (w_calls w + iterations r)%nat
  /\ (1 <= iterations r <= 6)%nat
  /\ (x = ReactAgent.ExhaustedExit -> iterations r = 6%nat)
  /\ cached r = false
  /\ answer_text r <> EmptyString.
Proof.
  intros Hrun Hx.
  destruct (answer_runs_loop w q x r w' Hrun Hx) as (w1 & Hloop & Hcalls1).
  apply loop_result_shape in Hloop
    as (new & _ & _ & _ & Hits & Hcalls & Hcached & Htext & Hexit).
  unfold ReactAgent.MAX_ITERATIONS in *. simpl in *.
  split; [lia|]. split.
  - destruct x; [contradiction | lia | lia].
  - split; [intros ->; lia|]. split; [exact Hcached | exact Htext].
Qed.

End ReactBundle.

Lemma react_trace_is_well_formed_witness :
  exists r w',
    ReactAgent.answer Demo.env_tools Demo.query Demo.world0
    = (Ok (ReactAgent.ExhaustedExit, r), w')
    /\ length (steps r) = 6%nat
    /\ Forall (well_formed_step ReactAgent.MAX_ITERATIONS) (steps r)
    /\ StronglySorted iteration_le (steps r).
Proof.
  pose (run := ReactAgent.answer Demo.env_tools Demo.query Demo.world0).
  assert (H : exists r, run = (Ok (ReactAgent.ExhaustedExit, r), snd run)
                        /\ length (steps r) = 6%nat).
  { eexists. split; vm_compute; reflexivity. }
  destruct H as (r & Hrun & Hlen). exists r, (snd run).
  assert (Hx : ReactAgent.ExhaustedExit <> ReactAgent.HitExit) by discriminate.
  destruct (react_trace_is_well_formed Demo.env_tools Demo.world0 Demo.query _ r _ Hrun Hx)
    as (Hwf & _ & Hsorted).
  split; [exact Hrun|]. split; [exact Hlen|]. split; [exact Hwf | exact Hsorted].
Defined.

Lemma react_iterations_count_generation_calls_witness :
  exists r w',
    ReactAgent.answer Demo.env_text Demo.query Demo.world0
    = (Ok (ReactAgent.DoneExit, r), w')
    /\ w_calls w' = (w_calls Demo.world0 + iterations r)%nat
    /\ iterations r = 1%nat
    /\ answer_text r = Demo.text_answer.
Proof.
  pose (run := ReactAgent.answer Demo.env_text Demo.query Demo.world0).
  assert (H : exists r, run = (Ok (ReactAgent.DoneExit, r), snd run)
                        /\ iterations r = 1%nat /\ answer_text r = Demo.text_answer).
  { eexists. split; [|split]; vm_compute; reflexivity. }
  destruct H as (r & Hrun & Hits & Htext). exists r, (snd run).
  assert (Hx : ReactAgent.DoneExit <> ReactAgent.HitExit) by discriminate.
  destruct (react_iterations_count_generation_calls Demo.env_text Demo.world0 Demo.query
              _ r _ Hrun Hx) as (Hcalls & _).
  split; [exact Hrun|]. split; [exact Hcalls|]. split; [exact Hits | exact Htext].
Defined.

(** ** The session cache across runs *)

Section ReactSession.
Context (E : Env).


(** X4. A run of [ReActAgent.answer] that ended with a final message
    serves the next query with the same key from the session cache, as
    long as the stored entry is younger than the TTL at that lookup: the
    same answer, trace and iteration count come back with [cached] set,
    and no generation call is made. *)
Theorem react_done_then_served_from_cache (w : World) (q q' : string) (r : ReactResult)
    (w1 : World) :
  ReactAgent.answer E q w = (Ok (ReactAgent.DoneExit, r), w1) ->
  ReactAgent._cache_key E q' = ReactAgent._cache_key E q ->
  (forall entry, react_cache w1 !! ReactAgent._cache_key E q = Some entry ->
                 time_time E (w_ticks w1) - re_ts entry < CACHE_TTL_SECONDS E) ->
  exists w2,
    ReactAgent.answer E q' w1
    = (Ok (ReactAgent.HitExit,
           {| answer_text := answer_text r; steps := steps r;
              iterations := iterations r; cached := true |}), w2)
    /\ w_calls w2 = w_calls w1
    /\ react_cache w2 = react_cache w1.
Proof.
  intros Hrun Hkey Hfresh.
  assert (Hx : ReactAgent.DoneExit <> ReactAgent.HitExit) by discriminate.
  destruct (answer_runs_loop E w q _ r w1 Hrun Hx) as (w0 & Hloop & _).
  destruct (proj2 (loop_ticks_and_done E _ _ _ _ _ _ _ _ Hloop) r eq_refl) as [ts Hentry].
  specialize (Hfresh _ Hentry). simpl in Hfresh.
  exists (set_ticks (S (w_ticks w1)) w1).
  unfold ReactAgent.answer. rewrite Hkey, Hentry. unfold bind, time_now. simpl.
  destruct (Z.ltb_spec (time_time E (w_ticks w1) - ts) (CACHE_TTL_SECONDS E)); [|lia].
  repeat split.
Qed.


End ReactSession.

Lemma react_done_then_served_from_cache_witness :
  exists r w1 w2,
    ReactAgent.answer Demo.env_text Demo.query_variant Demo.world0
    = (Ok (ReactAgent.DoneExit, r), w1)
    /\ ReactAgent._cache_key Demo.env_text Demo.query
       = ReactAgent._cache_key Demo.env_text Demo.query_variant
    /\ ReactAgent.answer Demo.env_text Demo.query w1
       = (Ok (ReactAgent.HitExit,
              {| answer_text := answer_text r; steps := steps r;
                 iterations := iterations r; cached := true |}), w2)
    /\ answer_text r = Demo.text_answer
    /\ w_calls w2 = 1%nat.
Proof.
  pose (run := ReactAgent.answer Demo.env_text Demo.query_variant Demo.world0).
  assert (H : exists r, run = (Ok (ReactAgent.DoneExit, r), snd run)
                        /\ answer_text r = Demo.text_answer).
  { eexists. split; vm_compute; reflexivity. }
  destruct H as (r & Hrun & Htext).
  assert (Hkey : ReactAgent._cache_key Demo.env_text Demo.query
                 = ReactAgent._cache_key Demo.env_text Demo.query_variant)
    by (vm_compute; reflexivity).
  assert (Hfresh : forall entry,
             react_cache (snd run) !! ReactAgent._cache_key Demo.env_text Demo.query_variant
             = Some entry ->
             time_time Demo.env_text (w_ticks (snd run)) - re_ts entry
             < CACHE_TTL_SECONDS Demo.env_text).
  { intros entry Hentry. vm_compute in Hentry. injection Hentry as <-.
    vm_compute. reflexivity. }
  destruct (react_done_then_served_from_cache Demo.env_text Demo.world0 Demo.query_variant
              Demo.query r (snd run) Hrun Hkey Hfresh) as (w2 & Hhit & Hcalls & _).
  exists r, (snd run), w2.
  split; [exact Hrun|]. split; [exact Hkey|]. split; [exact Hhit|].
  split; [exact Htext|]. rewrite Hcalls. vm_compute. reflexivity.
Defined.


(** ** The dispatch table *)

Section Dispatch.
Context (E : Env).



(** X7. A tool name outside the dispatch table does not raise: the
    observation is the error object whose text is "Unknown tool: " followed
    by the name, whatever the arguments. *)
Theorem execute_tool_unknown_name (name : string) (args : json) :
  name ∉ tool_names ->
  ReactAgent._execute_tool E name args
  = json_dumps E (JDict {[ "error"%string := JStr ("Unknown tool: " +:+ name) ]}).
Proof.
  intros Hname. unfold ReactAgent._execute_tool, tool_names in *.
  repeat match goal with
         | |- context [String.eqb name ?s] =>
             destruct (String.eqb_spec name s) as [-> | _];
             [exfalso; apply Hname; set_solver|]
         end.
  reflexivity.
Qed.


End Dispatch.

Lemma execute_tool_unknown_name_witness :
  ("drop_graph" ∉ tool_names)
  /\ ReactAgent._execute_tool Demo.env_tools "drop_graph" (JDict ∅)
     = json_dumps Demo.env_tools
         (JDict {[ "error"%string := JStr "Unknown tool: drop_graph" ]}).
Proof.
  assert (H : "drop_graph" ∉ tool_names).
  { unfold tool_names. intros Hin.
    repeat (apply elem_of_cons in Hin as [Hin | Hin]; [discriminate|]).
    inversion Hin. }
  split; [exact H|].
  exact (execute_tool_unknown_name Demo.env_tools "drop_graph" (JDict ∅) H).
Defined.


(** ** The file cache of the single-shot agent *)

Section FileCache.
Context (E : Env).

(** X9. An answer stored by [_set_cached] is found by [_get_cached]
    under the same key, unchanged, as long as the clock has advanced by no
    more than the TTL between the two readings; the lookup leaves the entry
    in place. *)
Theorem llm_store_then_lookup (key answer : string) (w w1 : World) :
  LlmAgent._set_cached E key answer w = (Ok tt, w1) ->
  time_time E (w_ticks w1) - time_time E (w_ticks w) <= CACHE_TTL_SECONDS E ->
  LlmAgent._get_cached E key w1 = (Ok (Some answer), set_ticks (S (w_ticks w1)) w1).
Proof.
  intros Hset Hfresh.
  destruct (set_cached_effects E key answer w) as (w1' & Hset' & Hfile & _).
  rewrite Hset in Hset'. injection Hset' as <-.
  pose proof (get_cached_cases E key w1) as Hget.
  rewrite Hfile, lookup_insert_eq in Hget. simpl in Hget.
  destruct (Z.ltb_spec (CACHE_TTL_SECONDS E)
              (time_time E (w_ticks w1) - time_time E (w_ticks w))); [lia|].
  exact Hget.
Qed.


(** X11. A call of [LLMAgent.answer] leaves the file-cache entries under
    every other key as they were and makes at most one generation call. *)
Theorem llm_answer_touches_one_key (q : string) (w : World) (res : Result string)
    (w' : World) :
  LlmAgent.answer E q w = (res, w') ->
  (forall k, k <> LlmAgent._make_key E q -> file_cache w' !! k = file_cache w !! k)
  /\ (w_calls w <= w_calls w' <= S (w_calls w))%nat.
Proof.
  intros Hrun.
  destruct (get_cached_effects E (LlmAgent._make_key E q) w)
    as (c & w1 & Hget & Hc & _ & _ & _ & _ & Hfile).
  assert (Hkeys1 : forall k, k <> LlmAgent._make_key E q ->
                     file_cache w1 !! k = file_cache w !! k).
  { intros k Hk. destruct Hfile as [-> | [_ ->]]; [reflexivity|].
    apply lookup_delete_ne. congruence. }
  assert (Hmiss : LlmAgent.answer_on_miss E (LlmAgent._make_key E q) q w1 = (res, w') ->
                  (forall k, k <> LlmAgent._make_key E q ->
                     file_cache w' !! k = file_cache w !! k)
                  /\ (w_calls w <= w_calls w' <= S (w_calls w))%nat).
  { intros Hm.
    destruct (answer_on_miss_effects E _ _ _ _ _ Hm) as (Hcalls & Hstore & _).
    split.
    - intros k Hk. rewrite <- (Hkeys1 k Hk).
      destruct Hstore as [-> | (a & ts & _ & ->)]; [reflexivity|].
      apply lookup_insert_ne. congruence.
    - destruct Hcalls as [Hc' | [Hc' _]]; lia. }
  rewrite answer_cases, Hget in Hrun.
  destruct c as [a|]; [|exact (Hmiss Hrun)].
  destruct (Py.truthy a); [|exact (Hmiss Hrun)].
  injection Hrun as <- <-. split; [exact Hkeys1 | lia].
Qed.

(** X12. After [LLMAgent.clear_cache] every lookup in the file cache is
    a miss that does not even read the clock, [cache_stats] reports no
    file-cache entry, no LRU entry and zeroed hit and miss counters, and
    when the file write succeeded cache.json is empty. *)
Theorem llm_clear_cache_empties_both_tiers (w : World) (res : Result nat) (w' : World) :
  LlmAgent.clear_cache E w = (res, w') ->
  res = Ok (size (file_cache w))
  /\ (forall key, LlmAgent._get_cached E key w' = (Ok None, w'))
  /\ LlmAgent.cache_stats E w'
     = (Ok {| LlmAgent.file_cache_entries := 0; LlmAgent.stat_lru_hits := 0;
              LlmAgent.stat_lru_misses := 0; LlmAgent.lru_maxsize := LRU_MAXSIZE E;
              LlmAgent.lru_currsize := 0;
              LlmAgent.cache_ttl_seconds := CACHE_TTL_SECONDS E |}, w')
  /\ (write_text_ok E (w_writes w) = true -> cache_json w' = ∅).
Proof.
  unfold LlmAgent.clear_cache, bind, LlmAgent._save_cache, LlmAgent.cache_clear, ret.
  simpl.
  destruct (write_text_ok E (w_writes w)); intros H; injection H as <- <-;
    (split; [reflexivity|]);
    (split; [intros key; unfold LlmAgent._get_cached; simpl;
             rewrite lookup_empty; reflexivity|]);
    (split; [unfold LlmAgent.cache_stats; simpl; rewrite map_size_empty; reflexivity|]);
    intros Hw; [reflexivity | discriminate].
Qed.

End FileCache.

Lemma llm_store_then_lookup_witness :
  exists w1,
    LlmAgent._set_cached Demo.env_text "k" Demo.text_answer Demo.world0 = (Ok tt, w1)
    /\ time_time Demo.env_text (w_ticks w1) - time_time Demo.env_text (w_ticks Demo.world0)
       <= CACHE_TTL_SECONDS Demo.env_text
    /\ LlmAgent._get_cached Demo.env_text "k" w1
       = (Ok (Some Demo.text_answer), set_ticks (S (w_ticks w1)) w1).
Proof.
  pose (w1 := snd (LlmAgent._set_cached Demo.env_text "k" Demo.text_answer Demo.world0)).
  assert (H1 : LlmAgent._set_cached Demo.env_text "k" Demo.text_answer Demo.world0
               = (Ok tt, w1)) by (vm_compute; reflexivity).
  assert (H2 : time_time Demo.env_text (w_ticks w1)
               - time_time Demo.env_text (w_ticks Demo.world0)
               <= CACHE_TTL_SECONDS Demo.env_text) by (vm_compute; discriminate).
  exists w1. split; [exact H1|]. split; [exact H2|].
  exact (llm_store_then_lookup Demo.env_text "k" Demo.text_answer Demo.world0 w1 H1 H2).
Defined.


Lemma llm_answer_touches_one_key_witness :
  exists w',
    LlmAgent.answer Demo.env_text "Which absorbers are there?" Demo.world_stale_answer
    = (Ok Demo.text_answer, w')
    /\ file_cache w' !! LlmAgent._make_key Demo.env_text Demo.query
       = Some Demo.stale_answer
    /\ (w_calls w' <= 1)%nat.
Proof.
  pose (w' := snd (LlmAgent.answer Demo.env_text "Which absorbers are there?"
                     Demo.world_stale_answer)).
  assert (Hrun : LlmAgent.answer Demo.env_text "Which absorbers are there?"
                   Demo.world_stale_answer = (Ok Demo.text_answer, w'))
    by (vm_compute; reflexivity).
  destruct (llm_answer_touches_one_key Demo.env_text "Which absorbers are there?"
              Demo.world_stale_answer _ w' Hrun) as [Hkeys Hcalls].
  exists w'. split; [exact Hrun|]. split.
  - rewrite Hkeys; [vm_compute; reflexivity | vm_compute; discriminate].
  - simpl in Hcalls. lia.
Defined.

Lemma llm_clear_cache_empties_both_tiers_witness :
  exists w',
    LlmAgent.clear_cache Demo.env_text Demo.world_stale_answer = (Ok 1%nat, w')
    /\ LlmAgent._get_cached Demo.env_text (LlmAgent._make_key Demo.env_text Demo.query) w'
       = (Ok None, w')
    /\ cache_json w' = ∅.
Proof.
  pose (w' := snd (LlmAgent.clear_cache Demo.env_text Demo.world_stale_answer)).
  assert (Hrun : LlmAgent.clear_cache Demo.env_text Demo.world_stale_answer = (Ok 1%nat, w'))
    by (vm_compute; reflexivity).
  destruct (llm_clear_cache_empties_both_tiers Demo.env_text Demo.world_stale_answer _ w' Hrun)
    as (_ & Hmiss & _ & Hdisk).
  exists w'. split; [exact Hrun|]. split; [apply Hmiss|]. apply Hdisk. reflexivity.
Defined.

(** ** The LRU cache in front of the context builder *)

Section Lru.
Context (E : Env).

Lemma lru_find_none (q : string) (entries : list (string * string)) :
  LlmAgent.lru_find q entries = None <-> q ∉ entries.*1.
Proof.
  unfold LlmAgent.lru_find. induction entries as [|[k v] entries IH]; simpl.
  - split; [intros _ Hin; inversion Hin | reflexivity].
  - destruct (String.eqb_spec k q) as [-> | Hne]; simpl.
    + split; [discriminate|]. intros Hin. exfalso. apply Hin. left.
    + rewrite IH. split.
      * intros Hq Hin. apply elem_of_cons in Hin as [-> | Hin]; [congruence | auto].
      * intros Hq Hin. apply Hq. right. exact Hin.
Qed.

Lemma lru_drop_keys (q : string) (entries : list (string * string)) :
  NoDup entries.*1 ->
  NoDup (LlmAgent.lru_drop q entries).*1
  /\ (q ∉ (LlmAgent.lru_drop q entries).*1)
  /\ (length (LlmAgent.lru_drop q entries) <= length entries)%nat
  /\ (q ∈ entries.*1 -> (length (LlmAgent.lru_drop q entries) < length entries)%nat)
  /\ forall k, k ∈ (LlmAgent.lru_drop q entries).*1 -> k ∈ entries.*1.
Proof.
  unfold LlmAgent.lru_drop. induction entries as [|[k v] entries IH]; simpl; intros Hnd.
  - repeat split; try constructor; try lia.
    + intros Hin. inversion Hin.
    + intros Hin. inversion Hin.
    + auto.
  - apply NoDup_cons in Hnd as [Hk Hnd].
    destruct (IH Hnd) as (IH1 & IH2 & IH3 & IH4 & IH5).
    destruct (String.eqb_spec k q) as [-> | Hne]; simpl.
    + repeat split; auto; try lia. intros k Hin. right. auto.
    + split.
      { apply NoDup_cons. split; [|exact IH1]. intros Hin. apply Hk. auto. }
      split.
      { intros Hin. apply elem_of_cons in Hin as [-> | Hin]; [congruence | auto]. }
      split; [lia|]. split.
      { intros Hin. apply elem_of_cons in Hin as [-> | Hin]; [congruence|].
        specialize (IH4 Hin). lia. }
      intros k' Hin. apply elem_of_cons in Hin as [-> | Hin]; [left | right; auto].
Qed.

(** X13. The LRU cache keeps its shape across every call of the cached
    context builder: if it held at most [LRU_MAXSIZE] entries with distinct
    queries before the call, it does so after it, whether the call was a
    hit, a miss or a failure of the fact base. *)
Theorem lru_cache_stays_bounded (q : string) (w : World) (res : Result string) (w' : World) :
  LlmAgent._build_ctx E q w = (res, w') ->
  NoDup (lru_entries (build_ctx w)).*1 ->
  (length (lru_entries (build_ctx w)) <= LRU_MAXSIZE E)%nat ->
  NoDup (lru_entries (build_ctx w')).*1
  /\ (length (lru_entries (build_ctx w')) <= LRU_MAXSIZE E)%nat.
Proof.
  unfold LlmAgent._build_ctx. intros Hrun Hnd Hlen.
  destruct (LlmAgent.lru_find q (lru_entries (build_ctx w))) as [v|] eqn:Hfind.
  - injection Hrun as <- <-. simpl.
    destruct (lru_drop_keys q _ Hnd) as (Hnd' & Hq & _ & Hlt & _).
    assert (Hin : q ∈ (lru_entries (build_ctx w)).*1).
    { destruct (decide (q ∈ (lru_entries (build_ctx w)).*1)) as [Hin | Hout]; [exact Hin|].
      apply lru_find_none in Hout. congruence. }
    specialize (Hlt Hin). split; [|lia].
    apply NoDup_cons. split; assumption.
  - apply lru_find_none in Hfind.
    destruct (qe_build_context_for_query E q) as [v|exc]; injection Hrun as <- <-; simpl.
    + split.
      * rewrite fmap_take. eapply sublist_NoDup; [|apply sublist_take]. simpl.
        apply NoDup_cons. split; assumption.
      * rewrite length_take. lia.
    + split; assumption.
Qed.

(** X14. A context that the cached builder has just returned for a query
    is served from the LRU cache when the same query text comes again,
    provided the capacity is not zero: the same context, one more hit, no
    new miss, and the fact base is not consulted (the second call gives the
    same outcome in every environment). *)
Theorem lru_cache_serves_repeated_query (q ctx : string) (w w1 : World) :
  LlmAgent._build_ctx E q w = (Ok ctx, w1) ->
  (1 <= LRU_MAXSIZE E)%nat ->
  exists w2,
    (forall E', LlmAgent._build_ctx E' q w1 = (Ok ctx, w2))
    /\ lru_hits (build_ctx w2) = S (lru_hits (build_ctx w1))
    /\ lru_misses (build_ctx w2) = lru_misses (build_ctx w1).
Proof.
  intros Hrun Hcap.
  assert (Hhead : exists rest, lru_entries (build_ctx w1) = (q, ctx) :: rest).
  { unfold LlmAgent._build_ctx in Hrun.
    destruct (LlmAgent.lru_find q (lru_entries (build_ctx w))) as [v|].
    - injection Hrun as <- <-. simpl. eauto.
    - destruct (qe_build_context_for_query E q) as [v|exc]; [|discriminate].
      injection Hrun as <- <-. simpl.
      destruct (LRU_MAXSIZE E) as [|n]; [lia|]. simpl. eauto. }
  destruct Hhead as [rest Hhead].
  assert (Hfind : LlmAgent.lru_find q (lru_entries (build_ctx w1)) = Some ctx).
  { rewrite Hhead. unfold LlmAgent.lru_find. simpl. rewrite String.eqb_refl. reflexivity. }
  eexists. split; [|split].
  - intros E'. unfold LlmAgent._build_ctx. rewrite Hfind. reflexivity.
  - reflexivity.
  - reflexivity.
Qed.

End Lru.

Lemma lru_cache_stays_bounded_witness :
  exists w',
    LlmAgent._build_ctx Demo.env_text "Which absorbers are there?" Demo.world_lru_only
    = (Ok "## Absorber Materials - **MAPbI3** (bandgap 1.55 eV)", w')
    /\ NoDup (lru_entries (build_ctx Demo.world_lru_only)).*1
    /\ (length (lru_entries (build_ctx Demo.world_lru_only)) <= LRU_MAXSIZE Demo.env_text)%nat
    /\ length (lru_entries (build_ctx w')) = 2%nat
    /\ NoDup (lru_entries (build_ctx w')).*1.
Proof.
  pose (w' := snd (LlmAgent._build_ctx Demo.env_text "Which absorbers are there?"
                     Demo.world_lru_only)).
  assert (H1 : LlmAgent._build_ctx Demo.env_text "Which absorbers are there?"
                 Demo.world_lru_only
               = (Ok "## Absorber Materials - **MAPbI3** (bandgap 1.55 eV)", w'))
    by (vm_compute; reflexivity).
  assert (H2 : NoDup (lru_entries (build_ctx Demo.world_lru_only)).*1).
  { simpl. apply NoDup_singleton. }
  assert (H3 : (length (lru_entries (build_ctx Demo.world_lru_only))
                <= LRU_MAXSIZE Demo.env_text)%nat) by (vm_compute; lia).
  destruct (lru_cache_stays_bounded Demo.env_text _ _ _ w' H1 H2 H3) as [Hnd _].
  exists w'. split; [exact H1|]. split; [exact H2|]. split; [exact H3|].
  split; [vm_compute; reflexivity | exact Hnd].
Defined.

Lemma lru_cache_serves_repeated_query_witness :
  exists ctx w1 w2,
    LlmAgent._build_ctx Demo.env_text Demo.query Demo.world0 = (Ok ctx, w1)
    /\ (1 <= LRU_MAXSIZE Demo.env_text)%nat
    /\ qe_build_context_for_query Demo.env_context_down Demo.query
       = Raise "fact base unavailable"
    /\ LlmAgent._build_ctx Demo.env_context_down Demo.query w1 = (Ok ctx, w2)
    /\ lru_hits (build_ctx w2) = S (lru_hits (build_ctx w1)).
Proof.
  pose (w1 := snd (LlmAgent._build_ctx Demo.env_text Demo.query Demo.world0)).
  assert (H2 : LlmAgent._build_ctx Demo.env_text Demo.query Demo.world0
               = (Ok "## Absorber Materials - **MAPbI3** (bandgap 1.55 eV)", w1))
    by (vm_compute; reflexivity).
  assert (H3 : (1 <= LRU_MAXSIZE Demo.env_text)%nat) by (vm_compute; lia).
  destruct (lru_cache_serves_repeated_query Demo.env_text Demo.query _ Demo.world0 w1 H2 H3)
    as (w2 & Hagain & Hhits & _).
  exists "## Absorber Materials - **MAPbI3** (bandgap 1.55 eV)", w1, w2.
  split; [exact H2|]. split; [exact H3|]. split; [reflexivity|].
  split; [apply Hagain | exact Hhits].
Defined.

(** ** The provenance record *)

Section ProvenanceRecord.
Context (E : Env).

Lemma fromkeys_from_NoDup (seen l : list string) : NoDup (Py.fromkeys_from seen l).
Proof.
  revert seen. induction l as [|x l IH]; intros seen; simpl.
  - constructor.
  - destruct (bool_decide (x ∈ seen)); [apply IH|].
    apply NoDup_cons. split; [|apply IH].
    rewrite fromkeys_from_elem. intros [_ Hout]. apply Hout. left.
Qed.

Lemma truthy_true (s : string) : Py.truthy s = true -> s <> EmptyString.
Proof. destruct s; simpl; [discriminate|]. intros _. discriminate. Qed.

(** The loop over the detail rows of one entity keeps the collected
    triples distinct, remembered and supported. *)
Lemma add_details_invariant (names : list string) (ename : string) (rows : list row) :
  ename ∈ names ->
  qe_get_entity_details E (JStr ename) = Ok rows ->
  forall details acc,
    (forall d, d ∈ details -> d ∈ rows) ->
    NoDup (fst acc) ->
    (forall t, t ∈ fst acc -> triple_key t ∈ snd acc) ->
    Forall (supported_triple E names) (fst acc) ->
    let acc' := fold_left (Provenance.add_detail ename) details acc in
    NoDup (fst acc')
    /\ (forall t, t ∈ fst acc' -> triple_key t ∈ snd acc')
    /\ Forall (supported_triple E names) (fst acc').
Proof.
  intros Hename Hrows details.
  induction details as [|d details IH]; intros acc Hsub Hnd Hseen Hall; simpl.
  - auto.
  - apply IH.
    + intros d' Hd'. apply Hsub. right. exact Hd'.
    + unfold Provenance.add_detail.
      destruct (_ && _ && _) eqn:Hcond; [|exact Hnd].
      destruct (bool_decide _) eqn:Hdup; [exact Hnd|]. simpl.
      apply bool_decide_eq_false in Hdup.
      apply NoDup_app. split; [exact Hnd|]. split; [|apply NoDup_singleton].
      intros t Ht Ht'. apply list_elem_of_singleton in Ht'. subst t.
      apply Hdup. exact (Hseen _ Ht).
    + unfold Provenance.add_detail.
      destruct (_ && _ && _) eqn:Hcond; [|exact Hseen].
      destruct (bool_decide _) eqn:Hdup; [exact Hseen|]. simpl.
      intros t Ht. apply elem_of_app in Ht as [Ht | Ht].
      * apply elem_of_union. right. exact (Hseen _ Ht).
      * apply list_elem_of_singleton in Ht. subst t.
        apply elem_of_union. left. apply elem_of_singleton. reflexivity.
    + unfold Provenance.add_detail.
      destruct (_ && _ && _) eqn:Hcond; [|exact Hall].
      destruct (bool_decide _) eqn:Hdup; [exact Hall|]. simpl.
      apply Forall_app. split; [exact Hall|]. apply Forall_singleton.
      apply andb_true_iff in Hcond as [Hcond Hpred].
      apply andb_true_iff in Hcond as [Hp Ho].
      apply negb_true_iff, orb_false_iff in Hpred as [Hn Hd].
      unfold supported_triple. simpl.
      split; [exact Hename|]. split; [exact (truthy_true _ Hp)|].
      split; [apply String.eqb_neq; exact Hn|].
      split; [apply String.eqb_neq; exact Hd|].
      split; [exact (truthy_true _ Ho)|].
      exists rows, d. split; [exact Hrows|]. split; [apply Hsub; left|].
      split; reflexivity.
Qed.

Lemma collect_triples_invariant (names : list string) :
  forall enames acc triples,
    (forall e, e ∈ enames -> e ∈ names) ->
    NoDup (fst acc) ->
    (forall t, t ∈ fst acc -> triple_key t ∈ snd acc) ->
    Forall (supported_triple E names) (fst acc) ->
    Provenance.collect_triples E enames acc = Ok triples ->
    NoDup triples /\ Forall (supported_triple E names) triples.
Proof.
  induction enames as [|ename rest IH]; intros acc triples Hsub Hnd Hseen Hall Hrun.
  - simpl in Hrun. injection Hrun as <-. auto.
  - simpl in Hrun.
    destruct (qe_get_entity_details E (JStr ename)) as [rows|exc] eqn:Hrows; [|discriminate].
    assert (Hename : ename ∈ names) by (apply Hsub; left).
    destruct (add_details_invariant names ename rows Hename Hrows rows acc
                (fun d Hd => Hd) Hnd Hseen Hall) as (Hnd' & Hseen' & Hall').
    eapply IH; [|exact Hnd'|exact Hseen'|exact Hall'|exact Hrun].
    intros e He. apply Hsub. right. exact He.
Qed.

(** X15. Every provenance record names at most 15 cited entities, all
    distinct, and carries at most 25 supporting triples; its query text,
    iteration count and cached flag are the ones it was given. *)
Theorem provenance_record_is_bounded (query answer : string) (agent_steps : list Step)
    (its : nat) (cached : bool) (w : World) (rec : Provenance.ProvenanceRecord) (w' : World) :
  Provenance.build_provenance E query answer agent_steps its cached w = (Ok rec, w') ->
  NoDup (Provenance.cited_entities rec)
  /\ (length (Provenance.cited_entities rec) <= 15)%nat
  /\ (length (Provenance.supporting_triples rec) <= 25)%nat
  /\ Provenance.agent_iterations rec = its
  /\ Provenance.prov_cached rec = cached
  /\ Provenance.query_text rec = query.
Proof.
  rewrite build_provenance_cases. intros Hrun.
  destruct (qe_get_all_entities E) as [ents|exc]; [|discriminate].
  destruct (Provenance.collect_triples E _ _) as [triples|exc]; [|discriminate].
  destruct (Provenance.sparql_used agent_steps) as [used|exc]; [|discriminate].
  injection Hrun as <- <-. simpl. unfold Provenance.cited_in.
  split.
  { eapply sublist_NoDup; [|apply sublist_take]. apply fromkeys_from_NoDup. }
  split; [rewrite length_take; lia|].
  split; [rewrite length_take; lia|]. auto.
Qed.

(** X16. The supporting triples of a provenance record are pairwise
    distinct; the subject of each is one of the first eight cited
    entities; its predicate is a non-empty label other than "name" and
    "description" and its object is non-empty; and each is read off a row
    that the fact base returned for its subject (the object is the row's
    [objectName], or its [dataValue] when that is missing or empty). *)
Theorem provenance_triples_are_supported (query answer : string) (agent_steps : list Step)
    (its : nat) (cached : bool) (w : World) (rec : Provenance.ProvenanceRecord) (w' : World) :
  Provenance.build_provenance E query answer agent_steps its cached w = (Ok rec, w') ->
  NoDup (Provenance.supporting_triples rec)
  /\ Forall (supported_triple E (take 8 (Provenance.cited_entities rec)))
       (Provenance.supporting_triples rec).
Proof.
  rewrite build_provenance_cases. intros Hrun.
  destruct (qe_get_all_entities E) as [ents|exc]; [|discriminate].
  destruct (Provenance.collect_triples E _ _) as [triples|exc] eqn:Hcollect; [|discriminate].
  destruct (Provenance.sparql_used agent_steps) as [used|exc]; [|discriminate].
  injection Hrun as <- <-. simpl.
  destruct (collect_triples_invariant (take 8 (Provenance.cited_in answer ents))
              _ ([], ∅) triples (fun e He => He)) as [Hnd Hall]; simpl; auto.
  - constructor.
  - intros t Ht. inversion Ht.
  - split.
    + eapply sublist_NoDup; [exact Hnd | apply sublist_take].
    + rewrite Forall_forall in *. intros t Ht. apply Hall.
      rewrite <- (take_drop 25 triples). apply elem_of_app. left. exact Ht.
Qed.

End ProvenanceRecord.

Lemma provenance_record_is_bounded_witness :
  exists rec w',
    Provenance.build_provenance Demo.env_text Demo.query Demo.text_answer [] 1 false
      Demo.world0 = (Ok rec, w')
    /\ Provenance.cited_entities rec = ["MAPbI3"]
    /\ NoDup (Provenance.cited_entities rec)
    /\ (length (Provenance.supporting_triples rec) <= 25)%nat.
Proof.
  pose (run := Provenance.build_provenance Demo.env_text Demo.query Demo.text_answer [] 1
                 false Demo.world0).
  assert (H : exists rec, run = (Ok rec, snd run)
                          /\ Provenance.cited_entities rec = ["MAPbI3"]).
  { eexists. split; vm_compute; reflexivity. }
  destruct H as (rec & Hrun & Hcited). exists rec, (snd run).
  destruct (provenance_record_is_bounded Demo.env_text _ _ _ _ _ _ rec _ Hrun)
    as (Hnd & _ & Hlen & _).
  split; [exact Hrun|]. split; [exact Hcited|]. split; [exact Hnd | exact Hlen].
Defined.

Lemma provenance_triples_are_supported_witness :
  exists rec w',
    Provenance.build_provenance Demo.env_text Demo.query Demo.text_answer [] 1 false
      Demo.world0 = (Ok rec, w')
    /\ Provenance.supporting_triples rec
       = [ {| Provenance.subject := "MAPbI3"; Provenance.predicate := "has bandgap";
              Provenance.object := "1.55" |} ]
    /\ Forall (supported_triple Demo.env_text (take 8 (Provenance.cited_entities rec)))
         (Provenance.supporting_triples rec).
Proof.
  pose (run := Provenance.build_provenance Demo.env_text Demo.query Demo.text_answer [] 1
                 false Demo.world0).
  assert (H : exists rec, run = (Ok rec, snd run)
                          /\ Provenance.supporting_triples rec
                             = [ {| Provenance.subject := "MAPbI3";
                                    Provenance.predicate := "has bandgap";
                                    Provenance.object := "1.55" |} ]).
  { eexists. split; vm_compute; reflexivity. }
  destruct H as (rec & Hrun & Htriples). exists rec, (snd run).
  destruct (provenance_triples_are_supported Demo.env_text _ _ _ _ _ _ rec _ Hrun)
    as (_ & Hall).
  split; [exact Hrun|]. split; [exact Htriples | exact Hall].
Defined.

(** ** The queries listed in a provenance record *)

Section SparqlUsed.
Context (E : Env).

Lemma sparql_used_sound :
  forall agent_steps used,
    Provenance.sparql_used agent_steps = Ok used ->
    (length used <= length agent_steps)%nat
    /\ Forall (fun v => json_truthy v = true
                        /\ exists s d, s ∈ agent_steps /\ tool s = "sparql_query"
                                       /\ args s = JDict d /\ d !! "query" = Some v) used
    /\ forall s, s ∈ agent_steps -> tool s = "sparql_query" -> exists d, args s = JDict d.
Proof.
  induction agent_steps as [|s rest IH]; intros used Hrun; simpl in Hrun.
  - injection Hrun as <-. split; [simpl; lia|]. split; [constructor|].
    intros s Hs. inversion Hs.
  - destruct (String.eqb_spec (tool s) "sparql_query") as [Htool | Htool].
    + destruct (args s) as [| | | | |d] eqn:Hargs; simpl in Hrun; try discriminate.
      assert (Hrest : forall used', Provenance.sparql_used rest = Ok used' ->
                (length used' <= length rest)%nat
                /\ Forall (fun v => json_truthy v = true
                             /\ exists s0 d0, s0 ∈ s :: rest /\ tool s0 = "sparql_query"
                                              /\ args s0 = JDict d0 /\ d0 !! "query" = Some v)
                     used'
                /\ forall s0, s0 ∈ s :: rest -> tool s0 = "sparql_query" ->
                              exists d0, args s0 = JDict d0).
      { intros used' Hused'. destruct (IH _ Hused') as (Hlen & Hall & Hdict).
        split; [exact Hlen|]. split.
        - eapply Forall_impl; [exact Hall|]. simpl.
          intros v (Hv & s0 & d0 & Hs0 & Hrestv). split; [exact Hv|].
          exists s0, d0. split; [right; exact Hs0 | exact Hrestv].
        - intros s0 Hs0 Ht0. apply elem_of_cons in Hs0 as [-> | Hs0]; [eauto|].
          exact (Hdict s0 Hs0 Ht0). }
      destruct (d !! "query") as [v|] eqn:Hq.
      * destruct (json_truthy v) eqn:Hv.
        -- destruct (Provenance.sparql_used rest) as [qs|exc]; simpl in Hrun; [|discriminate].
           injection Hrun as <-. destruct (Hrest qs eq_refl) as (Hlen & Hall & Hdict).
           split; [simpl; lia|]. split; [|exact Hdict].
           constructor; [|exact Hall]. split; [exact Hv|].
           exists s, d. split; [left|]. auto.
        -- destruct (Hrest _ Hrun) as (Hlen & Hall & Hdict).
           split; [simpl; lia|]. split; assumption.
      * destruct (Hrest _ Hrun) as (Hlen & Hall & Hdict).
        split; [simpl; lia|]. split; assumption.
    + destruct (IH _ Hrun) as (Hlen & Hall & Hdict).
      split; [simpl; lia|]. split.
      * eapply Forall_impl; [exact Hall|]. simpl.
        intros v (Hv & s0 & d0 & Hs0 & Hrestv). split; [exact Hv|].
        exists s0, d0. split; [right; exact Hs0 | exact Hrestv].
      * intros s0 Hs0 Ht0. apply elem_of_cons in Hs0 as [-> | Hs0]; [congruence|].
        exact (Hdict s0 Hs0 Ht0).
Qed.

(** X17. Every query listed in a provenance record is the non-empty
    "query" argument of a [sparql_query] record of the trace; records of
    other tools and [sparql_query] records without a query contribute
    nothing, so the list is never longer than the trace. *)
Theorem provenance_queries_come_from_the_trace (query answer : string)
    (agent_steps : list Step) (its : nat) (cached : bool) (w : World)
    (rec : Provenance.ProvenanceRecord) (w' : World) :
  Provenance.build_provenance E query answer agent_steps its cached w = (Ok rec, w') ->
  (length (Provenance.sparql_queries_used rec) <= length agent_steps)%nat
  /\ Forall (fun v => json_truthy v = true
                      /\ exists s d, s ∈ agent_steps /\ tool s = "sparql_query"
                                     /\ args s = JDict d /\ d !! "query" = Some v)
       (Provenance.sparql_queries_used rec).
Proof.
  rewrite build_provenance_cases. intros Hrun.
  destruct (qe_get_all_entities E) as [ents|exc]; [|discriminate].
  destruct (Provenance.collect_triples E _ _) as [triples|exc]; [|discriminate].
  destruct (Provenance.sparql_used agent_steps) as [used|exc] eqn:Hused; [|discriminate].
  injection Hrun as <- <-. simpl.
  destruct (sparql_used_sound _ _ Hused) as (Hlen & Hall & _). auto.
Qed.

(** X18. No provenance record can be built from a trace that holds a
    [sparql_query] record whose arguments are not a JSON object (the loop
    records such arguments as the model sent them): [build_provenance]
    raises, whatever the fact base returns. *)
Theorem provenance_fails_on_non_object_arguments (query answer : string)
    (agent_steps : list Step) (its : nat) (cached : bool) (w : World) (s : Step) :
  s ∈ agent_steps ->
  tool s = "sparql_query" ->
  (forall d, args s <> JDict d) ->
  exists exc,
    Provenance.build_provenance E query answer agent_steps its cached w = (Raise exc, w).
Proof.
  intros Hs Htool Hargs. rewrite build_provenance_cases.
  destruct (qe_get_all_entities E) as [ents|exc]; [|eauto].
  destruct (Provenance.collect_triples E _ _) as [triples|exc]; [|eauto].
  destruct (Provenance.sparql_used agent_steps) as [used|exc] eqn:Hused; [|eauto].
  exfalso. destruct (sparql_used_sound _ _ Hused) as (_ & _ & Hdict).
  destruct (Hdict s Hs Htool) as [d Hd]. exact (Hargs d Hd).
Qed.

End SparqlUsed.

Lemma provenance_queries_come_from_the_trace_witness :
  exists rec w',
    Provenance.build_provenance Demo.env_text Demo.query Demo.text_answer
      Cases.mixed_trace 2 false Demo.world0 = (Ok rec, w')
    /\ Provenance.sparql_queries_used rec = [JStr "SELECT ?n WHERE { ?e pv:name ?n }"]
    /\ (length (Provenance.sparql_queries_used rec) <= length Cases.mixed_trace)%nat.
Proof.
  pose (run := Provenance.build_provenance Demo.env_text Demo.query Demo.text_answer
                 Cases.mixed_trace 2 false Demo.world0).
  assert (H : exists rec, run = (Ok rec, snd run)
                          /\ Provenance.sparql_queries_used rec
                             = [JStr "SELECT ?n WHERE { ?e pv:name ?n }"]).
  { eexists. split; vm_compute; reflexivity. }
  destruct H as (rec & Hrun & Hused). exists rec, (snd run).
  destruct (provenance_queries_come_from_the_trace Demo.env_text _ _ _ _ _ _ rec _ Hrun)
    as (Hlen & _).
  split; [exact Hrun|]. split; [exact Hused | exact Hlen].
Defined.

Lemma provenance_fails_on_non_object_arguments_witness :
  exists s exc,
    s ∈ Cases.list_arguments_trace
    /\ tool s = "sparql_query"
    /\ args s = JList []
    /\ Provenance.build_provenance Demo.env_text Demo.query Demo.text_answer
         Cases.list_arguments_trace 1 false Demo.world0 = (Raise exc, Demo.world0).
Proof.
  pose (s := {| iteration := 1%nat; tool := "sparql_query"; args := JList [];
                result_preview := "[]" |}).
  assert (H1 : s ∈ Cases.list_arguments_trace) by (left).
  assert (H2 : tool s = "sparql_query") by reflexivity.
  assert (H3 : forall d, args s <> JDict d) by (intros d; discriminate).
  destruct (provenance_fails_on_non_object_arguments Demo.env_text Demo.query
              Demo.text_answer Cases.list_arguments_trace 1%nat false Demo.world0 s H1 H2 H3)
    as [exc Hrun].
  exists s, exc. split; [exact H1|]. split; [exact H2|]. split; [reflexivity | exact Hrun].
Defined.

(** ** Abbreviations and cache keys *)

Section Text.




Lemma lower_char_idempotent (c : Ascii.ascii) :
  Py.lower_char (Py.lower_char c) = Py.lower_char c.
Proof. destruct c as [[] [] [] [] [] [] [] []]; reflexivity. Qed.

Lemma lower_char_isspace (c : Ascii.ascii) : Py.isspace (Py.lower_char c) = Py.isspace c.
Proof. destruct c as [[] [] [] [] [] [] [] []]; reflexivity. Qed.

Lemma lower_idempotent (s : string) : Py.lower (Py.lower s) = Py.lower s.
Proof.
  induction s as [|c s IH]; simpl; [reflexivity|].
  rewrite lower_char_idempotent, IH. reflexivity.
Qed.

Lemma lower_lstrip (s : string) : Py.lstrip (Py.lower s) = Py.lower (Py.lstrip s).
Proof.
  induction s as [|c s IH]; simpl; [reflexivity|].
  rewrite lower_char_isspace. destruct (Py.isspace c); [exact IH | reflexivity].
Qed.

Lemma lower_rstrip (s : string) : Py.rstrip (Py.lower s) = Py.lower (Py.rstrip s).
Proof.
  induction s as [|c s IH]; simpl; [reflexivity|].
  rewrite IH, lower_char_isspace.
  destruct (Py.rstrip s) as [|d r]; simpl; [|reflexivity].
  destruct (Py.isspace c); reflexivity.
Qed.

Lemma rstrip_idempotent (s : string) : Py.rstrip (Py.rstrip s) = Py.rstrip s.
Proof.
  induction s as [|c s IH]; simpl; [reflexivity|].
  destruct (Py.rstrip s) as [|d r] eqn:Hr.
  - destruct (Py.isspace c) eqn:Hc; simpl; [reflexivity|]. rewrite Hc. reflexivity.
  - change (Py.rstrip (String c (String d r))) with
      (match Py.rstrip (String d r) with
       | EmptyString => if Py.isspace c then EmptyString else String c EmptyString
       | r' => String c r'
       end).
    rewrite IH. reflexivity.
Qed.

(** Text that starts with no white space. *)
Lemma lstrip_head (s : string) :
  match Py.lstrip s with
  | EmptyString => True
  | String c _ => Py.isspace c = false
  end.
Proof.
  induction s as [|c s IH]; simpl; [exact I|].
  destruct (Py.isspace c) eqn:Hc; [exact IH | exact Hc].
Qed.

Lemma rstrip_keeps_head (s : string) :
  match s with EmptyString => True | String c _ => Py.isspace c = false end ->
  Py.lstrip (Py.rstrip s) = Py.rstrip s.
Proof.
  destruct s as [|c s]; simpl; [reflexivity|]. intros Hc.
  destruct (Py.rstrip s) as [|d r]; rewrite ?Hc; simpl; rewrite Hc; reflexivity.
Qed.

Lemma strip_idempotent (s : string) : Py.strip (Py.strip s) = Py.strip s.
Proof.
  unfold Py.strip.
  rewrite (rstrip_keeps_head (Py.lstrip s) (lstrip_head s)).
  apply rstrip_idempotent.
Qed.

Lemma normalise_idempotent (q : string) :
  Py.lower (Py.strip (Py.lower (Py.strip q))) = Py.lower (Py.strip q).
Proof.
  unfold Py.strip at 1. rewrite lower_lstrip, lower_rstrip, lower_idempotent.
  fold (Py.strip (Py.strip q)). rewrite strip_idempotent. reflexivity.
Qed.

(** X20. The cache key ignores letter case and surrounding white space:
    a query and its normalised form (stripped, lower-cased) have the same
    key, and the two agents derive the same key from a query. *)
Theorem cache_key_ignores_case_and_blanks (E : Env) (q : string) :
  LlmAgent._make_key E (Py.lower (Py.strip q)) = LlmAgent._make_key E q
  /\ LlmAgent._make_key E (Py.strip q) = LlmAgent._make_key E q
  /\ LlmAgent._make_key E (Py.lower q) = LlmAgent._make_key E q
  /\ ReactAgent._cache_key E q = LlmAgent._make_key E q.
Proof.
  unfold LlmAgent._make_key, ReactAgent._cache_key.
  split; [rewrite normalise_idempotent; reflexivity|].
  split; [rewrite strip_idempotent; reflexivity|].
  split; [|reflexivity].
  unfold Py.strip. rewrite lower_lstrip, lower_rstrip, lower_idempotent. reflexivity.
Qed.

End Text.


(** ** The rendered view *)

Section View.
Context (format_slice : json -> Result string).

Lemma query_blocks_length (qs : list json) (blocks : list string) :
  ProvenanceView.query_blocks format_slice qs = Ok blocks -> length blocks = length qs.
Proof.
  revert blocks. induction qs as [|q qs IH]; intros blocks; simpl.
  - intros H. injection H as <-. reflexivity.
  - destruct (ProvenanceView.query_block format_slice q) as [block|exc]; simpl; [|discriminate].
    destruct (ProvenanceView.query_blocks format_slice qs) as [rest|exc]; simpl; [|discriminate].
    intros H. injection H as <-. simpl. rewrite (IH rest eq_refl). reflexivity.
Qed.

Lemma query_blocks_of_strings (qs : list json) :
  Forall (fun q => exists text, q = JStr text) qs ->
  exists blocks, ProvenanceView.query_blocks format_slice qs = Ok blocks.
Proof.
  induction 1 as [|q qs [text ->] _ [blocks IH]]; simpl.
  - eauto.
  - rewrite IH. simpl. eauto.
Qed.

(** X21. The markdown view of a provenance record is capped: it has the
    five header lines, then a section per non-empty list with one line per
    cited entity, one line for each of at most 25 triples and one block for
    each of at most 5 queries.  Rendering cannot fail when the first five
    listed queries are strings. *)
Theorem markdown_view_is_capped (r : Provenance.ProvenanceRecord) :
  (forall lines,
     ProvenanceView.to_markdown_lines format_slice r = Ok lines ->
     length lines
     = (5 + section_lines 2 (length (Provenance.cited_entities r))
              (length (Provenance.cited_entities r))
          + section_lines 4 25 (length (Provenance.supporting_triples r))
          + section_lines 2 5 (length (Provenance.sparql_queries_used r)))%nat
     /\ ProvenanceView.to_markdown format_slice r = Ok (String.concat Py.nl lines))
  /\ (Forall (fun q => exists text, q = JStr text)
        (take 5 (Provenance.sparql_queries_used r)) ->
      exists text, ProvenanceView.to_markdown format_slice r = Ok text).
Proof.
  split.
  - intros lines Hlines. unfold ProvenanceView.to_markdown. rewrite Hlines. simpl.
    split; [|reflexivity].
    unfold ProvenanceView.to_markdown_lines in Hlines.
    destruct (ProvenanceView.query_lines format_slice r) as [queries|exc] eqn:Hq;
      cbn [rbind] in Hlines; [|discriminate].
    assert (Hl : lines = (ProvenanceView.header_lines r ++ ProvenanceView.cited_lines r
                          ++ ProvenanceView.triple_lines r ++ queries)%list)
      by congruence.
    clear Hlines. subst lines. rewrite !length_app.
    change (length (ProvenanceView.header_lines r)) with 5%nat.
    assert (H1 : length (ProvenanceView.cited_lines r)
                 = section_lines 2 (length (Provenance.cited_entities r))
                     (length (Provenance.cited_entities r))).
    { unfold ProvenanceView.cited_lines.
      destruct (Provenance.cited_entities r) as [|e es]; [reflexivity|].
      rewrite length_app, length_fmap. simpl. rewrite Nat.min_id. reflexivity. }
    assert (H2 : length (ProvenanceView.triple_lines r)
                 = section_lines 4 25 (length (Provenance.supporting_triples r))).
    { unfold ProvenanceView.triple_lines.
      destruct (Provenance.supporting_triples r) as [|t ts] eqn:Hts; [reflexivity|].
      rewrite length_app, length_fmap, length_take. reflexivity. }
    assert (H3 : length queries
                 = section_lines 2 5 (length (Provenance.sparql_queries_used r))).
    { unfold ProvenanceView.query_lines in Hq.
      destruct (Provenance.sparql_queries_used r) as [|q qs] eqn:Hqs.
      - injection Hq as <-. reflexivity.
      - destruct (ProvenanceView.query_blocks format_slice (take 5 (q :: qs)))
          as [blocks|exc] eqn:Hb; cbn [rbind] in Hq; [|discriminate].
        assert (Hl : queries = ([ ""; "**SPARQL Queries Executed:**" ] ++ blocks)%list)
          by congruence.
        rewrite Hl, length_app, (query_blocks_length _ _ Hb), length_take.
        reflexivity. }
    rewrite H1, H2, H3. lia.
  - intros Hstrings. unfold ProvenanceView.to_markdown, ProvenanceView.to_markdown_lines,
      ProvenanceView.query_lines.
    destruct (Provenance.sparql_queries_used r) as [|q qs]; simpl; [eauto|].
    destruct (query_blocks_of_strings _ Hstrings) as [blocks Hb].
    simpl in Hb. rewrite Hb. simpl. eauto.
Qed.

End View.

(** ** The request handlers *)

Section Handlers.
Context (E : Env) (format_slice : json -> Result string).

(** A truthy query that is no string: the handler raises at once. *)
Ltac non_string_query :=
  simpl; repeat split;
  try (intros [Hf | (t & Ht & _)]; [discriminate Hf | discriminate Ht]);
  try discriminate;
  try (intros v' Hv' _ _; eexists; split; reflexivity).

(** X22. A request with a JSON object as body is turned down with
    status 400 and "Empty query" exactly when its query is missing, falsy
    or a string of white space only, by [ask] and by [ask_react] alike; the
    store, the generation service and the clock are then untouched.  A
    truthy query that is no string is not turned down: the handler raises
    before either agent is reached. *)
Theorem request_is_rejected_iff_query_is_blank (d : gmap string json) (w : World) :
  (blank_request d
   <-> fst (App.ask E (JDict d) w) = Ok (App.ErrorResponse 400 "Empty query"))
  /\ (blank_request d
      <-> fst (App.ask_react E format_slice (JDict d) w)
          = Ok (App.ErrorResponse 400 "Empty query"))
  /\ (blank_request d ->
      snd (App.ask E (JDict d) w) = w
      /\ snd (App.ask_react E format_slice (JDict d) w) = w)
  /\ (forall v, d !! "query" = Some v -> json_truthy v = true ->
        (forall text, v <> JStr text) ->
        exists exc,
          App.ask E (JDict d) w = (Raise exc, w)
          /\ App.ask_react E format_slice (JDict d) w = (Raise exc, w)).
Proof.
  unfold blank_request, App.ask, App.ask_react, App.request_query, bind, lift, ret.
  destruct (d !! "query") as [v|] eqn:Hq; [|simpl; repeat split; auto; discriminate].
  destruct (json_truthy v) eqn:Hv.
  - destruct v as [|b|z|text|l|d'];
      [ non_string_query | non_string_query | non_string_query | simpl in Hv
      | non_string_query | non_string_query ].
    destruct (Py.truthy (Py.strip text)) eqn:Hs; simpl.
    + assert (Hne : Py.strip text <> EmptyString) by (apply truthy_true; exact Hs).
      assert (Hnb : ~ (true = false
                       \/ exists t, JStr text = JStr t /\ Py.strip t = EmptyString)).
      { intros [Hf | (t & Ht & Hb)]; [discriminate|].
        assert (t = text) by congruence. subst t. contradiction. }
      split; [|split; [|split]].
      * split; [intros Hb; contradiction|].
        destruct (LlmAgent.answer E (Py.strip text) w) as [[a|exc] w1]; simpl;
          discriminate.
      * split; [intros Hb; contradiction|].
        destruct (ReactAgent.answer E (Py.strip text) w) as [[[x r]|exc] w1]; simpl;
          [|discriminate].
        destruct (Provenance.build_provenance E (Py.strip text) (answer_text r) (steps r)
                    (iterations r) (cached r) w1) as [[prov|exc] w2]; simpl;
          [|discriminate].
        destruct (ProvenanceView.to_markdown format_slice prov); simpl; discriminate.
      * intros Hb; contradiction.
      * intros v' Hv' _ Hns. exfalso. apply (Hns text). congruence.
    + apply truthy_false in Hs.
      split; [|split; [|split]].
      * split; [reflexivity|]. intros _. right. exists text. split; [reflexivity|exact Hs].
      * split; [reflexivity|]. intros _. right. exists text. split; [reflexivity|exact Hs].
      * intros _. split; reflexivity.
      * intros v' Hv' _ Hns. exfalso. apply (Hns text). congruence.
  - simpl. split; [|split; [|split]].
    + split; [reflexivity|]. intros _. left. reflexivity.
    + split; [reflexivity|]. intros _. left. reflexivity.
    + intros _. split; reflexivity.
    + intros v' Hv' Ht _. assert (v' = v) by congruence. subst v'. congruence.
Qed.

(** X23. In the chat handlers of hf_app.py the history comes back as it
    was exactly when the message is blank; no provenance view is produced
    then and no agent, cache or generation service is touched.  For any
    other message a successful call appends one exchange, which opens with
    the message as it was typed. *)
Theorem chat_history_unchanged_iff_message_is_blank (message : string)
    (history : list (string * string)) (w : World) :
  (Py.strip message = EmptyString
   <-> fst (App.chat_fast E message history w) = Ok history)
  /\ (Py.strip message = EmptyString
      <-> exists md, fst (App.chat_react E format_slice message history w)
                     = Ok (history, md))
  /\ (Py.strip message = EmptyString ->
      App.chat_fast E message history w = (Ok history, w)
      /\ App.chat_react E format_slice message history w = (Ok (history, EmptyString), w))
  /\ (Py.strip message <> EmptyString ->
      (forall history', fst (App.chat_fast E message history w) = Ok history' ->
         exists reply, history' = (history ++ [(message, reply)])%list)
      /\ (forall history' md,
            fst (App.chat_react E format_slice message history w) = Ok (history', md) ->
            exists reply, history' = (history ++ [(message, reply)])%list)).
Proof.
  assert (Hgrow : forall (x : string * string), (history ++ [x])%list <> history).
  { intros x Heq. apply (f_equal length) in Heq. rewrite length_app in Heq.
    simpl in Heq. lia. }
  unfold App.chat_fast, App.chat_react, bind, lift, ret.
  destruct (Py.truthy (Py.strip message)) eqn:Hs; simpl.
  - assert (Hne : Py.strip message <> EmptyString) by (apply truthy_true; exact Hs).
    split; [|split; [|split]].
    + split; [intros Hb; contradiction|].
      destruct (LlmAgent.answer E message w) as [[a|exc] w1]; simpl; [|discriminate].
      intros Heq. exfalso. apply (Hgrow (message, a)). congruence.
    + split; [intros Hb; contradiction|]. intros [md Hmd]. exfalso. revert Hmd.
      destruct (ReactAgent.answer E message w) as [[[x r]|exc] w1]; simpl;
        [|discriminate].
      destruct (Provenance.build_provenance E message (answer_text r) (steps r)
                  (iterations r) (cached r) w1) as [[prov|exc] w2]; simpl;
        [|discriminate].
      destruct (ProvenanceView.to_markdown format_slice prov); simpl; [|discriminate].
      intros Heq. injection Heq as Hh _. exact (Hgrow _ Hh).
    + intros Hb; contradiction.
    + intros _. split.
      * intros history'.
        destruct (LlmAgent.answer E message w) as [[a|exc] w1]; simpl; [|discriminate].
        intros Heq. exists a. congruence.
      * intros history' md.
        destruct (ReactAgent.answer E message w) as [[[x r]|exc] w1]; simpl;
          [|discriminate].
        destruct (Provenance.build_provenance E message (answer_text r) (steps r)
                    (iterations r) (cached r) w1) as [[prov|exc] w2]; simpl;
          [|discriminate].
        destruct (ProvenanceView.to_markdown format_slice prov); simpl; [|discriminate].
        intros Heq. injection Heq as Hh _. eexists. symmetry. exact Hh.
  - apply truthy_false in Hs.
    split; [|split; [|split]].
    + split; [reflexivity|]. intros _. exact Hs.
    + split; [intros _; eexists; reflexivity|]. intros _. exact Hs.
    + intros _. split; reflexivity.
    + intros Hne. contradiction.
Qed.

(** X24. When [ask_react] answers, the provenance record in the
    response describes the result in the same response: it carries the
    stripped query text, the result's iteration count and cached flag, and
    its cited entities are those found in the result's answer. *)
Theorem ask_react_provenance_matches_result (data : json) (w : World)
    (r : ReactResult) (prov : Provenance.ProvenanceRecord) (md : string) (w' : World) :
  App.ask_react E format_slice data w = (Ok (App.ReactResponse r prov md), w') ->
  exists query ents,
    App.request_query data = Ok query
    /\ query <> EmptyString
    /\ qe_get_all_entities E = Ok ents
    /\ Provenance.query_text prov = query
    /\ Provenance.agent_iterations prov = iterations r
    /\ Provenance.prov_cached prov = cached r
    /\ Provenance.cited_entities prov = Provenance.cited_in (answer_text r) ents
    /\ ProvenanceView.to_markdown format_slice prov = Ok md.
Proof.
  unfold App.ask_react. unfold bind at 1. unfold lift.
  destruct (App.request_query data) as [query|exc]; [|discriminate].
  destruct (Py.truthy query) eqn:Hq; simpl; [|discriminate].
  unfold bind at 1.
  destruct (ReactAgent.answer E query w) as [[[x r0]|exc] w1]; [|discriminate].
  unfold bind at 1. simpl. rewrite build_provenance_cases.
  destruct (qe_get_all_entities E) as [ents|exc]; [|discriminate].
  destruct (Provenance.collect_triples E _ _) as [triples|exc]; [|discriminate].
  destruct (Provenance.sparql_used (steps r0)) as [used|exc]; [|discriminate].
  unfold bind, lift, ret.
  destruct (ProvenanceView.to_markdown format_slice _) as [md0|exc] eqn:Hmd; [|discriminate].
  intros H. injection H as <- <- <- <-.
  exists query, ents. split; [reflexivity|]. split; [exact (truthy_true _ Hq)|].
  split; [reflexivity|]. simpl. repeat split. exact Hmd.
Qed.

(** X25. [api_cache_clear] reports the entries of both agents' answer
    caches together: the message names the sum of the single-shot agent's
    file-cache entries and the reasoning agent's session-cache entries, and
    afterwards both caches and the LRU cache are empty, after two file
    writes. *)
Theorem api_cache_clear_reports_both_agents (w : World) :
  exists w',
    App.api_cache_clear E w
    = (Ok (App.ClearResponse
             ("Cleared " +:+ decimal (size (file_cache w) + size (react_cache w))
              +:+ " total cache entries.")), w')
    /\ file_cache w' = ∅
    /\ react_cache w' = ∅
    /\ lru_entries (build_ctx w') = []
    /\ w_writes w' = (w_writes w + 2)%nat.
Proof.
  unfold App.api_cache_clear, bind, LlmAgent.clear_cache, ReactAgent.clear_cache, bind,
    LlmAgent._save_cache, ReactAgent._save_cache, LlmAgent.cache_clear, ret. simpl.
  destruct (write_text_ok E (w_writes w)); simpl;
    destruct (write_text_ok E (S (w_writes w))); simpl;
    eexists; (split; [reflexivity|]); simpl; repeat split; lia.
Qed.

End Handlers.

Lemma markdown_view_is_capped_witness :
  exists lines,
    ProvenanceView.to_markdown_lines no_slice Cases.crowded_record = Ok lines
    /\ length (Provenance.supporting_triples Cases.crowded_record) = 30%nat
    /\ length (Provenance.sparql_queries_used Cases.crowded_record) = 7%nat
    /\ length lines = (5 + 0 + (4 + 25) + (2 + 5))%nat.
Proof.
  assert (H : exists lines,
             ProvenanceView.to_markdown_lines no_slice Cases.crowded_record = Ok lines).
  { eexists. vm_compute. reflexivity. }
  destruct H as [lines Hlines]. exists lines.
  destruct (proj1 (markdown_view_is_capped no_slice Cases.crowded_record) lines Hlines)
    as [Hlen _].
  split; [exact Hlines|]. split; [reflexivity|]. split; [reflexivity|].
  rewrite Hlen. reflexivity.
Defined.

Lemma chat_history_unchanged_iff_message_is_blank_witness :
  Py.strip Demo.query <> EmptyString
  /\ exists reply,
       fst (App.chat_fast Demo.env_text Demo.query [] Demo.world0)
       = Ok [(Demo.query, reply)].
Proof.
  assert (Hne : Py.strip Demo.query <> EmptyString) by (vm_compute; discriminate).
  assert (Hrun : fst (App.chat_fast Demo.env_text Demo.query [] Demo.world0)
                 = Ok [(Demo.query, Demo.text_answer)])
    by (vm_compute; reflexivity).
  split; [exact Hne|].
  destruct (proj1 (proj2 (proj2 (proj2
              (chat_history_unchanged_iff_message_is_blank Demo.env_text no_slice
                 Demo.query [] Demo.world0))) Hne) _ Hrun) as [reply Hreply].
  exists reply. rewrite Hrun, Hreply. reflexivity.
Defined.

Lemma ask_react_provenance_matches_result_witness :
  exists r prov md w',
    App.ask_react Demo.env_text no_slice (Cases.body Demo.query_variant) Demo.world0
    = (Ok (App.ReactResponse r prov md), w')
    /\ answer_text r = Demo.text_answer
    /\ Provenance.cited_entities prov = ["MAPbI3"]
    /\ Provenance.agent_iterations prov = iterations r
    /\ Provenance.prov_cached prov = cached r.
Proof.
  pose (run := App.ask_react Demo.env_text no_slice (Cases.body Demo.query_variant)
                 Demo.world0).
  assert (H : exists r prov md,
             run = (Ok (App.ReactResponse r prov md), snd run)
             /\ answer_text r = Demo.text_answer
             /\ Provenance.cited_entities prov = ["MAPbI3"]).
  { do 3 eexists. split; [|split]; vm_compute; reflexivity. }
  destruct H as (r & prov & md & Hrun & Htext & Hcited).
  destruct (ask_react_provenance_matches_result Demo.env_text no_slice _ _ r prov md _ Hrun)
    as (query & ents & _ & _ & _ & _ & Hits & Hcached & _).
  exists r, prov, md, (snd run).
  split; [exact Hrun|]. split; [exact Htext|]. split; [exact Hcited|].
  split; [exact Hits | exact Hcached].
Defined.

(** ** The data of the graph view *)

Section Graph.
Context (E : Env).

Lemma add_nodes_invariant (entities : list row) :
  forall (all : list row) (nodes : list GraphViz.Node),
    (forall e : row, e ∈ entities -> e ∈ all) ->
    NoDup (GraphViz.node_id <$> nodes) ->
    Forall (fun n => GraphViz.node_id n <> EmptyString
                     /\ GraphViz.label n = GraphViz.node_id n
                     /\ exists e : row, e ∈ all /\ e !! "name" = Some (GraphViz.node_id n)) nodes ->
    let nodes' := fold_left GraphViz.add_node entities nodes in
    NoDup (GraphViz.node_id <$> nodes')
    /\ Forall (fun n => GraphViz.node_id n <> EmptyString
                        /\ GraphViz.label n = GraphViz.node_id n
                        /\ exists e : row, e ∈ all /\ e !! "name" = Some (GraphViz.node_id n))
         nodes'
    /\ (forall n, n ∈ nodes -> n ∈ nodes')
    /\ (forall (e : row) name, e ∈ entities -> e !! "name" = Some name -> name <> EmptyString ->
          name ∈ GraphViz.node_id <$> nodes').
Proof.
  induction entities as [|e entities IH]; intros all nodes Hsub Hnd Hall; simpl.
  - repeat split; auto. intros e name He. inversion He.
  - assert (Hstep : NoDup (GraphViz.node_id <$> GraphViz.add_node nodes e)
                    /\ Forall (fun n => GraphViz.node_id n <> EmptyString
                                 /\ GraphViz.label n = GraphViz.node_id n
                                 /\ exists e0 : row, e0 ∈ all
                                      /\ e0 !! "name" = Some (GraphViz.node_id n))
                         (GraphViz.add_node nodes e)
                    /\ (forall n, n ∈ nodes -> n ∈ GraphViz.add_node nodes e)
                    /\ (forall name, e !! "name" = Some name -> name <> EmptyString ->
                          name ∈ GraphViz.node_id <$> GraphViz.add_node nodes e)).
    { unfold GraphViz.add_node, Provenance.row_get.
      destruct (e !! "name") as [name|] eqn:Hname; simpl.
      - destruct (Py.truthy name) eqn:Ht; simpl.
        + destruct (bool_decide (name ∈ GraphViz.node_id <$> nodes)) eqn:Hin; simpl.
          * apply bool_decide_eq_true in Hin.
            repeat split; auto. intros name' Hn' _. injection Hn' as <-. exact Hin.
          * apply bool_decide_eq_false in Hin. split.
            { rewrite fmap_app. apply NoDup_app. split; [exact Hnd|]. split.
              - intros x Hx Hx'. simpl in Hx'. apply list_elem_of_singleton in Hx'.
                subst x. contradiction.
              - simpl. apply NoDup_singleton. }
            split.
            { apply Forall_app. split; [exact Hall|]. apply Forall_singleton. simpl.
              split; [exact (truthy_true _ Ht)|]. split; [reflexivity|].
              exists e. split; [apply Hsub; left | exact Hname]. }
            split.
            { intros n Hn. apply elem_of_app. left. exact Hn. }
            intros name' Hn' _. injection Hn' as <-.
            rewrite fmap_app. apply elem_of_app. right. simpl. left.
        + repeat split; auto. intros name' Hn' Hne. injection Hn' as <-.
          apply truthy_false in Ht. contradiction.
      - repeat split; auto. intros name' Hn'. discriminate. }
    destruct Hstep as (Hnd1 & Hall1 & Hkeep1 & Hnew1).
    destruct (IH all (GraphViz.add_node nodes e)
                (fun e0 He0 => Hsub e0 (list_elem_of_further _ _ _ He0)) Hnd1 Hall1)
      as (Hnd2 & Hall2 & Hkeep2 & Hnew2).
    split; [exact Hnd2|]. split; [exact Hall2|]. split.
    + intros n Hn. apply Hkeep2, Hkeep1, Hn.
    + intros e0 name He0 Hname Hne.
      apply elem_of_cons in He0 as [-> | He0].
      * specialize (Hnew1 name Hname Hne).
        apply list_elem_of_fmap in Hnew1 as (n & -> & Hn).
        apply list_elem_of_fmap. exists n. split; [reflexivity | apply Hkeep2, Hn].
      * exact (Hnew2 e0 name He0 Hname Hne).
Qed.

Lemma add_edges_invariant (rels : list row) :
  forall (all : list row) (acc : list GraphViz.Edge * gset (string * string * string)),
    (forall r : row, r ∈ rels -> r ∈ all) ->
    NoDup (fst acc) ->
    (forall ed, ed ∈ fst acc <->
       (GraphViz.edge_from ed, GraphViz.edge_label ed, GraphViz.edge_to ed) ∈ snd acc) ->
    Forall (fun ed => exists r : row, r ∈ all
                        /\ r !! "subjectName" = Some (GraphViz.edge_from ed)
                        /\ r !! "predLabel" = Some (GraphViz.edge_label ed)
                        /\ r !! "objectName" = Some (GraphViz.edge_to ed)
                        /\ GraphViz.edge_from ed <> EmptyString
                        /\ GraphViz.edge_label ed <> EmptyString
                        /\ GraphViz.edge_to ed <> EmptyString) (fst acc) ->
    let acc' := fold_left GraphViz.add_edge rels acc in
    NoDup (fst acc')
    /\ Forall (fun ed => exists r : row, r ∈ all
                          /\ r !! "subjectName" = Some (GraphViz.edge_from ed)
                          /\ r !! "predLabel" = Some (GraphViz.edge_label ed)
                          /\ r !! "objectName" = Some (GraphViz.edge_to ed)
                          /\ GraphViz.edge_from ed <> EmptyString
                          /\ GraphViz.edge_label ed <> EmptyString
                          /\ GraphViz.edge_to ed <> EmptyString) (fst acc')
    /\ (forall (r : row) s p o, r ∈ rels ->
          r !! "subjectName" = Some s -> r !! "predLabel" = Some p ->
          r !! "objectName" = Some o ->
          s <> EmptyString -> p <> EmptyString -> o <> EmptyString ->
          {| GraphViz.edge_from := s; GraphViz.edge_to := o; GraphViz.edge_label := p |}
          ∈ fst acc')
    /\ (forall ed, ed ∈ fst acc -> ed ∈ fst acc').
Proof.
  induction rels as [|r rels IH]; intros all acc Hsub Hnd Hseen Hall; simpl.
  - repeat split; auto. intros r s p o Hr. inversion Hr.
  - set (s := Provenance.row_get "subjectName" r).
    set (p := Provenance.row_get "predLabel" r).
    set (o := Provenance.row_get "objectName" r).
    assert (Hstep :
      NoDup (fst (GraphViz.add_edge acc r))
      /\ (forall ed, ed ∈ fst (GraphViz.add_edge acc r) <->
            (GraphViz.edge_from ed, GraphViz.edge_label ed, GraphViz.edge_to ed)
            ∈ snd (GraphViz.add_edge acc r))
      /\ Forall (fun ed => exists r0 : row, r0 ∈ all
                   /\ r0 !! "subjectName" = Some (GraphViz.edge_from ed)
                   /\ r0 !! "predLabel" = Some (GraphViz.edge_label ed)
                   /\ r0 !! "objectName" = Some (GraphViz.edge_to ed)
                   /\ GraphViz.edge_from ed <> EmptyString
                   /\ GraphViz.edge_label ed <> EmptyString
                   /\ GraphViz.edge_to ed <> EmptyString) (fst (GraphViz.add_edge acc r))
      /\ (forall ed, ed ∈ fst acc -> ed ∈ fst (GraphViz.add_edge acc r))
      /\ (s <> EmptyString -> p <> EmptyString -> o <> EmptyString ->
          {| GraphViz.edge_from := s; GraphViz.edge_to := o; GraphViz.edge_label := p |}
          ∈ fst (GraphViz.add_edge acc r))).
    { unfold GraphViz.add_edge. fold s p o.
      destruct (Py.truthy s && Py.truthy p && Py.truthy o) eqn:Hcond.
      - apply andb_true_iff in Hcond as [Hcond Ho].
        apply andb_true_iff in Hcond as [Hs Hp].
        destruct (bool_decide ((s, p, o) ∈ snd acc)) eqn:Hin.
        + apply bool_decide_eq_true in Hin.
          repeat split; auto; try apply Hseen. intros _ _ _. apply Hseen. exact Hin.
        + apply bool_decide_eq_false in Hin. simpl. split.
          { apply NoDup_app. split; [exact Hnd|]. split; [|apply NoDup_singleton].
            intros ed Hed Hed'. apply list_elem_of_singleton in Hed'. subst ed.
            apply Hin. apply (proj1 (Hseen _) Hed). }
          split.
          { intros ed. rewrite elem_of_app, elem_of_union, list_elem_of_singleton,
              elem_of_singleton, Hseen. split.
            - intros [Hold | ->]; [right; exact Hold | left; reflexivity].
            - intros [Hnew | Hold]; [right | left; exact Hold].
              destruct ed as [f t l]. simpl in Hnew. injection Hnew as -> -> ->.
              reflexivity. }
          split.
          { apply Forall_app. split; [exact Hall|]. apply Forall_singleton. simpl.
            assert (Hget : forall k, Py.truthy (Provenance.row_get k r) = true ->
                                     r !! k = Some (Provenance.row_get k r)).
            { intros k Hk. unfold Provenance.row_get in *.
              destruct (r !! k); [reflexivity | discriminate]. }
            exists r. split; [apply Hsub; left|].
            split; [exact (Hget _ Hs)|]. split; [exact (Hget _ Hp)|].
            split; [exact (Hget _ Ho)|].
            split; [exact (truthy_true _ Hs)|].
            split; [exact (truthy_true _ Hp) | exact (truthy_true _ Ho)]. }
          split.
          { intros ed Hed. apply elem_of_app. left. exact Hed. }
          intros _ _ _. apply elem_of_app. right. left.
      - repeat split; auto; try apply Hseen.
        intros Hs Hp Ho. exfalso.
        assert (Ht : forall x, x <> EmptyString -> Py.truthy x = true)
          by (intros [|c x] Hx; [contradiction | reflexivity]).
        rewrite (Ht s Hs), (Ht p Hp), (Ht o Ho) in Hcond. discriminate. }
    destruct Hstep as (Hnd1 & Hseen1 & Hall1 & Hkeep1 & Hnew1).
    destruct (IH all (GraphViz.add_edge acc r)
                (fun r0 Hr0 => Hsub r0 (list_elem_of_further _ _ _ Hr0)) Hnd1 Hseen1 Hall1)
      as (Hnd2 & Hall2 & Hnew2 & Hkeep2).
    split; [exact Hnd2|]. split; [exact Hall2|]. split.
    + intros r0 s0 p0 o0 Hr0 Hs0 Hp0 Ho0 Hs Hp Ho.
      apply elem_of_cons in Hr0 as [-> | Hr0].
      * apply Hkeep2. subst s p o. unfold Provenance.row_get in Hnew1.
        rewrite Hs0, Hp0, Ho0 in Hnew1. simpl in Hnew1. apply Hnew1; assumption.
      * exact (Hnew2 r0 s0 p0 o0 Hr0 Hs0 Hp0 Ho0 Hs Hp Ho).
    + intros ed Hed. apply Hkeep2, Hkeep1, Hed.
Qed.

(** X26. The nodes of the graph view have pairwise distinct, non-empty
    ids, each the name of a listed entity and equal to the node's label,
    and every listed entity with a non-empty name has its node. *)
Theorem graph_nodes_are_the_entity_names (nodes : list GraphViz.Node)
    (edges : list GraphViz.Edge) :
  GraphViz.get_graph_data_for_viz E = Ok (nodes, edges) ->
  exists entities,
    qe_get_all_entities E = Ok entities
    /\ NoDup (GraphViz.node_id <$> nodes)
    /\ Forall (fun n => GraphViz.node_id n <> EmptyString
                        /\ GraphViz.label n = GraphViz.node_id n
                        /\ exists e : row, e ∈ entities /\ e !! "name" = Some (GraphViz.node_id n))
         nodes
    /\ forall (e : row) name, e ∈ entities -> e !! "name" = Some name -> name <> EmptyString ->
         name ∈ GraphViz.node_id <$> nodes.
Proof.
  unfold GraphViz.get_graph_data_for_viz.
  destruct (qe_get_all_entities E) as [entities|exc]; simpl; [|discriminate].
  destruct (qe_get_relationships E) as [rels|exc]; simpl; [|discriminate].
  intros H. injection H as <- <-. exists entities. split; [reflexivity|].
  destruct (add_nodes_invariant entities entities [] (fun e He => He))
    as (Hnd & Hall & _ & Hnew); simpl; auto; constructor.
Qed.

(** X27. The edges of the graph view are pairwise distinct; each comes
    from a relationship row whose subject, predicate and object are all
    non-empty; and every such row has its edge. *)
Theorem graph_edges_are_the_relationships (nodes : list GraphViz.Node)
    (edges : list GraphViz.Edge) :
  GraphViz.get_graph_data_for_viz E = Ok (nodes, edges) ->
  exists rels,
    qe_get_relationships E = Ok rels
    /\ NoDup edges
    /\ Forall (fun ed => exists r : row, r ∈ rels
                          /\ r !! "subjectName" = Some (GraphViz.edge_from ed)
                          /\ r !! "predLabel" = Some (GraphViz.edge_label ed)
                          /\ r !! "objectName" = Some (GraphViz.edge_to ed)
                          /\ GraphViz.edge_from ed <> EmptyString
                          /\ GraphViz.edge_label ed <> EmptyString
                          /\ GraphViz.edge_to ed <> EmptyString) edges
    /\ forall (r : row) s p o, r ∈ rels ->
         r !! "subjectName" = Some s -> r !! "predLabel" = Some p ->
         r !! "objectName" = Some o ->
         s <> EmptyString -> p <> EmptyString -> o <> EmptyString ->
         {| GraphViz.edge_from := s; GraphViz.edge_to := o; GraphViz.edge_label := p |}
         ∈ edges.
Proof.
  unfold GraphViz.get_graph_data_for_viz.
  destruct (qe_get_all_entities E) as [entities|exc]; simpl; [|discriminate].
  destruct (qe_get_relationships E) as [rels|exc]; simpl; [|discriminate].
  intros H. injection H as <- <-. exists rels. split; [reflexivity|].
  destruct (add_edges_invariant rels rels ([], ∅) (fun r Hr => Hr))
    as (Hnd & Hall & Hnew & _).
  - simpl. constructor.
  - simpl. intros ed. split; intros Hed; [inversion Hed | set_solver].
  - simpl. constructor.
  - simpl in *. auto.
Qed.

End Graph.

Lemma graph_nodes_are_the_entity_names_witness :
  exists nodes edges,
    GraphViz.get_graph_data_for_viz Cases.env_graph = Ok (nodes, edges)
    /\ length Cases.graph_entities = 3%nat
    /\ GraphViz.node_id <$> nodes = [Demo.cigs_name; "MAPbI3"]
    /\ GraphViz.node_type <$> nodes = ["Absorber"; "Absorber"]
    /\ NoDup (GraphViz.node_id <$> nodes).
Proof.
  assert (H : exists nodes edges,
             GraphViz.get_graph_data_for_viz Cases.env_graph = Ok (nodes, edges)
             /\ GraphViz.node_id <$> nodes = [Demo.cigs_name; "MAPbI3"]
             /\ GraphViz.node_type <$> nodes = ["Absorber"; "Absorber"]).
  { do 2 eexists. split; [|split]; vm_compute; reflexivity. }
  destruct H as (nodes & edges & Hrun & Hids & Htypes).
  destruct (graph_nodes_are_the_entity_names Cases.env_graph nodes edges Hrun)
    as (entities & _ & Hnd & _).
  exists nodes, edges. split; [exact Hrun|]. split; [reflexivity|].
  split; [exact Hids|]. split; [exact Htypes | exact Hnd].
Defined.

Lemma graph_edges_are_the_relationships_witness :
  exists nodes edges,
    GraphViz.get_graph_data_for_viz Cases.env_graph = Ok (nodes, edges)
    /\ length Cases.graph_relationships = 3%nat
    /\ edges = [ {| GraphViz.edge_from := "MAPbI3";
                    GraphViz.edge_to := "Perovskite solar cell";
                    GraphViz.edge_label := "used in" |} ]
    /\ NoDup edges.
Proof.
  assert (H : exists nodes edges,
             GraphViz.get_graph_data_for_viz Cases.env_graph = Ok (nodes, edges)
             /\ edges = [ {| GraphViz.edge_from := "MAPbI3";
                             GraphViz.edge_to := "Perovskite solar cell";
                             GraphViz.edge_label := "used in" |} ]).
  { do 2 eexists. split; vm_compute; reflexivity. }
  destruct H as (nodes & edges & Hrun & Hedges).
  destruct (graph_edges_are_the_relationships Cases.env_graph nodes edges Hrun)
    as (rels & _ & Hnd & _).
  exists nodes, edges. split; [exact Hrun|]. split; [reflexivity|].
  split; [exact Hedges | exact Hnd].
Defined.
